(** * Study-buddy web app: content library, delete and upload controllers

    A shallow embedding of the content page ([ContentPage]: [fetchSlides],
    [deleteSlide]) and of the upload form ([FileUpload]: [handleFileSelect],
    [handleUpload]), with the properties stated for them.

    The handlers are asynchronous TypeScript functions that set React state,
    raise toasts, write to the console and call a hosted store.  They are
    embedded in a small monad over a [world] that holds the component state,
    the store, and the chronological trace of every effect; JavaScript's
    completions (normal, [return], [throw]) are the monad's outcomes. *)

From Stdlib Require Import String Ascii List NArith Bool Lia Arith.
From Stdlib Require Import Permutation DecimalString.
Import ListNotations.
Local Open Scope string_scope.
Local Open Scope list_scope.

(* ===================================================================== *)
(** * JavaScript strings *)
(* ===================================================================== *)

(** Strings are sequences of code units; the model covers the code units
    below 256, one [ascii] each. *)
Module Js.

(** [s.includes(sub)]: [sub] occurs in [s] (case-sensitively). *)
Fixpoint includes (s sub : string) : bool :=
  prefix sub s ||
  match s with
  | EmptyString => false
  | String _ s' => includes s' sub
  end.

(** A string is truthy when it is not empty. *)
Definition truthy (s : string) : bool :=
  match s with EmptyString => false | String _ _ => true end.

(** [a || b] on strings. *)
Definition or_else (a b : string) : string := if truthy a then a else b.

(** White space removed by [trim]: TAB, LF, VT, FF, CR, SPACE, NBSP. *)
Definition is_space (c : ascii) : bool :=
  let n := N_of_ascii c in
  ((9 <=? n) && (n <=? 13) || (n =? 32) || (n =? 160))%N.

Fixpoint trim_start (s : string) : string :=
  match s with
  | EmptyString => EmptyString
  | String c s' => if is_space c then trim_start s' else s
  end.

(** Drops the trailing white space: a character is kept when it is not a
    space or when something is kept after it. *)
Fixpoint trim_end (s : string) : string :=
  match s with
  | EmptyString => EmptyString
  | String c s' =>
      match trim_end s' with
      | EmptyString => if is_space c then EmptyString else String c EmptyString
      | r => String c r
      end
  end.

Definition trim (s : string) : string := trim_end (trim_start s).

(** [s.split(".").pop()]: what follows the last dot, the whole string when
    there is none. *)
Fixpoint split_pop (s acc : string) : string :=
  match s with
  | EmptyString => acc
  | String c s' =>
      if Ascii.eqb c "."%char then split_pop s' EmptyString
      else split_pop s' (acc ++ String c EmptyString)
  end.

Definition extension (name : string) : string := split_pop name EmptyString.

(** A number printed in a template literal. *)
Definition of_N (n : N) : string := NilZero.string_of_uint (N.to_uint n).

(** [array.includes(x)] on an array of strings. *)
Definition array_includes (l : list string) (x : string) : bool :=
  existsb (String.eqb x) l.

(** [[...new Set(l)]]: the distinct elements, in order of first occurrence. *)
Fixpoint distinct_from (seen l : list string) : list string :=
  match l with
  | [] => []
  | x :: l' =>
      if array_includes seen x then distinct_from seen l'
      else x :: distinct_from (x :: seen) l'
  end.

Definition distinct (l : list string) : list string := distinct_from [] l.

End Js.

(* ===================================================================== *)
(** * Data model *)
(* ===================================================================== *)

(** A row of the [slides] table. *)
Record slide := {
  id : string;
  title : string;
  description : string;
  course_id : string;
  file_url : string;
  file_path : string;
  file_type : string;
  file_size : N;
  created_at : N
}.

(** The values of the file-type and sort selectors, as the page renders
    them ([SelectItem value=...]). *)
Inductive file_type_filter := FtAll | FtImage | FtPdf | FtOther.
Inductive sort_order := Newest | Oldest | AZ | ZA.

Definition file_type_value (f : file_type_filter) : string :=
  match f with
  | FtAll => "all" | FtImage => "image" | FtPdf => "pdf" | FtOther => "other"
  end.

Definition sort_value (o : sort_order) : string :=
  match o with
  | Newest => "newest" | Oldest => "oldest" | AZ => "a-z" | ZA => "z-a"
  end.

(* ===================================================================== *)
(** * The query builder *)
(* ===================================================================== *)

(** One call on the store client's query builder. *)
Inductive clause :=
| Q_ilike (column pattern : string)
| Q_eq (column value : string)
| Q_not (column operator value : string)
| Q_order (column : string) (ascending : bool).

(** A query on [slides]: [select("*")] followed by the builder calls, first
    call first. *)
Definition query := list clause.

Section BuildQuery.

Variables (searchQuery courseFilter fileTypeFilter sortOrder : string).

(** Lines 113-147 of the content page. *)
Definition buildQuery : query :=
  let query := [] in
  let query :=
    if Js.truthy searchQuery
    then query ++ [Q_ilike "title" ("%" ++ searchQuery ++ "%")]
    else query in
  let query :=
    if Js.truthy courseFilter
    then query ++ [Q_eq "course_id" courseFilter]
    else query in
  let query :=
    if negb (fileTypeFilter =? "all") then
      if fileTypeFilter =? "image" then
        query ++ [Q_ilike "file_type" "image/%"]
      else if fileTypeFilter =? "pdf" then
        query ++ [Q_eq "file_type" "application/pdf"]
      else if fileTypeFilter =? "other" then
        query ++ [Q_not "file_type" "ilike" "image/%";
                  Q_not "file_type" "eq" "application/pdf"]
      else query
    else query in
  let query :=
    if sortOrder =? "newest" then query ++ [Q_order "created_at" false]
    else if sortOrder =? "oldest" then query ++ [Q_order "created_at" true]
    else if sortOrder =? "a-z" then query ++ [Q_order "title" true]
    else if sortOrder =? "z-a" then query ++ [Q_order "title" false]
    else query in
  query.

End BuildQuery.

(** The composition rules as the specification words them, for comparison
    with [buildQuery]. *)
Module QuerySpec.

Definition search_part (searchText : string) : query :=
  match searchText with
  | EmptyString => []
  | _ => [Q_ilike "title" ("%" ++ searchText ++ "%")]
  end.

Definition course_part (course : string) : query :=
  match course with
  | EmptyString => []
  | _ => [Q_eq "course_id" course]
  end.

Definition type_part (f : file_type_filter) : query :=
  match f with
  | FtAll => []
  | FtImage => [Q_ilike "file_type" "image/%"]
  | FtPdf => [Q_eq "file_type" "application/pdf"]
  | FtOther => [Q_not "file_type" "ilike" "image/%";
                Q_not "file_type" "eq" "application/pdf"]
  end.

Definition order_part (o : sort_order) : clause :=
  match o with
  | Newest => Q_order "created_at" false
  | Oldest => Q_order "created_at" true
  | AZ => Q_order "title" true
  | ZA => Q_order "title" false
  end.

Definition composed (searchText course : string)
    (f : file_type_filter) (o : sort_order) : query :=
  search_part searchText ++ course_part course ++ type_part f ++ [order_part o].

End QuerySpec.

(* ===================================================================== *)
(** * The hosted store *)
(* ===================================================================== *)

(** What a failed call carries: the [message] property, whether the value
    is an instance of [Error], and what [JSON.stringify] prints for it. *)
Record error_object := {
  message : string;
  is_Error : bool;
  json : string
}.

(** [new Error(msg)]; its own properties are not enumerable, so it prints
    as an empty object. *)
Definition new_Error (msg : string) : error_object :=
  {| message := msg; is_Error := true; json := "{}" |}.

(** A value raised by [throw] or by a rejected promise. *)
Inductive thrown :=
| ThrownObject (e : error_object)
| ThrownPrimitive.

(** A browser [File]. *)
Record file := {
  f_name : string;
  f_type : string;
  f_size : N
}.

(** The object handed to [insert]. *)
Record new_slide := {
  ns_title : string;
  ns_description : string;
  ns_course_id : string;
  ns_file_path : string;
  ns_file_url : string;
  ns_file_type : string;
  ns_file_size : N
}.

(** The requests the two components send. *)
Inductive remote_call :=
| HeadCount                                (* select("*", {count, head}) *)
| Select (q : query)                       (* select("*") + builder calls *)
| SelectCourseIds                          (* select("course_id") *)
| SelectIdLimit1                           (* select("id").limit(1) *)
| StorageRemove (path : string)            (* storage.remove([path]) *)
| DeleteById (slideId : string)            (* delete().eq("id", ..).select() *)
| RpcDeleteSlide (slideId : string)        (* rpc("delete_slide", ..) *)
| StorageUpload (path : string) (f : file) (* storage.upload(path, file) *)
| InsertSlide (row : new_slide).           (* insert([row]) *)

Inductive payload :=
| Rows (l : list slide)
| Strings (l : list string)
| NoPayload.

(** The [{ data, error }] object a call resolves to. *)
Record response := {
  r_data : option payload;
  r_error : option error_object
}.

Definition rows_of (p : payload) : list slide :=
  match p with Rows l => l | _ => [] end.

Definition strings_of (p : payload) : list string :=
  match p with Strings l => l | _ => [] end.

(** How the environment lets one call go wrong. *)
Inductive fault :=
| Succeeds                    (* served by the store *)
| NullData                    (* resolves with neither data nor error *)
| Fails (e : error_object)    (* resolves with [error] set *)
| Throws (t : thrown).        (* the promise is rejected *)

(** ** A reference model of the store

    The store is an external service; this is the model the properties
    about "the remote state" are stated against.  A call that goes wrong
    leaves the store as it was. *)
Module Store.

Record t := {
  table : list slide;
  blobs : list string;
  serial : N;
  clock : N
}.

Definition lower (c : ascii) : ascii :=
  let n := N_of_ascii c in
  if ((65 <=? n) && (n <=? 90))%N then ascii_of_N (n + 32) else c.

(** SQL [ILIKE]: [%] stands for any run of characters, [_] for one. *)
Fixpoint ilike (pattern text : string) : bool :=
  match pattern with
  | EmptyString => negb (Js.truthy text)
  | String p pattern' =>
      if Ascii.eqb p "%"%char then
        (fix skip (t : string) : bool :=
           ilike pattern' t ||
           match t with
           | EmptyString => false
           | String _ t' => skip t'
           end) text
      else
        match text with
        | EmptyString => false
        | String c text' =>
            (Ascii.eqb p "_"%char || Ascii.eqb (lower p) (lower c))
            && ilike pattern' text'
        end
  end.

Definition text_column (column : string) (s : slide) : option string :=
  if column =? "id" then Some (id s)
  else if column =? "title" then Some (title s)
  else if column =? "description" then Some (description s)
  else if column =? "course_id" then Some (course_id s)
  else if column =? "file_url" then Some (file_url s)
  else if column =? "file_path" then Some (file_path s)
  else if column =? "file_type" then Some (file_type s)
  else None.

Definition test (operator value : string) (field : string) : bool :=
  if operator =? "ilike" then ilike value field
  else if operator =? "eq" then field =? value
  else false.

(** Does the row pass the clause?  An ordering clause filters nothing. *)
Definition satisfies (c : clause) (s : slide) : bool :=
  match c with
  | Q_ilike column pattern =>
      match text_column column s with
      | Some v => test "ilike" pattern v
      | None => false
      end
  | Q_eq column value =>
      match text_column column s with
      | Some v => test "eq" value v
      | None => false
      end
  | Q_not column operator value =>
      match text_column column s with
      | Some v => negb (test operator value v)
      | None => false
      end
  | Q_order _ _ => true
  end.

Definition matches (q : query) (s : slide) : bool :=
  forallb (fun c => satisfies c s) q.

(** [a] may come before [b] under [order(column, {ascending})]; text is
    compared code unit by code unit. *)
Definition before (column : string) (ascending : bool) (a b : slide) : bool :=
  let le x y :=
    if column =? "created_at" then (created_at x <=? created_at y)%N
    else if column =? "file_size" then (file_size x <=? file_size y)%N
    else match text_column column x, text_column column y with
         | Some u, Some v => String.leb u v
         | _, _ => true
         end in
  if ascending then le a b else le b a.

Fixpoint insert_sorted (le : slide -> slide -> bool) (x : slide)
    (l : list slide) : list slide :=
  match l with
  | [] => [x]
  | y :: l' => if le x y then x :: l else y :: insert_sorted le x l'
  end.

Definition sort (le : slide -> slide -> bool) (l : list slide) : list slide :=
  fold_right (insert_sorted le) [] l.

(** The ordering clauses apply from last to first, so the first one is the
    major key. *)
Definition order_rows (q : query) (rows : list slide) : list slide :=
  fold_right
    (fun c acc =>
       match c with
       | Q_order column ascending => sort (before column ascending) acc
       | _ => acc
       end)
    rows q.

Definition run_query (q : query) (st : t) : list slide :=
  order_rows q (filter (matches q) (table st)).

Definition has_id (slideId : string) (s : slide) : bool := id s =? slideId.

Definition stored (row : new_slide) (st : t) : slide :=
  {| id := Js.of_N (serial st);
     title := ns_title row;
     description := ns_description row;
     course_id := ns_course_id row;
     file_url := ns_file_url row;
     file_path := ns_file_path row;
     file_type := ns_file_type row;
     file_size := ns_file_size row;
     created_at := clock st |}.

(** The store serving one call: the payload and the store afterwards. *)
Definition serve (c : remote_call) (st : t) : payload * t :=
  match c with
  | HeadCount => (NoPayload, st)
  | Select q => (Rows (run_query q st), st)
  | SelectCourseIds => (Strings (map course_id (table st)), st)
  | SelectIdLimit1 => (Strings (map id (firstn 1 (table st))), st)
  | StorageRemove path =>
      (NoPayload,
       {| table := table st;
          blobs := filter (fun p => negb (p =? path)) (blobs st);
          serial := serial st; clock := clock st |})
  | DeleteById slideId =>
      (Rows (filter (has_id slideId) (table st)),
       {| table := filter (fun s => negb (has_id slideId s)) (table st);
          blobs := blobs st; serial := serial st; clock := clock st |})
  | RpcDeleteSlide slideId =>
      (NoPayload,
       {| table := filter (fun s => negb (has_id slideId s)) (table st);
          blobs := blobs st; serial := serial st; clock := clock st |})
  | StorageUpload path _ =>
      (NoPayload,
       {| table := table st; blobs := path :: blobs st;
          serial := serial st; clock := clock st |})
  | InsertSlide row =>
      (NoPayload,
       {| table := table st ++ [stored row st]; blobs := blobs st;
          serial := N.succ (serial st); clock := clock st |})
  end.

End Store.

(* ===================================================================== *)
(** * Component state, effects and the world *)
(* ===================================================================== *)

(** The [useState] cells of [ContentPage]. *)
Module Page.

Record state := {
  slides : list slide;
  isUploading : bool;
  searchQuery : string;
  courseFilter : string;
  courses : list string;
  isLoaded : bool;
  isFetchingSlides : bool;
  error : option string;
  fileTypeFilter : string;
  sortOrder : string
}.

Definition initial : state :=
  {| slides := []; isUploading := false; searchQuery := "";
     courseFilter := ""; courses := []; isLoaded := false;
     isFetchingSlides := false; error := None;
     fileTypeFilter := "all"; sortOrder := "newest" |}.

(** The calls of the state setters the two handlers make. *)
Inductive update :=
| SetSlides (l : list slide)
| RemoveSlide (slideId : string)   (* setSlides(prev => prev.filter(..)) *)
| SetError (e : option string)
| SetIsFetchingSlides (b : bool)
| SetCourses (l : list string)
| SetIsLoaded (b : bool).

Definition apply (u : update) (s : state) : state :=
  match u with
  | SetSlides l =>
      {| slides := l; isUploading := isUploading s;
         searchQuery := searchQuery s; courseFilter := courseFilter s;
         courses := courses s; isLoaded := isLoaded s;
         isFetchingSlides := isFetchingSlides s; error := error s;
         fileTypeFilter := fileTypeFilter s; sortOrder := sortOrder s |}
  | RemoveSlide slideId =>
      {| slides := filter (fun x => negb (id x =? slideId)) (slides s);
         isUploading := isUploading s;
         searchQuery := searchQuery s; courseFilter := courseFilter s;
         courses := courses s; isLoaded := isLoaded s;
         isFetchingSlides := isFetchingSlides s; error := error s;
         fileTypeFilter := fileTypeFilter s; sortOrder := sortOrder s |}
  | SetError e =>
      {| slides := slides s; isUploading := isUploading s;
         searchQuery := searchQuery s; courseFilter := courseFilter s;
         courses := courses s; isLoaded := isLoaded s;
         isFetchingSlides := isFetchingSlides s; error := e;
         fileTypeFilter := fileTypeFilter s; sortOrder := sortOrder s |}
  | SetIsFetchingSlides b =>
      {| slides := slides s; isUploading := isUploading s;
         searchQuery := searchQuery s; courseFilter := courseFilter s;
         courses := courses s; isLoaded := isLoaded s;
         isFetchingSlides := b; error := error s;
         fileTypeFilter := fileTypeFilter s; sortOrder := sortOrder s |}
  | SetCourses l =>
      {| slides := slides s; isUploading := isUploading s;
         searchQuery := searchQuery s; courseFilter := courseFilter s;
         courses := l; isLoaded := isLoaded s;
         isFetchingSlides := isFetchingSlides s; error := error s;
         fileTypeFilter := fileTypeFilter s; sortOrder := sortOrder s |}
  | SetIsLoaded b =>
      {| slides := slides s; isUploading := isUploading s;
         searchQuery := searchQuery s; courseFilter := courseFilter s;
         courses := courses s; isLoaded := b;
         isFetchingSlides := isFetchingSlides s; error := error s;
         fileTypeFilter := fileTypeFilter s; sortOrder := sortOrder s |}
  end.

End Page.

(** The [useState] cells of [FileUpload]. *)
Module Form.

Record state := {
  isDragging : bool;
  isUploading : bool;
  uploadProgress : N;
  title : string;
  description : string;
  courseId : string;
  selectedFile : option file
}.

Definition initial : state :=
  {| isDragging := false; isUploading := false; uploadProgress := 0;
     title := ""; description := ""; courseId := ""; selectedFile := None |}.

Inductive update :=
| SetIsDragging (b : bool)
| SetIsUploading (b : bool)
| SetUploadProgress (n : N)
| TickUploadProgress               (* setUploadProgress(prev => ..) *)
| SetTitle (s : string)
| SetDescription (s : string)
| SetCourseId (s : string)
| SetSelectedFile (f : option file).

(** The updater of the simulated progress bar (lines 141-144). *)
Definition tick (prev : N) : N :=
  let newProgress := (prev + 5)%N in
  if (newProgress <? 90)%N then newProgress else prev.

Definition apply (u : update) (s : state) : state :=
  match u with
  | SetIsDragging b =>
      {| isDragging := b; isUploading := isUploading s;
         uploadProgress := uploadProgress s; title := title s;
         description := description s; courseId := courseId s;
         selectedFile := selectedFile s |}
  | SetIsUploading b =>
      {| isDragging := isDragging s; isUploading := b;
         uploadProgress := uploadProgress s; title := title s;
         description := description s; courseId := courseId s;
         selectedFile := selectedFile s |}
  | SetUploadProgress n =>
      {| isDragging := isDragging s; isUploading := isUploading s;
         uploadProgress := n; title := title s;
         description := description s; courseId := courseId s;
         selectedFile := selectedFile s |}
  | TickUploadProgress =>
      {| isDragging := isDragging s; isUploading := isUploading s;
         uploadProgress := tick (uploadProgress s); title := title s;
         description := description s; courseId := courseId s;
         selectedFile := selectedFile s |}
  | SetTitle x =>
      {| isDragging := isDragging s; isUploading := isUploading s;
         uploadProgress := uploadProgress s; title := x;
         description := description s; courseId := courseId s;
         selectedFile := selectedFile s |}
  | SetDescription x =>
      {| isDragging := isDragging s; isUploading := isUploading s;
         uploadProgress := uploadProgress s; title := title s;
         description := x; courseId := courseId s;
         selectedFile := selectedFile s |}
  | SetCourseId x =>
      {| isDragging := isDragging s; isUploading := isUploading s;
         uploadProgress := uploadProgress s; title := title s;
         description := description s; courseId := x;
         selectedFile := selectedFile s |}
  | SetSelectedFile f =>
      {| isDragging := isDragging s; isUploading := isUploading s;
         uploadProgress := uploadProgress s; title := title s;
         description := description s; courseId := courseId s;
         selectedFile := f |}
  end.

End Form.

Inductive level := Log | Warn | Error.

Inductive variant := Default | Destructive.

Record toast_message := {
  toast_title : string;
  toast_description : string;
  toast_variant : variant
}.

(** The metadata object passed to [onUploadComplete]. *)
Record upload_metadata := {
  um_title : string;
  um_description : string;
  um_courseId : string;
  um_fileName : string;
  um_fileType : string;
  um_fileSize : N;
  um_file_path : string
}.

(** Everything a handler does that is visible outside it, in the order it
    happens.  A console call is recorded by its leading text; the objects
    printed after it are left out. *)
Inductive event :=
| Console (l : level) (text : string)
| Toast (t : toast_message)
| Remote (c : remote_call)
| SetPage (u : Page.update)
| SetForm (u : Form.update)
| SetTimeout (delay : N) (retryCount : N)  (* setTimeout(() => fetchSlides(n), delay) *)
| Sleep (delay : N)                         (* await new Promise(r => setTimeout(r, delay)) *)
| RunDiagnostics                            (* runDiagnostics(), not awaited *)
| SetInterval (period : N)
| ClearInterval
| ClearFileInput                            (* fileInputRef.current.value = "" *)
| OnUploadComplete (fileUrl : string) (metadata : upload_metadata).

(** What a render of [ContentPage] closes its handlers over: the client and
    the session of the provider and the state cells as rendered. *)
Record closure := {
  supabase : bool;
  session : bool;
  rendered : Page.state
}.

(** A pending [setTimeout(() => fetchSlides(n), delay)]. *)
Record timer := {
  t_delay : N;
  t_closure : closure;
  t_retryCount : N
}.

(** What the handlers read from their surroundings without changing it. *)
Record environment := {
  faults : nat -> remote_call -> fault;   (* by call number and request *)
  date_now : N;                           (* Date.now() *)
  random_suffix : string;   (* Math.random().toString(36).substring(2, 15) *)
  upload_ticks : nat;       (* interval ticks while the upload is awaited *)
  getPublicUrl : string -> string         (* storage.getPublicUrl(path) *)
}.

Record world := {
  page : Page.state;
  form : Form.state;
  backend : Store.t;
  ncalls : nat;
  env : environment;
  trace : list event;
  timers : list timer
}.

(* ===================================================================== *)
(** * The monad of handlers *)
(* ===================================================================== *)

(** How a piece of a handler completes. *)
Inductive outcome (A : Type) :=
| Normal (a : A)
| Returned             (* a [return] statement was reached *)
| Raise (t : thrown)   (* a [throw], or an awaited promise was rejected *)
| OutOfFuel.           (* a loop of the model was cut short *)

Arguments Normal {A} a.
Arguments Returned {A}.
Arguments Raise {A} t.
Arguments OutOfFuel {A}.

Definition M (A : Type) : Type := world -> outcome A * world.

Definition ret {A} (a : A) : M A := fun w => (Normal a, w).

Definition bind {A B} (m : M A) (f : A -> M B) : M B :=
  fun w =>
    match m w with
    | (Normal a, w') => f a w'
    | (Returned, w') => (Returned, w')
    | (Raise t, w') => (Raise t, w')
    | (OutOfFuel, w') => (OutOfFuel, w')
    end.

Declare Scope js_scope.
Delimit Scope js_scope with js.
Notation "x <- m ;; k" := (bind m (fun x => k))
  (at level 100, m at next level, right associativity) : js_scope.
Notation "m ;; k" := (bind m (fun _ => k))
  (at level 100, right associativity) : js_scope.
Local Open Scope js_scope.

Definition throw {A} (t : thrown) : M A := fun w => (Raise t, w).

Definition return_ {A} : M A := fun w => (Returned, w).

(** [try { m } catch (e) { h e }]. *)
Definition try_catch {A} (m : M A) (h : thrown -> M A) : M A :=
  fun w =>
    match m w with
    | (Raise t, w') => h t w'
    | r => r
    end.

(** [try { m } finally { fin }]: [fin] runs however [m] completes, and an
    abrupt completion of [fin] replaces that of [m]. *)
Definition try_finally {A} (m : M A) (fin : M unit) : M A :=
  fun w =>
    match m w with
    | (OutOfFuel, w') => (OutOfFuel, w')
    | (r, w') =>
        match fin w' with
        | (Normal _, w'') => (r, w'')
        | (Returned, w'') => (Returned, w'')
        | (Raise t, w'') => (Raise t, w'')
        | (OutOfFuel, w'') => (OutOfFuel, w'')
        end
    end.

(** The body of a function: a [return] inside it completes the call. *)
Definition function_body (m : M unit) : M unit :=
  fun w =>
    match m w with
    | (Returned, w') => (Normal tt, w')
    | r => r
    end.

Definition when (b : bool) (m : M unit) : M unit := if b then m else ret tt.

(** ** Primitive effects *)

(** The world with one more event in its trace. *)
Definition record (e : event) (w : world) : world :=
  {| page := page w; form := form w; backend := backend w;
     ncalls := ncalls w; env := env w;
     trace := trace w ++ [e]; timers := timers w |}.

Definition with_page (p : Page.state) (w : world) : world :=
  {| page := p; form := form w; backend := backend w;
     ncalls := ncalls w; env := env w;
     trace := trace w; timers := timers w |}.

Definition with_form (f : Form.state) (w : world) : world :=
  {| page := page w; form := f; backend := backend w;
     ncalls := ncalls w; env := env w;
     trace := trace w; timers := timers w |}.

Definition with_backend (b : Store.t) (w : world) : world :=
  {| page := page w; form := form w; backend := b;
     ncalls := ncalls w; env := env w;
     trace := trace w; timers := timers w |}.

Definition with_timers (l : list timer) (w : world) : world :=
  {| page := page w; form := form w; backend := backend w;
     ncalls := ncalls w; env := env w;
     trace := trace w; timers := l |}.

Definition count_call (w : world) : world :=
  {| page := page w; form := form w; backend := backend w;
     ncalls := S (ncalls w); env := env w;
     trace := trace w; timers := timers w |}.

Definition emit (e : event) : M unit :=
  fun w => (Normal tt, record e w).

Definition console (l : level) (text : string) : M unit := emit (Console l text).

(** A toast raised without a [variant] shows as the default one. *)
Definition toast (title description : string) (v : variant) : M unit :=
  emit (Toast {| toast_title := title; toast_description := description;
                 toast_variant := v |}).

Definition set_page (u : Page.update) : M unit :=
  fun w => (Normal tt, record (SetPage u) (with_page (Page.apply u (page w)) w)).

Definition set_form (u : Form.update) : M unit :=
  fun w => (Normal tt, record (SetForm u) (with_form (Form.apply u (form w)) w)).

Definition read_form : M Form.state := fun w => (Normal (form w), w).

Definition read_env : M environment := fun w => (Normal (env w), w).

(** Reading a property of a client that is [null] raises a [TypeError]. *)
Definition null_client (c : remote_call) : thrown :=
  let property :=
    match c with
    | StorageRemove _ | StorageUpload _ _ => "storage"
    | RpcDeleteSlide _ => "rpc"
    | _ => "from"
    end in
  ThrownObject
    (new_Error ("Cannot read properties of null (reading '" ++ property ++ "')")).

(** Sending a request: it is recorded and numbered. *)
Definition issue (client : bool) (c : remote_call) : M nat :=
  fun w =>
    if client then (Normal (ncalls w), count_call (record (Remote c) w))
    else (Raise (null_client c), w).

(** What a request resolves to under a fault; the store serves it when
    there is none. *)
Definition settled (f : fault) (c : remote_call) (w : world)
    : outcome response * world :=
  match f with
  | Succeeds =>
      (Normal {| r_data := Some (fst (Store.serve c (backend w)));
                 r_error := None |},
       with_backend (snd (Store.serve c (backend w))) w)
  | NullData => (Normal {| r_data := None; r_error := None |}, w)
  | Fails e => (Normal {| r_data := None; r_error := Some e |}, w)
  | Throws t => (Raise t, w)
  end.

(** The request settling: the environment decides whether it goes wrong. *)
Definition settle (n : nat) (c : remote_call) : M response :=
  fun w => settled (faults (env w) n c) c w.

(** An awaited call on the client. *)
Definition remote (client : bool) (c : remote_call) : M response :=
  n <- issue client c ;;
  settle n c.

(** [setTimeout(() => fetchSlides(n), delay)]. *)
Definition set_timeout (delay : N) (c : closure) (retryCount : N) : M unit :=
  fun w =>
    (Normal tt,
     record (SetTimeout delay retryCount)
       (with_timers (timers w ++ [{| t_delay := delay; t_closure := c;
                                     t_retryCount := retryCount |}]) w)).

(* ===================================================================== *)
(** * The content page *)
(* ===================================================================== *)

(** The text a [catch] block extracts from what it caught (lines 214-221
    and 468-473). *)
Definition errorMessage_of (fallback : string) (error : thrown) : string :=
  match error with
  | ThrownObject e => if is_Error e then message e else json e
  | ThrownPrimitive => fallback
  end.

(** [isNetworkError] (lines 227-230). *)
Definition isNetworkError (errorMessage : string) : bool :=
  Js.includes errorMessage "Failed to fetch"
  || Js.includes errorMessage "NetworkError"
  || Js.includes errorMessage "connection".

Definition maxRetries : N := 2.

(** The message put in the error banner when no retry follows (lines
    258-274). *)
Definition classified_message (errorMessage : string) : string :=
  if Js.includes errorMessage "Failed to fetch"
     || Js.includes errorMessage "NetworkError"
  then "Network connection error. Please check your internet connection and try again."
  else if Js.includes errorMessage "permission"
          || Js.includes errorMessage "not allowed"
  then "You don't have permission to view these slides. Please check your account."
  else "Failed to load slides: " ++ errorMessage.

(** The guards at the top of [fetchSlides] (lines 71-98). *)
Definition fetch_guards (c : closure) : M unit :=
  console Log "Fetching slides with filters:" ;;
  set_page (Page.SetIsFetchingSlides true) ;;
  set_page (Page.SetError None) ;;
  when (negb (supabase c))
    (console Error "Supabase client is not initialized" ;;
     set_page (Page.SetError
       (Some "Database connection not available. Please try refreshing the page.")) ;;
     set_page (Page.SetIsFetchingSlides false) ;;
     return_) ;;
  when (negb (session c))
    (console Error "No active session" ;;
     set_page (Page.SetError (Some "You need to be logged in to view slides.")) ;;
     set_page (Page.SetIsFetchingSlides false) ;;
     return_).

(** The secondary fetch of the course identifiers (lines 180-204). *)
Definition fetch_courses (c : closure) : M unit :=
  when (negb (Page.isLoaded (rendered c)))
    (try_catch
       (courseResult <- remote (supabase c) SelectCourseIds ;;
        match r_error courseResult with
        | Some coursesError =>
            console Error "Error fetching course IDs:" ;;
            return_
        | None =>
            match r_data courseResult with
            | Some allSlides =>
                let uniqueCourses := Js.distinct (strings_of allSlides) in
                set_page (Page.SetCourses uniqueCourses) ;;
                set_page (Page.SetIsLoaded true)
            | None => ret tt
            end
        end)
       (fun courseError => console Error "Error processing courses:")).

(** The query phase: the inner [try] of [fetchSlides] (lines 101-208). *)
Definition fetch_query (c : closure) : M unit :=
  try_catch
    (testQuery <- remote (supabase c) HeadCount ;;
     console Log "Test query result:" ;;
     match r_error testQuery with
     | Some e =>
         throw (ThrownObject
                  (new_Error ("Connection test failed: " ++ message e)))
     | None => ret tt
     end ;;
     let query :=
       buildQuery (Page.searchQuery (rendered c))
                  (Page.courseFilter (rendered c))
                  (Page.fileTypeFilter (rendered c))
                  (Page.sortOrder (rendered c)) in
     console Log "Executing Supabase query..." ;;
     result <- remote (supabase c) (Select query) ;;
     console Log "Query completed with status:" ;;
     match r_error result with
     | Some slidesError =>
         console Error "Error in Supabase query:" ;;
         console Error "Full error object:" ;;
         throw (ThrownObject
                  (new_Error ("Database query failed: "
                              ++ Js.or_else (message slidesError)
                                            "Unknown database error")))
     | None => ret tt
     end ;;
     match r_data result with
     | None =>
         console Warn "No data returned but no error either" ;;
         set_page (Page.SetSlides [])
     | Some slideData =>
         console Log ("Fetched "
                      ++ Js.of_N (N.of_nat (length (rows_of slideData)))
                      ++ " slides from database") ;;
         set_page (Page.SetSlides (rows_of slideData))
     end ;;
     fetch_courses c)
    (fun queryError =>
       console Error "Query execution error:" ;;
       throw queryError).

(** The outer [catch] of [fetchSlides] (lines 209-284). *)
Definition fetch_handler (c : closure) (retryCount : N) (error : thrown)
    : M unit :=
  set_page (Page.SetSlides []) ;;
  let errorMessage := errorMessage_of "Unknown error" error in
  console Error "Error fetching slides:" ;;
  let isNetworkError := isNetworkError errorMessage in
  when (isNetworkError && (retryCount <? maxRetries)%N)
    (let nextRetryCount := (retryCount + 1)%N in
     let delay := (1000 * nextRetryCount)%N in
     console Log ("Will retry fetching slides in " ++ Js.of_N delay
                  ++ "ms (attempt " ++ Js.of_N nextRetryCount ++ " of "
                  ++ Js.of_N maxRetries ++ ")") ;;
     toast "Connection issue"
           ("Retrying in " ++ Js.of_N (delay / 1000)%N ++ " seconds... ("
            ++ Js.of_N nextRetryCount ++ "/" ++ Js.of_N maxRetries ++ ")")
           Default ;;
     set_timeout delay c nextRetryCount ;;
     return_) ;;
  set_page (Page.SetError (Some (classified_message errorMessage))) ;;
  toast "Error loading slides" errorMessage Destructive ;;
  emit RunDiagnostics.

(** [fetchSlides(retryCount)] as a render with closure [c] defines it. *)
Definition fetchSlides (c : closure) (retryCount : N) : M unit :=
  function_body
    (try_finally
       (try_catch
          (fetch_guards c ;; fetch_query c)
          (fetch_handler c retryCount))
       (set_page (Page.SetIsFetchingSlides false))).

(** ** Timers *)



(** ** Deleting a slide *)

(** The variables of the storage loop. *)
Record locals := {
  storageError : option error_object;
  retryCount : N;
  fileDeletedSuccessfully : bool
}.

Definition maxRetries_storage : N := 3.

(** One turn of the [while] loop (lines 339-384).  Nothing is assigned
    before the awaited call, the only step of the [try] block that can
    raise, so the [catch] block starts from the variables of the turn. *)
Definition delete_file_attempt (c : closure) (filePath : string) (l : locals)
    : M locals :=
  try_catch
    (console Log ("Attempting to delete file: " ++ filePath ++ " (attempt "
                  ++ Js.of_N (retryCount l + 1)%N ++ ")") ;;
     result <- remote (supabase c) (StorageRemove filePath) ;;
     console Log "Storage deletion result:" ;;
     match r_error result with
     | None =>
         console Log "File deleted successfully:" ;;
         ret {| storageError := storageError l; retryCount := retryCount l;
                fileDeletedSuccessfully := true |}
     | Some error =>
         let retryCount' := (retryCount l + 1)%N in
         when (retryCount' <? maxRetries_storage)%N
           (console Log ("Retrying file deletion attempt "
                         ++ Js.of_N retryCount' ++ " of "
                         ++ Js.of_N maxRetries_storage ++ "...") ;;
            emit (Sleep (1000 * retryCount')%N)) ;;
         ret {| storageError := Some error; retryCount := retryCount';
                fileDeletedSuccessfully := fileDeletedSuccessfully l |}
     end)
    (fun err =>
       console Error "Unexpected error during file deletion:" ;;
       let storageError' :=
         new_Error (match err with
                    | ThrownObject e =>
                        if is_Error e then message e
                        else "Unknown file deletion error"
                    | ThrownPrimitive => "Unknown file deletion error"
                    end) in
       let retryCount' := (retryCount l + 1)%N in
       when (retryCount' <? maxRetries_storage)%N
         (emit (Sleep (1000 * retryCount')%N)) ;;
       ret {| storageError := Some storageError'; retryCount := retryCount';
              fileDeletedSuccessfully := fileDeletedSuccessfully l |}).

(** The [while] loop (line 338); the [break] of a successful turn is the
    loop test failing on [fileDeletedSuccessfully]. *)
Fixpoint delete_file_loop (fuel : nat) (c : closure) (filePath : string)
    (l : locals) : M locals :=
  if (retryCount l <? maxRetries_storage)%N
     && negb (fileDeletedSuccessfully l)
  then
    match fuel with
    | O => fun w => (OutOfFuel, w)
    | S fuel' =>
        l' <- delete_file_attempt c filePath l ;;
        delete_file_loop fuel' c filePath l'
    end
  else ret l.

(** Step 3: the file is removed from storage when there is a path (lines
    332-399); the result is [fileDeletedSuccessfully]. *)
Definition delete_file (c : closure) (filePath : string) : M bool :=
  if Js.truthy filePath then
    l <- delete_file_loop (N.to_nat maxRetries_storage) c filePath
           {| storageError := None; retryCount := 0;
              fileDeletedSuccessfully := false |} ;;
    match storageError l with
    | Some _ =>
        console Error "Error deleting file from storage after retries:" ;;
        console Warn
          "Continuing with database record deletion despite storage error"
    | None => ret tt
    end ;;
    ret (fileDeletedSuccessfully l)
  else ret false.

(** Does the record deletion ask for the fallback (lines 417-421)? *)
Definition permission_or_policy (dbError : error_object) : bool :=
  Js.includes (message dbError) "permission"
  || Js.includes (message dbError) "policy".

(** Step 2: the connectivity guard (lines 311-329). *)
Definition delete_guard (c : closure) : M unit :=
  try_catch
    (testQuery <- remote (supabase c) SelectIdLimit1 ;;
     match r_error testQuery with
     | Some e =>
         console Error "Cannot access slides table:" ;;
         throw (ThrownObject
                  (new_Error ("Database connection failed: " ++ message e)))
     | None => ret tt
     end)
    (fun testError =>
       console Error "Test query failed:" ;;
       toast "Connection Error"
             "Could not connect to database. Please try again later."
             Destructive ;;
       fetchSlides c 0 ;;
       return_).

(** Step 4 and completion (lines 402-464). *)
Definition delete_record (c : closure) (slideId : string)
    (fileDeletedSuccessfully : bool) : M unit :=
  console Log ("Attempting to delete slide record with ID: " ++ slideId) ;;
  try_catch
    (deleteResult <- remote (supabase c) (DeleteById slideId) ;;
     console Log "Database deletion result:" ;;
     match r_error deleteResult with
     | Some dbError =>
         if permission_or_policy dbError then
           console Warn "Permission error, trying alternative approach..." ;;
           fallbackResult <- remote (supabase c) (RpcDeleteSlide slideId) ;;
           match r_error fallbackResult with
           | Some e => throw (ThrownObject e)
           | None => console Log "Fallback deletion result:"
           end
         else throw (ThrownObject dbError)
     | None => ret tt
     end ;;
     fetchSlides c 0 ;;
     toast "Slide deleted"
           (if fileDeletedSuccessfully
            then "The slide and file have been successfully deleted."
            else "The slide has been deleted but there may have been an issue removing the file.")
           Default)
    (fun dbError =>
       console Error "Error deleting slide from database:" ;;
       toast "Error deleting slide"
             (match dbError with
              | ThrownObject e =>
                  if is_Error e then message e
                  else "Failed to delete slide from database."
              | ThrownPrimitive => "Failed to delete slide from database."
              end)
             Destructive ;;
       fetchSlides c 0 ;;
       emit RunDiagnostics ;;
       return_).

(** The outer [catch] of [deleteSlide] (lines 465-488). *)
Definition delete_handler (c : closure) (error : thrown) : M unit :=
  console Error "Unexpected error during slide deletion:" ;;
  let errorMessage := errorMessage_of "An unexpected error occurred" error in
  toast "Error"
        (if Js.includes errorMessage "Failed to fetch"
         then "Connection error. Please check your internet connection and try again."
         else "Failed to delete slide: " ++ errorMessage)
        Destructive ;;
  fetchSlides c 0 ;;
  emit RunDiagnostics.

(** [deleteSlide(slideId, filePath)] (lines 295-489). *)
Definition deleteSlide (c : closure) (slideId filePath : string) : M unit :=
  function_body
    (try_catch
       (set_page (Page.RemoveSlide slideId) ;;
        toast "Deleting slide..." "Removing the slide and associated file"
              Default ;;
        delete_guard c ;;
        fileDeletedSuccessfully <- delete_file c filePath ;;
        delete_record c slideId fileDeletedSuccessfully)
       (delete_handler c)).

(* ===================================================================== *)
(** * The upload form *)
(* ===================================================================== *)

Module Upload.

Definition validTypes : list string :=
  ["application/pdf"; "image/jpeg"; "image/png"; "image/gif"].

Definition maxSize : N := 10 * 1024 * 1024.

(** [handleFileSelect(file)] (lines 57-85). *)
Definition handleFileSelect (f : file) : M unit :=
  function_body
    (when (negb (Js.array_includes validTypes (f_type f)))
       (toast "Invalid file type"
              "Please upload a PDF or image file (JPEG, PNG, GIF)."
              Destructive ;;
        return_) ;;
     when (maxSize <? f_size f)%N
       (toast "File too large" "Please upload a file smaller than 10MB."
              Destructive ;;
        return_) ;;
     set_form (Form.SetSelectedFile (Some f))).

(** [handleRemoveFile()] (lines 93-98). *)
Definition handleRemoveFile : M unit :=
  set_form (Form.SetSelectedFile None) ;;
  emit ClearFileInput.

Fixpoint progress_ticks (n : nat) : M unit :=
  match n with
  | O => ret tt
  | S n' => set_form Form.TickUploadProgress ;; progress_ticks n'
  end.

(** The text of the failure toast: [error.message || "An error ..."]. *)
Definition failure_text (error : thrown) : string :=
  Js.or_else
    (match error with
     | ThrownObject e => message e
     | ThrownPrimitive => ""
     end)
    "An error occurred during upload.".

(** The storage path of lines 133-137. *)
Definition storage_path (e : environment) (selectedFile : file) : string :=
  let fileExt := Js.extension (f_name selectedFile) in
  let fileName :=
    (Js.of_N (date_now e) ++ "-" ++ random_suffix e ++ "." ++ fileExt)%string in
  ("slides/" ++ fileName)%string.

(** The [try] block of [handleUpload] (lines 132-205), for the form as
    rendered. *)
Definition upload_steps (client : bool) (s : Form.state) (selectedFile : file)
    : M unit :=
  e <- read_env ;;
  let filePath := storage_path e selectedFile in
  emit (SetInterval 100) ;;
  n <- issue client (StorageUpload filePath selectedFile) ;;
  progress_ticks (upload_ticks e) ;;
  uploaded <- settle n (StorageUpload filePath selectedFile) ;;
  emit ClearInterval ;;
  match r_error uploaded with
  | Some error => throw (ThrownObject error)
  | None => ret tt
  end ;;
  set_form (Form.SetUploadProgress 100) ;;
  let publicUrl := getPublicUrl e filePath in
  inserted <- remote client
    (InsertSlide {| ns_title := Form.title s;
                    ns_description := Form.description s;
                    ns_course_id := Form.courseId s;
                    ns_file_path := filePath;
                    ns_file_url := publicUrl;
                    ns_file_type := f_type selectedFile;
                    ns_file_size := f_size selectedFile |}) ;;
  match r_error inserted with
  | Some dbError => throw (ThrownObject dbError)
  | None => ret tt
  end ;;
  toast "Upload successful" "Your slide has been uploaded successfully."
        Default ;;
  emit (OnUploadComplete publicUrl
          {| um_title := Form.title s;
             um_description := Form.description s;
             um_courseId := Form.courseId s;
             um_fileName := f_name selectedFile;
             um_fileType := f_type selectedFile;
             um_fileSize := f_size selectedFile;
             um_file_path := filePath |}) ;;
  set_form (Form.SetSelectedFile None) ;;
  set_form (Form.SetTitle "") ;;
  set_form (Form.SetDescription "") ;;
  set_form (Form.SetCourseId "") ;;
  emit ClearFileInput.

(** [handleUpload()] (lines 100-215); the handler of the current render
    reads the state cells as they are when it is called. *)
Definition handleUpload (client : bool) : M unit :=
  function_body
    (s <- read_form ;;
     match Form.selectedFile s with
     | None =>
         toast "No file selected" "Please select a file to upload."
               Destructive ;;
         return_
     | Some selectedFile =>
         when (negb (Js.truthy (Js.trim (Form.title s))))
           (toast "Title required" "Please enter a title for your slide."
                  Destructive ;;
            return_) ;;
         when (negb (Js.truthy (Js.trim (Form.courseId s))))
           (toast "Course ID required"
                  "Please enter a course ID for your slide."
                  Destructive ;;
            return_) ;;
         set_form (Form.SetIsUploading true) ;;
         set_form (Form.SetUploadProgress 0) ;;
         try_finally
           (try_catch
              (upload_steps client s selectedFile)
              (fun error => toast "Upload failed" (failure_text error)
                                  Destructive))
           (set_form (Form.SetIsUploading false))
     end).

(** What the user can do with the form. *)
Inductive action :=
| SelectFile (f : file)          (* drop or file input *)
| RemoveFile
| TypeTitle (s : string)
| TypeDescription (s : string)
| TypeCourseId (s : string)
| ClickUpload.

Definition perform (client : bool) (a : action) : M unit :=
  match a with
  | SelectFile f => handleFileSelect f
  | RemoveFile => handleRemoveFile
  | TypeTitle s => set_form (Form.SetTitle s)
  | TypeDescription s => set_form (Form.SetDescription s)
  | TypeCourseId s => set_form (Form.SetCourseId s)
  | ClickUpload => handleUpload client
  end.

Fixpoint perform_all (client : bool) (l : list action) : M unit :=
  match l with
  | [] => ret tt
  | a :: l' => perform client a ;; perform_all client l'
  end.

(** The file may be sent: its type and size pass [handleFileSelect]. *)
Definition acceptable (f : file) : bool :=
  Js.array_includes validTypes (f_type f) && (f_size f <=? maxSize)%N.

End Upload.

(* ===================================================================== *)
(** * Reading traces *)
(* ===================================================================== *)

Definition is_remote (e : event) : bool :=
  match e with Remote _ => true | _ => false end.

(** The requests of a trace, in order. *)
Definition requests (t : list event) : list remote_call :=
  flat_map (fun e => match e with Remote c => [c] | _ => [] end) t.

Definition toasts (t : list event) : list toast_message :=
  flat_map (fun e => match e with Toast m => [m] | _ => [] end) t.

Definition sleeps (t : list event) : list N :=
  flat_map (fun e => match e with Sleep d => [d] | _ => [] end) t.

Definition is_storage_remove (c : remote_call) : bool :=
  match c with StorageRemove _ => true | _ => false end.

Definition is_storage_upload (c : remote_call) : bool :=
  match c with StorageUpload _ _ => true | _ => false end.

Definition is_insert (c : remote_call) : bool :=
  match c with InsertSlide _ => true | _ => false end.

Definition is_course_fetch (c : remote_call) : bool :=
  match c with SelectCourseIds => true | _ => false end.


(** The events a handler adds to the trace of the world it starts in. *)
Definition added (w w' : world) : list event :=
  skipn (length (trace w)) (trace w').

Definition ids (l : list slide) : list string := map id l.

(** A run from world [w]. *)
Definition run {A} (m : M A) (w : world) : outcome A * world := m w.

Definition completes {A} (r : outcome A * world) : bool :=
  match fst r with Normal _ => true | _ => false end.

(** ** Postconditions

    [wp m w Q]: running [m] from [w] completes in an outcome and a world
    that satisfy [Q]. *)
Definition wp {A} (m : M A) (w : world) (Q : outcome A -> world -> Prop)
    : Prop :=
  Q (fst (m w)) (snd (m w)).

(** A block that leaves by [return] or by raising passes [Q] on. *)
Definition passing {A B} (k : A -> world -> Prop)
    (Q : outcome B -> world -> Prop) (o : outcome A) (w : world) : Prop :=
  match o with
  | Normal a => k a w
  | Returned => Q Returned w
  | Raise t => Q (Raise t) w
  | OutOfFuel => Q OutOfFuel w
  end.


(** The requests that only read the [slides] table. *)
Definition read_call (c : remote_call) : bool :=
  match c with
  | HeadCount | Select _ | SelectCourseIds | SelectIdLimit1 => true
  | _ => false
  end.

(** The kinds of events [fetchSlides] adds to a trace. *)
Definition fetch_event (e : event) : bool :=
  match e with
  | Console _ _ | Toast _ | SetPage _ | SetTimeout _ _ | RunDiagnostics => true
  | Remote c => read_call c
  | _ => false
  end.

(** The first thing every call of [fetchSlides] does. *)
Definition fetch_started : event := Console Log "Fetching slides with filters:".

(** The query [fetchSlides] sends for the filters a render closed over. *)
Definition query_of (c : closure) : query :=
  buildQuery (Page.searchQuery (rendered c)) (Page.courseFilter (rendered c))
             (Page.fileTypeFilter (rendered c)) (Page.sortOrder (rendered c)).

(** The request went wrong: it resolved with an error or was rejected. *)
Definition goes_wrong (f : fault) : bool :=
  match f with
  | Fails _ | Throws _ => true
  | Succeeds | NullData => false
  end.







Definition generic_banner (errorMessage : string) : string :=
  "Failed to load slides: " ++ errorMessage.

(** The events that are neither a wait nor a removal from storage. *)
Definition quiet_event (e : event) : bool :=
  match e with
  | Sleep _ | Remote (StorageRemove _) => false
  | _ => true
  end.

(** How many times a trace asks the storage to remove a file. *)
Definition storage_removals (ev : list event) : nat :=
  List.length (filter is_storage_remove (requests ev)).


(** The closure of the render that follows world [w]. *)
Definition rerender (c : closure) (w : world) : closure :=
  {| supabase := supabase c; session := session c; rendered := page w |}.

(** A load from [w] by the handler of closure [c] that succeeds: the main
    query is sent and answered, and its rows are displayed. *)
Definition successful_load (c : closure) (w : world) : Prop :=
  let w' := snd (fetchSlides c 0 w) in
  In (Select (query_of c)) (requests (added w w'))
  /\ Page.slides (page w') = Store.run_query (query_of c) (backend w)
  /\ Page.error (page w') = None.

(** "The course identifiers are fetched on the first successful load
    only": a load that follows a successful load does not fetch them. *)
Definition course_fetch_on_first_load_only : Prop :=
  forall c w,
    successful_load c w ->
    let w1 := snd (fetchSlides c 0 w) in
    let c1 := rerender c w1 in
    successful_load c1 w1 ->
    ~ In SelectCourseIds (requests (added w1 (snd (fetchSlides c1 0 w1)))).

(** The events of the storage loop that count for its schedule: the
    removal requests and the waits. *)
Definition storage_event (e : event) : bool :=
  match e with
  | Remote (StorageRemove _) | Sleep _ => true
  | _ => false
  end.

Definition storage_schedule (ev : list event) : list event :=
  filter storage_event ev.

(** Three attempts, a wait of 1000 ms times the number of the attempt after
    the first and the second. *)
Definition backoff (path : string) : list event :=
  [ Remote (StorageRemove path); Sleep 1000%N;
    Remote (StorageRemove path); Sleep 2000%N;
    Remote (StorageRemove path) ].

(** The notification when the record is gone and the file may not be. *)
Definition removal_issue_toast : toast_message :=
  {| toast_title := "Slide deleted";
     toast_description :=
       "The slide has been deleted but there may have been an issue removing the file.";
     toast_variant := Default |}.

(** The run of [deleteSlide] confirmed the deletion to the user. *)
Definition confirmed_deletion (ev : list event) : bool :=
  existsb (fun m => toast_title m =? "Slide deleted") (toasts ev).

(** No filter is set: the search box and the course filter are empty and
    the file type selector is on its first entry. *)
Definition unfiltered (c : closure) : Prop :=
  Page.searchQuery (rendered c) = ""
  /\ Page.courseFilter (rendered c) = ""
  /\ Page.fileTypeFilter (rendered c) = "all"
  /\ exists o, Page.sortOrder (rendered c) = sort_value o.

(** "After a deletion that was not confirmed the displayed collection
    equals, by identifiers, the table as it was before". *)
Definition failed_deletion_restores_list : Prop :=
  forall c slideId path w,
    supabase c = true -> session c = true -> unfiltered c ->
    let w' := snd (deleteSlide c slideId path w) in
    confirmed_deletion (added w w') = false ->
    Permutation (ids (Page.slides (page w'))) (ids (Store.table (backend w))).

(** ** Sample data *)
Module Sample.

Definition banana : slide :=
  {| id := "1"; title := "Banana"; description := ""; course_id := "CS101";
     file_url := "https://cdn/slides/1.pdf"; file_path := "slides/1.pdf";
     file_type := "application/pdf"; file_size := 2097152; created_at := 100 |}.

Definition apple : slide :=
  {| id := "2"; title := "Apple"; description := ""; course_id := "CS102";
     file_url := "https://cdn/slides/2.png"; file_path := "slides/2.png";
     file_type := "image/png"; file_size := 4096; created_at := 200 |}.

Definition cherry : slide :=
  {| id := "3"; title := "Cherry"; description := ""; course_id := "CS101";
     file_url := "https://cdn/slides/3.docx"; file_path := "slides/3.docx";
     file_type := "application/msword"; file_size := 512; created_at := 300 |}.

Definition store : Store.t :=
  {| Store.table := [banana; apple; cherry];
     Store.blobs := ["slides/1.pdf"; "slides/2.png"; "slides/3.docx"];
     Store.serial := 4; Store.clock := 400 |}.

Definition environment_with (f : nat -> remote_call -> fault) : environment :=
  {| faults := f; date_now := 1700000000000; random_suffix := "k3j9x0q";
     upload_ticks := 3;
     getPublicUrl := fun path => ("https://cdn/content/" ++ path)%string |}.

(** A freshly mounted page over the sample store. *)
Definition world_with (f : nat -> remote_call -> fault) : world :=
  {| page := Page.initial; form := Form.initial; backend := store;
     ncalls := 0; env := environment_with f; trace := []; timers := [] |}.

(** The page showing the three slides. *)
Definition loaded_with (f : nat -> remote_call -> fault) : world :=
  {| page := Page.apply (Page.SetSlides [cherry; apple; banana]) Page.initial;
     form := Form.initial; backend := store;
     ncalls := 0; env := environment_with f; trace := []; timers := [] |}.

Definition signed_in : closure :=
  {| supabase := true; session := true; rendered := Page.initial |}.

Definition always_served : nat -> remote_call -> fault :=
  fun _ _ => Succeeds.

Definition failed_to_fetch : fault :=
  Throws (ThrownObject (new_Error "Failed to fetch")).


(** Every request is rejected for want of a network. *)
Definition offline : nat -> remote_call -> fault :=
  fun _ _ => failed_to_fetch.


(** The session token expires after the first two requests. *)
Definition token_expires : nat -> remote_call -> fault :=
  fun n _ =>
    if (n <? 2)%nat then Succeeds else Fails (new_Error "JWT expired").

(** The storage refuses every removal. *)
Definition storage_down : nat -> remote_call -> fault :=
  fun _ c =>
    match c with
    | StorageRemove _ => Fails (new_Error "Bucket not found")
    | _ => Succeeds
    end.

(** The list of course identifiers cannot be read. *)
Definition courses_unreadable : nat -> remote_call -> fault :=
  fun _ c =>
    match c with
    | SelectCourseIds => Fails (new_Error "statement timeout")
    | _ => Succeeds
    end.

(** Rows cannot be deleted, by the table or by the procedure. *)
Definition read_only : nat -> remote_call -> fault :=
  fun _ c =>
    match c with
    | DeleteById _ => Fails (new_Error "permission denied for table slides")
    | RpcDeleteSlide _ =>
        Fails (new_Error "function delete_slide(uuid) does not exist")
    | _ => Succeeds
    end.

End Sample.
(** ** The upload form, continued *)

(** Empty, or made of white space only. *)
Definition blank (s : string) : bool :=
  forallb Js.is_space (list_ascii_of_string s).

(** [handleDrop(e)] (lines 47-55), for the files of the drop. *)
Definition handleDrop (files : list file) : M unit :=
  set_form (Form.SetIsDragging false) ;;
  match files with
  | f :: _ => Upload.handleFileSelect f
  | [] => ret tt
  end.

(** [handleDragEnter], [handleDragLeave] and [handleDragOver] (lines
    30-45). *)
Definition handleDragEnter : M unit := set_form (Form.SetIsDragging true).
Definition handleDragLeave : M unit := set_form (Form.SetIsDragging false).
Definition handleDragOver : M unit := ret tt.

(** [handleFileInputChange(e)] (lines 87-91), for the files of the input. *)
Definition handleFileInputChange (files : list file) : M unit :=
  match files with
  | f :: _ => Upload.handleFileSelect f
  | [] => ret tt
  end.

(** What the user can do with the rendered form.  The inputs and the
    remove button are disabled while [isUploading] holds, and the upload
    button also while no file is selected; the drop area is not. *)
Inductive gesture :=
| DragEnter
| DragLeave
| DragOver
| DropFiles (files : list file)
| ChooseFiles (files : list file)
| PressRemove
| EditTitle (s : string)
| EditDescription (s : string)
| EditCourseId (s : string)
| PressUpload.

Definition enabled (g : gesture) (s : Form.state) : bool :=
  match g with
  | DragEnter | DragLeave | DragOver | DropFiles _ => true
  | ChooseFiles _ | EditTitle _ | EditDescription _ | EditCourseId _ =>
      negb (Form.isUploading s)
  | PressRemove =>
      match Form.selectedFile s with
      | Some _ => negb (Form.isUploading s)
      | None => false
      end
  | PressUpload =>
      negb (match Form.selectedFile s with Some _ => false | None => true end
            || Form.isUploading s)
  end.

Definition handle (client : bool) (g : gesture) : M unit :=
  match g with
  | DragEnter => handleDragEnter
  | DragLeave => handleDragLeave
  | DragOver => handleDragOver
  | DropFiles files => handleDrop files
  | ChooseFiles files => handleFileInputChange files
  | PressRemove => Upload.handleRemoveFile
  | EditTitle s => set_form (Form.SetTitle s)
  | EditDescription s => set_form (Form.SetDescription s)
  | EditCourseId s => set_form (Form.SetCourseId s)
  | PressUpload => Upload.handleUpload client
  end.

(** A gesture on a disabled control does nothing. *)
Definition gesture_step (client : bool) (g : gesture) : M unit :=
  s <- read_form ;;
  if enabled g s then handle client g else ret tt.

Fixpoint session_of (client : bool) (l : list gesture) : M unit :=
  match l with
  | [] => ret tt
  | g :: l' => gesture_step client g ;; session_of client l'
  end.

(** The row [handleUpload] inserts for file [f] stored at [filePath]. *)
Definition row_of (e : environment) (s : Form.state) (f : file)
    (filePath : string) : new_slide :=
  {| ns_title := Form.title s;
     ns_description := Form.description s;
     ns_course_id := Form.courseId s;
     ns_file_path := filePath;
     ns_file_url := getPublicUrl e filePath;
     ns_file_type := f_type f;
     ns_file_size := f_size f |}.

(** A request the form may send: an upload of a file of a valid type and
    of at most 10 MB, or the insertion of a row whose title and course
    identifier are not blank. *)
Definition lawful (c : remote_call) : bool :=
  match c with
  | StorageUpload _ f => Upload.acceptable f
  | InsertSlide row =>
      negb (blank (ns_title row)) && negb (blank (ns_course_id row))
  | _ => false
  end.

Definition has_dot (s : string) : bool :=
  existsb (Ascii.eqb "."%char) (list_ascii_of_string s).

(** The store after a request settled under fault [f]. *)
Definition store_after (f : fault) (c : remote_call) (st : Store.t) : Store.t :=
  match f with
  | Succeeds => snd (Store.serve c st)
  | _ => st
  end.

(** What the completion callback is given besides the public URL. *)
Definition metadata_of (s : Form.state) (f : file) (filePath : string)
    : upload_metadata :=
  {| um_title := Form.title s;
     um_description := Form.description s;
     um_courseId := Form.courseId s;
     um_fileName := f_name f;
     um_fileType := f_type f;
     um_fileSize := f_size f;
     um_file_path := filePath |}.

Definition callbacks (ev : list event) : list event :=
  filter (fun e => match e with OnUploadComplete _ _ => true | _ => false end)
         ev.

(** The run ended on the failure toast and never called back. *)
Definition upload_failed (ev : list event) : Prop :=
  (exists text,
     toasts ev = [{| toast_title := "Upload failed";
                     toast_description := text;
                     toast_variant := Destructive |}])
  /\ callbacks ev = [].

(** The fields of the form are as the user left them. *)
Definition form_kept (s s' : Form.state) : Prop :=
  Form.selectedFile s' = Form.selectedFile s
  /\ Form.title s' = Form.title s
  /\ Form.description s' = Form.description s
  /\ Form.courseId s' = Form.courseId s.

Definition form_cleared (s' : Form.state) : Prop :=
  Form.selectedFile s' = None
  /\ Form.title s' = ""
  /\ Form.description s' = ""
  /\ Form.courseId s' = "".

Definition upload_successful : toast_message :=
  {| toast_title := "Upload successful";
     toast_description := "Your slide has been uploaded successfully.";
     toast_variant := Default |}.

(** ** More sample data *)
Module Scenario.

Definition lecture : file :=
  {| f_name := "week1.final.pdf"; f_type := "application/pdf";
     f_size := 2097152 |}.

(** 15 MB of slides. *)
Definition oversized : file :=
  {| f_name := "all-weeks.pdf"; f_type := "application/pdf";
     f_size := 15728640 |}.

(** A form filled in and ready to be sent. *)
Definition filled : Form.state :=
  {| Form.isDragging := false; Form.isUploading := false;
     Form.uploadProgress := 0; Form.title := "Week 1";
     Form.description := "Introduction"; Form.courseId := "CS101";
     Form.selectedFile := Some lecture |}.

Definition ready_with (f : nat -> remote_call -> fault) : world :=
  {| page := Page.initial; form := filled; backend := Sample.store;
     ncalls := 0; env := Sample.environment_with f; trace := [];
     timers := [] |}.


End Scenario.


Definition titles (ev : list event) : list string :=
  map toast_title (toasts ev).

(** ** The content page, continued *)



Definition deleted_toast : toast_message :=
  {| toast_title := "Slide deleted";
     toast_description := "The slide and file have been successfully deleted.";
     toast_variant := Default |}.

(** ** The controls of the content page

    The cells that the controls of the page set.  These setters send
    nothing and tell nothing; they are seen in the page alone. *)
Module Controls.

Inductive update :=
| SetSearchQuery (s : string)
| SetCourseFilter (s : string)
| SetFileTypeFilter (s : string)
| SetSortOrder (s : string)
| SetIsUploading (b : bool).

Definition apply (u : update) (s : Page.state) : Page.state :=
  match u with
  | SetSearchQuery x =>
      {| Page.slides := Page.slides s; Page.isUploading := Page.isUploading s;
         Page.searchQuery := x; Page.courseFilter := Page.courseFilter s;
         Page.courses := Page.courses s; Page.isLoaded := Page.isLoaded s;
         Page.isFetchingSlides := Page.isFetchingSlides s;
         Page.error := Page.error s;
         Page.fileTypeFilter := Page.fileTypeFilter s;
         Page.sortOrder := Page.sortOrder s |}
  | SetCourseFilter x =>
      {| Page.slides := Page.slides s; Page.isUploading := Page.isUploading s;
         Page.searchQuery := Page.searchQuery s; Page.courseFilter := x;
         Page.courses := Page.courses s; Page.isLoaded := Page.isLoaded s;
         Page.isFetchingSlides := Page.isFetchingSlides s;
         Page.error := Page.error s;
         Page.fileTypeFilter := Page.fileTypeFilter s;
         Page.sortOrder := Page.sortOrder s |}
  | SetFileTypeFilter x =>
      {| Page.slides := Page.slides s; Page.isUploading := Page.isUploading s;
         Page.searchQuery := Page.searchQuery s;
         Page.courseFilter := Page.courseFilter s;
         Page.courses := Page.courses s; Page.isLoaded := Page.isLoaded s;
         Page.isFetchingSlides := Page.isFetchingSlides s;
         Page.error := Page.error s;
         Page.fileTypeFilter := x;
         Page.sortOrder := Page.sortOrder s |}
  | SetSortOrder x =>
      {| Page.slides := Page.slides s; Page.isUploading := Page.isUploading s;
         Page.searchQuery := Page.searchQuery s;
         Page.courseFilter := Page.courseFilter s;
         Page.courses := Page.courses s; Page.isLoaded := Page.isLoaded s;
         Page.isFetchingSlides := Page.isFetchingSlides s;
         Page.error := Page.error s;
         Page.fileTypeFilter := Page.fileTypeFilter s;
         Page.sortOrder := x |}
  | SetIsUploading b =>
      {| Page.slides := Page.slides s; Page.isUploading := b;
         Page.searchQuery := Page.searchQuery s;
         Page.courseFilter := Page.courseFilter s;
         Page.courses := Page.courses s; Page.isLoaded := Page.isLoaded s;
         Page.isFetchingSlides := Page.isFetchingSlides s;
         Page.error := Page.error s;
         Page.fileTypeFilter := Page.fileTypeFilter s;
         Page.sortOrder := Page.sortOrder s |}
  end.

End Controls.

Definition set_control (u : Controls.update) : M unit :=
  fun w => (Normal tt, with_page (Controls.apply u (page w)) w).

(** [handleUploadComplete(fileUrl, metadata)] (lines 290-293). *)
Definition handleUploadComplete (c : closure) : M unit :=
  set_control (Controls.SetIsUploading false) ;;
  fetchSlides c 0.

(** The three selectors (lines 705-760): the file type, the sort order
    and the course, whose entry [all] stands for no filter. *)
Inductive selector := FileTypeSelector | SortOrderSelector | CourseSelector.

Definition selected (sel : selector) (value : string) : Controls.update :=
  match sel with
  | FileTypeSelector => Controls.SetFileTypeFilter value
  | SortOrderSelector => Controls.SetSortOrder value
  | CourseSelector =>
      Controls.SetCourseFilter (if value =? "all" then "" else value)
  end.

(** [onValueChange(value)] of a selector: it sets its cell and calls the
    [fetchSlides] of the render it belongs to. *)
Definition onValueChange (c : closure) (sel : selector) (value : string)
    : M unit :=
  set_control (selected sel value) ;;
  fetchSlides c 0.

(** The two effects that load the slides (lines 56-67), as the render with
    closure [c] runs them. *)
Definition load_effect (c : closure) : M unit :=
  when (session c) (fetchSlides c 0).

(** ** The diagnostics of the content page

    [runDiagnostics] awaits three calls that are not requests on the
    tables or the storage: [supabase.auth.getSession()], and
    [checkSupabaseConnection()] and [checkAuthStatus()] of
    [@/lib/supabase/check-connection].  What they resolve to is given from
    outside. *)
Inductive awaited (A : Type) :=
| Resolves (a : A)
| Rejects (t : thrown).

Arguments Resolves {A} a.
Arguments Rejects {A} t.

Record checks := {
  getSession : awaited (option error_object);   (* authCheck.error *)
  checkSupabaseConnection : awaited bool;       (* connectionStatus.connected *)
  checkAuthStatus : awaited bool                (* authStatus.authenticated *)
}.

Definition await {A} (x : awaited A) : M A :=
  match x with
  | Resolves a => ret a
  | Rejects t => throw t
  end.

(** [supabase.auth] on a client that is [null]. *)
Definition null_auth : thrown :=
  ThrownObject (new_Error "Cannot read properties of null (reading 'auth')").

(** The identifier of no row, used to probe the delete policy. *)
Definition nil_uuid : string := "00000000-0000-0000-0000-000000000000".

(** The verdict on the delete policy (lines 553-557). *)
Definition rls_verdict (rlsTest : response) : string :=
  match r_error rlsTest with
  | Some e =>
      if Js.includes (message e) "permission"
      then "Failed: No permission to delete"
      else "Success: Delete policy exists"
  | None => "Success: Delete policy exists"
  end.

(** The text of the element shown in the results toast (lines 568-617),
    a line for each of its text nodes. *)
Definition newline : string := String (ascii_of_nat 10) EmptyString.

Definition diagnostics_text (connected authenticated : bool)
    (rlsStatus : string) : string :=
  "Connection:" ++ newline
  ++ (if connected then "✓ Connected" else "✗ Failed") ++ newline
  ++ "Authentication:" ++ newline
  ++ (if authenticated then "✓ Authenticated" else "✗ Not authenticated")
  ++ newline
  ++ "RLS Policy:" ++ newline
  ++ (if Js.includes rlsStatus "Success" then "✓ Configured"
      else "✗ Not configured") ++ newline
  ++ (if negb connected
      then "Try refreshing the page or check your network connection."
           ++ newline
      else "")
  ++ (if negb authenticated
      then "Try logging out and back in to refresh your session." ++ newline
      else "")
  ++ (if Js.includes rlsStatus "Failed"
      then "The database needs RLS policies for delete operations. Run the SQL script in fix-rls-policies.sql."
           ++ newline
      else "").

(** [runDiagnostics()] (lines 492-640). *)
Definition runDiagnostics (c : closure) (x : checks) : M unit :=
  function_body
    (console Log "Running Supabase diagnostics..." ;;
     try_catch
       (authCheck <- (if supabase c then await (getSession x)
                      else throw null_auth) ;;
        console Log "Auth session check:" ;;
        match authCheck with
        | Some authError =>
            console Error "Auth error:" ;;
            toast "Authentication Error"
                  "There's an issue with your authentication. Try logging out and back in."
                  Destructive ;;
            return_
        | None => ret tt
        end ;;
        connected <- await (checkSupabaseConnection x) ;;
        console Log "Connection status:" ;;
        authenticated <- await (checkAuthStatus x) ;;
        console Log "Authentication status:" ;;
        console Log "Environment check:" ;;
        console Log "Performing direct test query..." ;;
        try_catch
          (directTest <- remote (supabase c) SelectIdLimit1 ;;
           console Log "Direct test result:")
          (fun directError => console Error "Direct test error:") ;;
        rlsStatus <-
          try_catch
            (rlsTest <- remote (supabase c) (DeleteById nil_uuid) ;;
             let rlsStatus := rls_verdict rlsTest in
             console Log "RLS policy test:" ;;
             ret rlsStatus)
            (fun rlsError =>
               console Error "RLS test error:" ;;
               ret "Error testing RLS") ;;
        toast "Diagnostics Results"
              (diagnostics_text connected authenticated rlsStatus)
              (if connected && authenticated
                  && Js.includes rlsStatus "Success"
               then Default else Destructive))
       (fun error =>
          console Error "Diagnostics error:" ;;
          toast "Diagnostics Failed"
                "Could not complete diagnostics. Check console for details."
                Destructive)).

(** The delete probe found nothing wrong: it was answered, and not with an
    error that speaks of a permission. *)
Definition policy_passes (f : fault) : bool :=
  match f with
  | Fails e => negb (Js.includes (message e) "permission")
  | Throws _ => false
  | Succeeds | NullData => true
  end.

(** The results toast for the three findings. *)
Definition results_toast (connected authenticated : bool)
    (rlsStatus : string) : toast_message :=
  {| toast_title := "Diagnostics Results";
     toast_description := diagnostics_text connected authenticated rlsStatus;
     toast_variant :=
       if connected && authenticated && Js.includes rlsStatus "Success"
       then Default else Destructive |}.

(** The three values [rlsStatus] takes. *)
Definition rls_status_of (f : fault) : string :=
  match f with
  | Fails e =>
      if Js.includes (message e) "permission"
      then "Failed: No permission to delete"
      else "Success: Delete policy exists"
  | Throws _ => "Error testing RLS"
  | Succeeds | NullData => "Success: Delete policy exists"
  end.

(** The read probe fails, the delete probe is refused for a reason that
    does not speak of a permission: the results are of the default
    kind. *)
Definition policy_violation : nat -> remote_call -> fault :=
  fun _ c =>
    match c with
    | SelectIdLimit1 => Fails (new_Error "Failed to fetch")
    | DeleteById _ =>
        Fails (new_Error "new row violates row-level security policy")
    | _ => Succeeds
    end.

Definition all_well : checks :=
  {| getSession := Resolves None;
     checkSupabaseConnection := Resolves true;
     checkAuthStatus := Resolves true |}.


(** The table refuses every deletion by its row-level security. *)
Definition rows_protected : nat -> remote_call -> fault :=
  fun _ c =>
    match c with
    | DeleteById _ =>
        Fails (new_Error "new row violates row-level security policy")
    | _ => Succeeds
    end.

(* ===================================================================== *)
(** * Other components *)
(* ===================================================================== *)

(** ** Handlers over any state

    The components below keep cells of their own.  Their handlers are
    written in the same constructs as those of the page, over the state
    they run in. *)
Module Gen.
Section State.
Context {S : Type}.

Definition G (A : Type) : Type := S -> outcome A * S.

Definition ret {A} (a : A) : G A := fun s => (Normal a, s).

Definition bind {A B} (m : G A) (f : A -> G B) : G B :=
  fun s =>
    match m s with
    | (Normal a, s') => f a s'
    | (Returned, s') => (Returned, s')
    | (Raise t, s') => (Raise t, s')
    | (OutOfFuel, s') => (OutOfFuel, s')
    end.

Definition throw {A} (t : thrown) : G A := fun s => (Raise t, s).

Definition try_catch {A} (m : G A) (h : thrown -> G A) : G A :=
  fun s =>
    match m s with
    | (Raise t, s') => h t s'
    | r => r
    end.

Definition try_finally {A} (m : G A) (fin : G unit) : G A :=
  fun s =>
    match m s with
    | (OutOfFuel, s') => (OutOfFuel, s')
    | (r, s') =>
        match fin s' with
        | (Normal _, s'') => (r, s'')
        | (Returned, s'') => (Returned, s'')
        | (Raise t, s'') => (Raise t, s'')
        | (OutOfFuel, s'') => (OutOfFuel, s'')
        end
    end.

Definition when (b : bool) (m : G unit) : G unit := if b then m else ret tt.

End State.
End Gen.

Declare Scope gen_scope.
Delimit Scope gen_scope with gen.
Notation "x <- m ;; k" := (Gen.bind m (fun x => k))
  (at level 100, m at next level, right associativity) : gen_scope.
Notation "m ;; k" := (Gen.bind m (fun _ => k))
  (at level 100, right associativity) : gen_scope.

(** ** The slide card ([slide-card.tsx]) *)
Module Card.

Record state := {
  isDeleting : bool;
  isDialogOpen : bool
}.

Inductive update :=
| SetIsDeleting (b : bool)
| SetIsDialogOpen (b : bool).

Definition apply (u : update) (s : state) : state :=
  match u with
  | SetIsDeleting b => {| isDeleting := b; isDialogOpen := isDialogOpen s |}
  | SetIsDialogOpen b => {| isDeleting := isDeleting s; isDialogOpen := b |}
  end.

(** What the card shows in place of the file (lines 41-42 and 63-83): the
    picture itself, or one of two icons. *)
Inductive preview_kind := Picture | PdfDocument | Document.

Definition isImage (s : slide) : bool := String.prefix "image/" (file_type s).

Definition isPdf (s : slide) : bool := file_type s =? "application/pdf".

Definition preview (s : slide) : preview_kind :=
  if isImage s then Picture
  else if isPdf s then PdfDocument
  else Document.

(** The card and the page it is shown on. *)
Record scene := {
  cells : state;
  outer : world
}.

Definition set (u : update) : Gen.G (S := scene) unit :=
  fun s => (Normal tt, {| cells := apply u (cells s); outer := outer s |}).

(** A handler of the page called from the card. *)
Definition lift {A} (m : M A) : Gen.G (S := scene) A :=
  fun s => (fst (m (outer s)),
            {| cells := cells s; outer := snd (m (outer s)) |}).

Local Open Scope gen_scope.

(** [handleDelete()] (lines 45-59), for the [onDelete] the card was given.
    The path of a slide that has none is the empty string. *)
Definition handleDelete (onDelete : option (string -> string -> M unit))
    (slide : slide) : Gen.G (S := scene) unit :=
  match onDelete with
  | Some onDelete =>
      set (SetIsDeleting true) ;;
      Gen.try_finally
        (Gen.try_catch
           (lift (onDelete (id slide) (Js.or_else (file_path slide) "")) ;;
            set (SetIsDialogOpen false))
           (fun error => lift (console Error "Error deleting slide:")))
        (set (SetIsDeleting false))
  | None => Gen.ret tt
  end.

End Card.

(** ** The list of quizzes ([QuizzesClient]) *)

Record quiz := {
  quiz_id : string;
  quiz_title : string;
  quiz_description : string;
  time_limit : N;
  question_count : N;
  quiz_created_at : string
}.

Module Quizzes.

Record state := {
  quizzes : list quiz;
  isLoading : bool;
  error : option error_object
}.

(** The cells as [useState] initialises them. *)
Definition initial : state :=
  {| quizzes := []; isLoading := true; error := None |}.

Inductive update :=
| SetQuizzes (l : list quiz)
| SetIsLoading (b : bool)
| SetError (e : option error_object).

Definition apply (u : update) (s : state) : state :=
  match u with
  | SetQuizzes l =>
      {| quizzes := l; isLoading := isLoading s; error := error s |}
  | SetIsLoading b =>
      {| quizzes := quizzes s; isLoading := b; error := error s |}
  | SetError e =>
      {| quizzes := quizzes s; isLoading := isLoading s; error := e |}
  end.

(** The cells, and what the handlers wrote to the console and the
    toaster. *)
Record scene := {
  cells : state;
  shown : list event
}.

(** What [response.json()] resolves to. *)
Inductive body :=
| Parsed (data : list quiz)
| Unparsable (t : thrown).

(** What [fetch("/api/quizzes")] resolves to: a rejection, or a response
    with its [ok] flag and its body. *)
Inductive fetched :=
| Rejected (t : thrown)
| Responded (ok : bool) (b : body).

Definition set (u : update) : Gen.G (S := scene) unit :=
  fun s => (Normal tt, {| cells := apply u (cells s); shown := shown s |}).

Definition emit (e : event) : Gen.G (S := scene) unit :=
  fun s => (Normal tt, {| cells := cells s; shown := shown s ++ [e] |}).

Definition await_fetch (r : fetched) : Gen.G (S := scene) (bool * body) :=
  match r with
  | Rejected t => Gen.throw t
  | Responded ok b => Gen.ret (ok, b)
  end.

Definition await_json (b : body) : Gen.G (S := scene) (list quiz) :=
  match b with
  | Parsed data => Gen.ret data
  | Unparsable t => Gen.throw t
  end.

(** [err instanceof Error ? err : new Error("Failed to load quizzes")]. *)
Definition as_Error (err : thrown) : error_object :=
  match err with
  | ThrownObject e => if is_Error e then e
                      else new_Error "Failed to load quizzes"
  | ThrownPrimitive => new_Error "Failed to load quizzes"
  end.

Definition load_failed : toast_message :=
  {| toast_title := "Error";
     toast_description := "Failed to load quizzes. Please try again.";
     toast_variant := Destructive |}.

Local Open Scope gen_scope.

(** [fetchQuizzes()] (lines 928-955), for what the request resolves to. *)
Definition fetchQuizzes (r : fetched) : Gen.G (S := scene) unit :=
  set (SetIsLoading true) ;;
  set (SetError None) ;;
  Gen.try_finally
    (Gen.try_catch
       (response <- await_fetch r ;;
        Gen.when (negb (fst response))
          (Gen.throw (ThrownObject (new_Error "Failed to fetch quizzes"))) ;;
        data <- await_json (snd response) ;;
        set (SetQuizzes data))
       (fun err =>
          emit (Console Error "Error fetching quizzes:") ;;
          set (SetError (Some (as_Error err))) ;;
          emit (Toast load_failed)))
    (set (SetIsLoading false)).

(** What the component renders under its header (lines 985-1048). *)
Inductive panel :=
| Spinner
| ErrorPanel (text : string)
| EmptyCard
| Grid (l : list quiz).

Definition view (s : state) : list panel :=
  (if isLoading s then [Spinner] else [])
  ++ match error s with
     | Some e => [ErrorPanel (message e)]
     | None => []
     end
  ++ (if negb (isLoading s)
         && match error s with Some _ => false | None => true end
         && (List.length (quizzes s) =? 0)%nat
      then [EmptyCard] else [])
  ++ (if negb (isLoading s)
         && match error s with Some _ => false | None => true end
         && (0 <? List.length (quizzes s))%nat
      then [Grid (quizzes s)] else []).

End Quizzes.

(** ** The navigation of the dashboard ([DashboardNav]) *)
Module Nav.

(** The items, by title and path. *)
Definition navItems : list (string * string) :=
  [ ("Dashboard", "/dashboard"); ("Quizzes", "/quizzes");
    ("Content", "/content"); ("Progress", "/progress") ].

(** [pathname === item.href || pathname?.startsWith(item.href + "/")], for
    a path name that may be [null]. *)
Definition isActive (pathname : option string) (href : string) : bool :=
  match pathname with
  | Some p => (p =? href) || String.prefix (href ++ "/") p
  | None => false
  end.

(** The items shown as active. *)
Definition active (pathname : option string) : list (string * string) :=
  filter (fun item => isActive pathname (snd item)) navItems.

End Nav.

(*PROPERTIES*)
(* ===================================================================== *)
(** * Properties *)
(* ===================================================================== *)

(** ** The monad *)

Section MonadLaws.

Context {A B : Type}.

Lemma wp_ret (a : A) w Q : Q (Normal a) w -> wp (ret a) w Q.
Proof. exact (fun H => H). Qed.

Lemma wp_bind (m : M A) (f : A -> M B) w Q :
  wp m w (passing (fun a w' => wp (f a) w' Q) Q) -> wp (bind m f) w Q.
Proof.
  unfold wp, bind, passing.
  destruct (m w) as [[a | | t | ] w']; simpl; auto.
Qed.

Lemma wp_mono (m : M A) w (Q Q' : outcome A -> world -> Prop) :
  wp m w Q -> (forall o w', Q o w' -> Q' o w') -> wp m w Q'.
Proof. unfold wp; auto. Qed.

Lemma wp_try_catch (m : M A) (h : thrown -> M A) w Q :
  wp m w (fun o w' =>
            match o with
            | Raise t => wp (h t) w' Q
            | _ => Q o w'
            end) ->
  wp (try_catch m h) w Q.
Proof.
  unfold wp, try_catch.
  destruct (m w) as [[a | | t | ] w']; simpl; auto.
Qed.

Lemma wp_try_finally (m : M A) (fin : M unit) w Q :
  wp m w (fun o w' =>
            match o with
            | OutOfFuel => Q OutOfFuel w'
            | _ => wp fin w' (fun o' w'' =>
                                match o' with
                                | Normal _ => Q o w''
                                | Returned => Q Returned w''
                                | Raise t => Q (Raise t) w''
                                | OutOfFuel => Q OutOfFuel w''
                                end)
            end) ->
  wp (try_finally m fin) w Q.
Proof.
  unfold wp, try_finally.
  destruct (m w) as [[a | | t | ] w']; simpl; auto;
    destruct (fin w') as [[[] | | t' | ] w'']; simpl; auto.
Qed.

End MonadLaws.

Lemma wp_function_body (m : M unit) w Q :
  wp m w (fun o w' =>
            match o with
            | Returned => Q (Normal tt) w'
            | _ => Q o w'
            end) ->
  wp (function_body m) w Q.
Proof.
  unfold wp, function_body.
  destruct (m w) as [[a | | t | ] w']; simpl; auto.
Qed.

Lemma wp_run {A} (m : M A) w Q : wp m w Q -> Q (fst (m w)) (snd (m w)).
Proof. exact (fun H => H). Qed.

Lemma wp_snd {A} (m : M A) w (P : world -> Prop) :
  wp m w (fun _ w' => P w') -> P (snd (m w)).
Proof. exact (fun H => H). Qed.

Lemma wp_emit e w Q : Q (Normal tt) (record e w) -> wp (emit e) w Q.
Proof. exact (fun H => H). Qed.

Lemma wp_set_page u w Q :
  Q (Normal tt) (record (SetPage u) (with_page (Page.apply u (page w)) w)) ->
  wp (set_page u) w Q.
Proof. exact (fun H => H). Qed.

Lemma wp_set_form u w Q :
  Q (Normal tt) (record (SetForm u) (with_form (Form.apply u (form w)) w)) ->
  wp (set_form u) w Q.
Proof. exact (fun H => H). Qed.

Lemma wp_set_timeout delay c n w Q :
  Q (Normal tt)
    (record (SetTimeout delay n)
       (with_timers (timers w ++ [{| t_delay := delay; t_closure := c;
                                     t_retryCount := n |}]) w)) ->
  wp (set_timeout delay c n) w Q.
Proof. exact (fun H => H). Qed.

Lemma wp_throw {A} t w (Q : outcome A -> world -> Prop) :
  Q (Raise t) w -> wp (throw t) w Q.
Proof. exact (fun H => H). Qed.

Lemma wp_return {A} w (Q : outcome A -> world -> Prop) :
  Q Returned w -> wp return_ w Q.
Proof. exact (fun H => H). Qed.

Lemma wp_read_form w Q : Q (Normal (form w)) w -> wp read_form w Q.
Proof. exact (fun H => H). Qed.

Lemma wp_read_env w Q : Q (Normal (env w)) w -> wp read_env w Q.
Proof. exact (fun H => H). Qed.

Lemma wp_when b m w Q :
  (b = true -> wp m w Q) -> (b = false -> Q (Normal tt) w) ->
  wp (when b m) w Q.
Proof. destruct b; unfold when; intros Ht Hf; [apply Ht | apply Hf]; reflexivity. Qed.

Lemma wp_issue_on c w Q :
  Q (Normal (ncalls w)) (count_call (record (Remote c) w)) ->
  wp (issue true c) w Q.
Proof. exact (fun H => H). Qed.

Lemma wp_issue_off c w (Q : outcome nat -> world -> Prop) :
  Q (Raise (null_client c)) w -> wp (issue false c) w Q.
Proof. exact (fun H => H). Qed.

Lemma wp_settle n c w Q :
  Q (fst (settled (faults (env w) n c) c w))
    (snd (settled (faults (env w) n c) c w)) ->
  wp (settle n c) w Q.
Proof. exact (fun H => H). Qed.

Lemma wp_remote_on c w Q :
  Q (fst (settled (faults (env w) (ncalls w) c) c
            (count_call (record (Remote c) w))))
    (snd (settled (faults (env w) (ncalls w) c) c
            (count_call (record (Remote c) w)))) ->
  wp (remote true c) w Q.
Proof. exact (fun H => H). Qed.

Lemma wp_remote_off c w (Q : outcome response -> world -> Prop) :
  Q (Raise (null_client c)) w -> wp (remote false c) w Q.
Proof. exact (fun H => H). Qed.

(** Symbolic execution of a handler, one construct at a time. *)
Ltac wnorm :=
  cbn [env ncalls page form backend trace timers
       record with_page with_form with_backend with_timers count_call].

(** Facts about a world a lemma has introduced are used where it occurs. *)
Ltac use_facts :=
  repeat match goal with
         | H : env ?x = _ |- context [env ?x] => is_var x; rewrite H
         | H : page ?x = _ |- context [page ?x] => is_var x; rewrite H
         | H : form ?x = _ |- context [form ?x] => is_var x; rewrite H
         | H : timers ?x = _ |- context [timers ?x] => is_var x; rewrite H
         | H : ncalls ?x = _ |- context [ncalls ?x] => is_var x; rewrite H
         | H : trace ?x = _ |- context [trace ?x] => is_var x; rewrite H
         | H : backend ?x = _ |- context [backend ?x] => is_var x; rewrite H
         | H : Store.table (backend ?x) = _
           |- context [Store.table (backend ?x)] => is_var x; rewrite H
         end.

(** The fault of a request: what the hypotheses say of it, or else each of
    the four cases, less those the hypotheses exclude. *)
Ltac known_fault e n c :=
  match goal with
  | H : faults e n c = _ |- _ => rewrite H
  | H : forall k, faults e k c = _ |- _ => rewrite (H n)
  | H : forall k q, faults e k (Select q) = _ |- _ => rewrite (H n)
  end.

Ltac excluded_fault e n c F :=
  match goal with
  | H : _ = true |- _ => cbn in H; discriminate H
  | H : _ = false |- _ => cbn in H; discriminate H
  | H : forall k, _ = true |- _ =>
      let H' := fresh in
      pose proof (H n) as H'; rewrite F in H'; cbn in H'; discriminate H'
  end.

Ltac fault_case :=
  wnorm; use_facts;
  lazymatch goal with
  | |- context [settled (faults ?e ?n ?c)] =>
      first
        [ known_fault e n c
        | let F := fresh "F" in
          destruct (faults e n c) eqn:F;
          try solve [exfalso; excluded_fault e n c F] ]
  end.

Ltac wsimpl :=
  cbn [env ncalls page form backend trace timers
       record with_page with_form with_backend with_timers count_call
       fst snd passing settled r_error r_data Store.serve rows_of strings_of
       supabase session rendered negb andb orb].

(** The postcondition is kept under a name while a compound construct is
    entered, and unfolded when an outcome reaches it. *)
Ltac name_post :=
  lazymatch goal with
  | |- wp _ _ ?Q =>
      tryif is_var Q then idtac
      else (let Q' := fresh "Q" in set (Q' := Q))
  end.

Ltac open_post :=
  repeat (wsimpl; cbv beta zeta;
          lazymatch goal with
          | |- ?Q _ _ => is_var Q; unfold Q; try clear Q
          end);
  wsimpl; cbv beta zeta.

Ltac wp_step :=
  lazymatch goal with
  | |- wp (bind _ _) _ _ => name_post; apply wp_bind
  | |- wp (ret _) _ _ => apply wp_ret
  | |- wp (emit _) _ _ => apply wp_emit
  | |- wp (console _ _) _ _ => apply wp_emit
  | |- wp (toast _ _ _) _ _ => apply wp_emit
  | |- wp (set_page _) _ _ => apply wp_set_page
  | |- wp (set_form _) _ _ => apply wp_set_form
  | |- wp (set_timeout _ _ _) _ _ => apply wp_set_timeout
  | |- wp (throw _) _ _ => apply wp_throw
  | |- wp return_ _ _ => apply wp_return
  | |- wp read_form _ _ => apply wp_read_form
  | |- wp read_env _ _ => apply wp_read_env
  | |- wp (try_catch _ _) _ _ => name_post; apply wp_try_catch
  | |- wp (try_finally _ _) _ _ => name_post; apply wp_try_finally
  | |- wp (function_body _) _ _ => name_post; apply wp_function_body
  | |- wp (when true ?m) _ _ => change (when true m) with m
  | |- wp (when false _) _ _ => apply wp_ret
  | |- wp (when _ _) _ _ => name_post; apply wp_when; intros ?
  | |- wp (issue true _) _ _ => apply wp_issue_on
  | |- wp (issue false _) _ _ => apply wp_issue_off
  | |- wp (settle _ _) _ _ => name_post; apply wp_settle; fault_case
  | |- wp (remote true _) _ _ => name_post; apply wp_remote_on; fault_case
  | |- wp (remote false _) _ _ => apply wp_remote_off
  | |- wp (match ?x with _ => _ end) _ _ => name_post; destruct x eqn:?
  end;
  open_post.

Ltac wp_run := repeat wp_step.

(** ** Strings and lists *)


Lemma requests_app l1 l2 : requests (l1 ++ l2) = requests l1 ++ requests l2.
Proof. apply flat_map_app. Qed.

Lemma toasts_app l1 l2 : toasts (l1 ++ l2) = toasts l1 ++ toasts l2.
Proof. apply flat_map_app. Qed.

Lemma sleeps_app l1 l2 : sleeps (l1 ++ l2) = sleeps l1 ++ sleeps l2.
Proof. apply flat_map_app. Qed.

Lemma added_app w w' l : trace w' = trace w ++ l -> added w w' = l.
Proof.
  intros H. unfold added. rewrite H.
  rewrite skipn_app, skipn_all, Nat.sub_diag. reflexivity.
Qed.

(** A trace of fetch events holds no wait and asks only for reads. *)
Lemma fetch_events_sleeps l : forallb fetch_event l = true -> sleeps l = [].
Proof.
  induction l as [| e l IH]; simpl; [reflexivity |].
  intros H. apply andb_prop in H. destruct H as [He Hl].
  destruct e; simpl in *; auto; discriminate.
Qed.

Lemma fetch_events_requests l :
  forallb fetch_event l = true -> forallb read_call (requests l) = true.
Proof.
  induction l as [| e l IH]; simpl; [reflexivity |].
  intros H. apply andb_prop in H. destruct H as [He Hl].
  destruct e; simpl in *; auto. rewrite He. auto.
Qed.

(** ** The store model *)

Lemma in_insert_sorted le x l s :
  In s (Store.insert_sorted le x l) <-> s = x \/ In s l.
Proof.
  induction l as [| y l IH]; simpl.
  - intuition.
  - destruct (le x y); simpl; rewrite ?IH; intuition.
Qed.

Lemma in_sort le l s : In s (Store.sort le l) <-> In s l.
Proof.
  induction l as [| y l IH]; simpl; [tauto |].
  rewrite in_insert_sorted, IH. intuition.
Qed.

Lemma in_order_rows q rows s : In s (Store.order_rows q rows) <-> In s rows.
Proof.
  induction q as [| c q IH]; simpl; [tauto |].
  destruct c; auto. rewrite in_sort. exact IH.
Qed.

(** A query answers with rows of the table that pass its clauses. *)
Lemma in_run_query q st s :
  In s (Store.run_query q st) <->
  In s (Store.table st) /\ Store.matches q s = true.
Proof. unfold Store.run_query. rewrite in_order_rows, filter_In. tauto. Qed.

Lemma insert_sorted_perm le x l : Permutation (x :: l) (Store.insert_sorted le x l).
Proof.
  induction l as [| y l IH]; simpl; [reflexivity |].
  destruct (le x y); [reflexivity |].
  rewrite perm_swap. constructor. exact IH.
Qed.

Lemma sort_perm le l : Permutation l (Store.sort le l).
Proof.
  induction l as [| y l IH]; simpl; [constructor |].
  rewrite <- insert_sorted_perm. constructor. exact IH.
Qed.

Lemma order_rows_perm q rows : Permutation rows (Store.order_rows q rows).
Proof.
  induction q as [| c q IH]; simpl; [reflexivity |].
  destruct c; auto. rewrite <- sort_perm. exact IH.
Qed.

(** The answer depends on the table only. *)
Lemma run_query_table q st st' :
  Store.table st = Store.table st' -> Store.run_query q st = Store.run_query q st'.
Proof. unfold Store.run_query. intros ->. reflexivity. Qed.

(** A query that only orders answers with all the rows. *)
Lemma run_query_order_only column ascending st :
  Permutation (Store.table st)
              (Store.run_query [Q_order column ascending] st).
Proof.
  unfold Store.run_query. simpl.
  rewrite <- sort_perm.
  replace (filter _ (Store.table st)) with (Store.table st); [reflexivity |].
  induction (Store.table st) as [| s l IH]; simpl; [reflexivity |].
  rewrite <- IH. reflexivity.
Qed.

(** ** Fetching the slides *)

Ltac trace_tail :=
  rewrite <- ?app_assoc; cbn [app];
  lazymatch goal with
  | |- exists l, ?t ++ ?a :: ?rest = ?t ++ ?a :: l /\ _ =>
      exists rest; split; reflexivity
  | |- exists l, ?t ++ ?rest = ?t ++ l /\ _ =>
      exists rest; split; reflexivity
  end.

Ltac shown_rows :=
  cbn [Page.slides Page.apply];
  let s := fresh "s" in
  let Hs := fresh "Hs" in
  intros s Hs;
  first [ contradiction
        | left; exact Hs
        | right; apply in_run_query in Hs; apply Hs ].

(** The [try]/[catch] of [fetchSlides], whatever the environment does: it
    completes or returns, reads the store without changing it, and shows
    nothing that was neither shown before nor a row of the table. *)
Lemma fetch_attempt_spec c n w :
  wp (try_catch (fetch_guards c ;; fetch_query c) (fetch_handler c n)) w
     (fun o w' =>
        (o = Normal tt \/ o = Returned)
        /\ env w' = env w /\ backend w' = backend w /\ form w' = form w
        /\ (exists l, trace w' = trace w ++ fetch_started :: l
                      /\ forallb fetch_event l = true)
        /\ (forall s, In s (Page.slides (page w')) ->
                      In s (Page.slides (page w))
                      \/ In s (Store.table (backend w)))).
Proof.
  unfold fetch_guards, fetch_query, fetch_courses, fetch_handler, fetch_started.
  destruct c as [[] [] r]; cbn [supabase session rendered negb].
  all: wp_run.
  all: repeat split; auto; try trace_tail; try shown_rows.
Qed.

Lemma fetchSlides_spec c n w :
  wp (fetchSlides c n) w
     (fun o w' =>
        o = Normal tt
        /\ env w' = env w /\ backend w' = backend w /\ form w' = form w
        /\ Page.isFetchingSlides (page w') = false
        /\ (exists l, trace w' = trace w ++ fetch_started :: l
                      /\ forallb fetch_event l = true)
        /\ (forall s, In s (Page.slides (page w')) ->
                      In s (Page.slides (page w))
                      \/ In s (Store.table (backend w)))).
Proof.
  unfold fetchSlides.
  apply wp_function_body, wp_try_finally.
  eapply wp_mono; [apply fetch_attempt_spec |].
  cbv beta. intros o w' (Ho & He & Hb & Hf & (l & Hl & Hev) & Hs).
  assert (Hfin : wp (set_page (Page.SetIsFetchingSlides false)) w'
            (fun o' w'' =>
               o' = Normal tt
               /\ env w'' = env w /\ backend w'' = backend w
               /\ form w'' = form w
               /\ Page.isFetchingSlides (page w'') = false
               /\ (exists l, trace w'' = trace w ++ fetch_started :: l
                             /\ forallb fetch_event l = true)
               /\ (forall s, In s (Page.slides (page w'')) ->
                             In s (Page.slides (page w))
                             \/ In s (Store.table (backend w))))).
  { apply wp_set_page. wnorm. repeat split; auto.
    exists (l ++ [SetPage (Page.SetIsFetchingSlides false)]). split.
    - rewrite Hl, <- app_assoc. reflexivity.
    - rewrite forallb_app, Hev. reflexivity. }
  destruct Ho as [-> | ->]; exact Hfin.
Qed.


(** ** Errors and retries of a fetch *)

Lemma handler_retry c n t w :
  isNetworkError (errorMessage_of "Unknown error" t) = true ->
  (n <? maxRetries)%N = true ->
  wp (fetch_handler c n t) w (fun o w' =>
    o = Returned /\ env w' = env w /\ backend w' = backend w /\ ncalls w' = ncalls w
    /\ page w' = Page.apply (Page.SetSlides []) (page w)
    /\ timers w' = timers w ++ [{| t_delay := 1000 * (n + 1); t_closure := c; t_retryCount := n + 1 |}]
    /\ trace w' = trace w ++
        [SetPage (Page.SetSlides []);
         Console Error "Error fetching slides:";
         Console Log ("Will retry fetching slides in " ++ Js.of_N (1000 * (n + 1))
                      ++ "ms (attempt " ++ Js.of_N (n + 1) ++ " of "
                      ++ Js.of_N maxRetries ++ ")");
         Toast {| toast_title := "Connection issue";
                  toast_description :=
                    "Retrying in " ++ Js.of_N (1000 * (n + 1) / 1000)
                    ++ " seconds... (" ++ Js.of_N (n + 1) ++ "/"
                    ++ Js.of_N maxRetries ++ ")";
                  toast_variant := Default |};
         SetTimeout (1000 * (n + 1)) (n + 1)]).
Proof.
  intros Hnet Hlt. unfold fetch_handler. rewrite Hnet, Hlt. cbn [andb].
  wp_run. rewrite <- !app_assoc. repeat split; reflexivity.
Qed.

Lemma handler_surface c n t w :
  isNetworkError (errorMessage_of "Unknown error" t) && (n <? maxRetries)%N = false ->
  wp (fetch_handler c n t) w (fun o w' =>
    o = Normal tt /\ env w' = env w /\ backend w' = backend w /\ ncalls w' = ncalls w
    /\ Page.slides (page w') = []
    /\ Page.error (page w') = Some (classified_message (errorMessage_of "Unknown error" t))
    /\ timers w' = timers w
    /\ trace w' = trace w ++
        [SetPage (Page.SetSlides []);
         Console Error "Error fetching slides:";
         SetPage (Page.SetError
                    (Some (classified_message (errorMessage_of "Unknown error" t))));
         Toast {| toast_title := "Error loading slides";
                  toast_description := errorMessage_of "Unknown error" t;
                  toast_variant := Destructive |};
         RunDiagnostics]).
Proof.
  intros Hcond. unfold fetch_handler. rewrite Hcond.
  wp_run. rewrite <- !app_assoc. repeat split; reflexivity.
Qed.



(** The two reads of a fetch being served, the result is displayed. *)
Lemma fetch_served c n w :
  supabase c = true -> session c = true ->
  faults (env w) (ncalls w) HeadCount = Succeeds ->
  faults (env w) (S (ncalls w)) (Select (query_of c)) = Succeeds ->
  wp (fetchSlides c n) w (fun o w' =>
    o = Normal tt /\ env w' = env w /\ backend w' = backend w
    /\ timers w' = timers w
    /\ Page.slides (page w') = Store.run_query (query_of c) (backend w)
    /\ Page.error (page w') = None
    /\ Page.isFetchingSlides (page w') = false
    /\ exists l, trace w' = trace w ++ l /\ toasts l = []).
Proof.
  destruct c as [sb ss r]. cbn [supabase session]. intros -> -> Hp Hq.
  unfold fetchSlides, fetch_guards, fetch_query, fetch_courses, query_of in *.
  cbn [supabase session rendered negb] in *.
  wp_run.
  all: repeat apply conj; auto; trace_tail.
Qed.









(** What a call of [fetchSlides] does once its query phase has raised. *)
Lemma fetch_after_error c n w t w1 :
  (fetch_guards c ;; fetch_query c) w = (Raise t, w1) ->
  fetchSlides c n w
  = match fetch_handler c n t w1 with
    | (OutOfFuel, w2) => (OutOfFuel, w2)
    | (Returned, w2) =>
        (Normal tt,
         record (SetPage (Page.SetIsFetchingSlides false))
           (with_page (Page.apply (Page.SetIsFetchingSlides false) (page w2))
              w2))
    | (o, w2) =>
        (o,
         record (SetPage (Page.SetIsFetchingSlides false))
           (with_page (Page.apply (Page.SetIsFetchingSlides false) (page w2))
              w2))
    end.
Proof.
  intros H. unfold fetchSlides, function_body, try_finally, try_catch.
  rewrite H. destruct (fetch_handler c n t w1) as [[[] | | t' | ] w2];
    reflexivity.
Qed.



(** C10. Whenever the query phase of [fetchSlides] raises, with or without
    a retry to follow, the first thing the call does next is to set the
    displayed slides to the empty list, and they are still empty when the
    call completes. *)
Theorem C10_error_clears_displayed_slides
    (c : closure) (retryCount : N) (w w1 : world) (t : thrown) :
  (fetch_guards c ;; fetch_query c) w = (Raise t, w1) ->
  let r := fetchSlides c retryCount w in
  (exists rest,
     trace (snd r) = trace w1 ++ SetPage (Page.SetSlides []) :: rest)
  /\ Page.slides (page (snd r)) = [].
Proof.
  intros Hraise r. subst r.
  rewrite (fetch_after_error c retryCount w t w1 Hraise).
  destruct (isNetworkError (errorMessage_of "Unknown error" t)
            && (retryCount <? maxRetries)%N) eqn:Hc.
  - apply andb_prop in Hc. destruct Hc as [Hnet Hn].
    pose proof (handler_retry c retryCount t w1 Hnet Hn) as H. unfold wp in H.
    destruct (fetch_handler c retryCount t w1) as [o w2]. cbn [fst snd] in H.
    destruct H as (-> & _ & _ & _ & Hp & _ & Hl). cbn [fst snd]. wnorm.
    split.
    + eexists. rewrite Hl, <- app_assoc. reflexivity.
    + rewrite Hp. reflexivity.
  - pose proof (handler_surface c retryCount t w1 Hc) as H. unfold wp in H.
    destruct (fetch_handler c retryCount t w1) as [o w2]. cbn [fst snd] in H.
    destruct H as (-> & _ & _ & _ & Hs & _ & _ & Hl). cbn [fst snd]. wnorm.
    split.
    + eexists. rewrite Hl, <- app_assoc. reflexivity.
    + cbn [Page.apply Page.slides]. exact Hs.
Qed.

(** The sample page, showing three slides, goes off line. *)
Lemma C10_error_clears_displayed_slides_witness :
  let w := Sample.loaded_with Sample.offline in
  let r := fetchSlides Sample.signed_in 0 w in
  Page.slides (page w) = [Sample.cherry; Sample.apple; Sample.banana]
  /\ (exists rest,
        trace (snd r)
        = trace (snd ((fetch_guards Sample.signed_in ;;
                       fetch_query Sample.signed_in) w))
          ++ SetPage (Page.SetSlides []) :: rest)
  /\ Page.slides (page (snd r)) = [].
Proof.
  split; [reflexivity |].
  apply (C10_error_clears_displayed_slides Sample.signed_in 0
           (Sample.loaded_with Sample.offline)
           (snd ((fetch_guards Sample.signed_in ;;
                  fetch_query Sample.signed_in)
                   (Sample.loaded_with Sample.offline)))
           (ThrownObject (new_Error "Failed to fetch"))).
  vm_compute. reflexivity.
Defined.

(** ** A refetch inside another handler *)

(** A refetch whose probe goes wrong displays nothing. *)
Lemma fetch_fails_empty c n w :
  supabase c = true -> session c = true ->
  goes_wrong (faults (env w) (ncalls w) HeadCount) = true ->
  Page.slides (page (snd (fetchSlides c n w))) = [].
Proof.
  destruct c as [sb ss r]. cbn [supabase session]. intros -> -> Hp.
  apply (wp_snd (fetchSlides {| supabase := true; session := true;
                                rendered := r |} n) w).
  unfold fetchSlides, fetch_guards, fetch_query, fetch_handler.
  cbn [supabase session rendered negb].
  wp_run.
  all: reflexivity.
Qed.

(** All that the other handlers need to know of a call of [fetchSlides]. *)
Lemma fetchSlides_full c n w :
  wp (fetchSlides c n) w
     (fun o w' =>
        o = Normal tt
        /\ env w' = env w /\ backend w' = backend w /\ form w' = form w
        /\ (exists l, trace w' = trace w ++ fetch_started :: l
                      /\ forallb fetch_event l = true)
        /\ (forall s, In s (Page.slides (page w')) ->
                      In s (Page.slides (page w))
                      \/ In s (Store.table (backend w)))
        /\ (supabase c = true -> session c = true ->
            faults (env w) (ncalls w) HeadCount = Succeeds ->
            faults (env w) (S (ncalls w)) (Select (query_of c)) = Succeeds ->
            Page.slides (page w') = Store.run_query (query_of c) (backend w))
        /\ (supabase c = true -> session c = true ->
            goes_wrong (faults (env w) (ncalls w) HeadCount) = true ->
            Page.slides (page w') = [])).
Proof.
  pose proof (fetchSlides_spec c n w) as H. unfold wp in *.
  destruct H as (Ho & He & Hb & Hf & _ & Ht & Hs).
  repeat apply conj; try assumption.
  - intros Hsb Hss Hp Hq. apply (fetch_served c n w Hsb Hss Hp Hq).
  - apply fetch_fails_empty.
Qed.

(** A call of [fetchSlides] as a step of a larger run: the world it leaves
    is known by these facts alone. *)
Ltac after_fetch H :=
  cbn [env ncalls page form backend trace timers
       record with_page with_form with_backend with_timers count_call
       fst snd Store.serve supabase session] in H.

Ltac wp_refetch :=
  lazymatch goal with
  | |- wp (fetchSlides _ _) _ _ =>
      let o := fresh "o" in
      let w' := fresh "w" in
      let l := fresh "l" in
      let He := fresh "Henv" in
      let Hb := fresh "Hbackend" in
      let Hf := fresh "Hform" in
      let Ht := fresh "Htrace" in
      let Hev := fresh "Hevents" in
      let Hshows := fresh "Hshows" in
      let Hserved := fresh "Hserved" in
      let Hfailed := fresh "Hfailed" in
      eapply wp_mono;
      [ apply fetchSlides_full
      | cbv beta;
        intros o w' (-> & He & Hb & Hf & (l & Ht & Hev) & Hshows & Hserved
                     & Hfailed);
        after_fetch He; after_fetch Hb; after_fetch Hf; after_fetch Ht;
        after_fetch Hshows; after_fetch Hserved; after_fetch Hfailed;
        open_post ]
  end.

Ltac wp_step2 := first [ wp_step | wp_refetch ]; use_facts.


(** One turn of the storage loop: one request, and either the file is
    gone or the turn is counted and, short of the last one, waited out. *)
Lemma delete_file_attempt_spec c path l w :
  supabase c = true ->
  wp (delete_file_attempt c path l) w (fun o w' =>
    exists l' ev,
      o = Normal l'
      /\ env w' = env w /\ page w' = page w /\ form w' = form w
      /\ timers w' = timers w /\ ncalls w' = S (ncalls w)
      /\ Store.table (backend w') = Store.table (backend w)
      /\ trace w' = trace w ++ ev
      /\ requests ev = [StorageRemove path] /\ toasts ev = []
      /\ ((goes_wrong (faults (env w) (ncalls w) (StorageRemove path)) = false
           /\ fileDeletedSuccessfully l' = true
           /\ retryCount l' = retryCount l
           /\ storageError l' = storageError l
           /\ sleeps ev = [])
          \/ (goes_wrong (faults (env w) (ncalls w) (StorageRemove path)) = true
              /\ fileDeletedSuccessfully l' = fileDeletedSuccessfully l
              /\ retryCount l' = (retryCount l + 1)%N
              /\ storageError l' <> None
              /\ sleeps ev
                 = if (retryCount l + 1 <? maxRetries_storage)%N
                   then [(1000 * (retryCount l + 1))%N] else []))).
Proof.
  destruct c as [sb ss r]. cbn [supabase]. intros ->.
  unfold delete_file_attempt.
  wp_run.
  all: rewrite <- ?app_assoc; cbn [app].
  all: eexists; eexists; split; [reflexivity |].
  all: do 6 (split; [reflexivity |]).
  all: split; [reflexivity |].
  all: split; [reflexivity |].
  all: split; [reflexivity |].
  all: first
         [ left; repeat apply conj; reflexivity
         | right; repeat apply conj; try reflexivity; try discriminate;
           match goal with H : (_ <? _)%N = _ |- _ => rewrite H end;
           reflexivity ].
Qed.

(** The storage loop, from its initial variables. *)
Ltac loop_step :=
  lazymatch goal with
  | |- wp (delete_file_attempt _ _ _) _ _ => unfold delete_file_attempt
  | _ => idtac
  end;
  cbn [delete_file_loop maxRetries_storage
       retryCount fileDeletedSuccessfully storageError
       N.add N.mul N.ltb N.compare Pos.add Pos.succ Pos.mul
       Pos.compare Pos.compare_cont andb negb];
  wp_step.

Lemma delete_file_spec c path w :
  supabase c = true -> Js.truthy path = true ->
  wp (delete_file c path) w (fun o w' =>
    exists b ev,
      o = Normal b
      /\ trace w' = trace w ++ ev
      /\ env w' = env w /\ page w' = page w /\ form w' = form w
      /\ timers w' = timers w
      /\ ncalls w' = (List.length (requests ev) + ncalls w)%nat
      /\ Store.table (backend w') = Store.table (backend w)
      /\ requests ev = repeat (StorageRemove path) (List.length (requests ev))
      /\ toasts ev = []
      /\ (1 <= List.length (requests ev) <= 3)%nat
      /\ sleeps ev = firstn (List.length (requests ev) - 1) [1000%N; 2000%N]
      /\ storage_schedule ev
         = firstn (2 * List.length (requests ev) - 1) (backoff path)
      /\ (if b
          then goes_wrong
                 (faults (env w) (List.length (requests ev) - 1 + ncalls w)
                    (StorageRemove path)) = false
          else List.length (requests ev) = 3%nat
               /\ forall j, (j < 3)%nat ->
                    goes_wrong (faults (env w) (j + ncalls w)
                                  (StorageRemove path)) = true)).
Proof.
  destruct c as [sb ss r]. cbn [supabase]. intros -> Hpath.
  unfold delete_file. rewrite Hpath.
  change (N.to_nat maxRetries_storage) with 3%nat.
  repeat loop_step.
  all: rewrite <- ?app_assoc; cbn [app].
  all: eexists; eexists; split; [reflexivity |].
  all: split; [reflexivity |].
  all: unfold requests, sleeps, toasts, storage_schedule, backoff;
    cbn [List.length flat_map app Nat.sub Nat.add Nat.mul firstn repeat
         filter storage_event].
  all: repeat apply conj; try reflexivity; try lia.
  all: try (match goal with
            | F : faults _ _ _ = _ |- _ => rewrite F; reflexivity
            end).
  all: intros [| [| [| j]]] Hj; [| | | lia]; cbn [Nat.add];
    match goal with
    | F : faults _ _ _ = _ |- _ => rewrite F; reflexivity
    end.
Qed.

Lemma wp_delete_file_falsy c path w Q :
  Js.truthy path = false ->
  Q (Normal false) w -> wp (delete_file c path) w Q.
Proof. intros H. unfold wp, delete_file. rewrite H. exact (fun H => H). Qed.

(** The storage loop as a step of a larger run. *)
Ltac wp_delete_file :=
  lazymatch goal with
  | |- wp (delete_file ?c ?path) ?w _ =>
      first
        [ apply wp_delete_file_falsy; [assumption |]; open_post
        | let fd := fresh "fileDeleted" in
          let evf := fresh "evf" in
          let w' := fresh "w" in
          let o := fresh "o" in
          eapply wp_mono;
          [ apply delete_file_spec; [reflexivity | assumption]
          | cbv beta;
            intros o w' (fd & evf & -> & ? & ? & ? & ? & ? & ? & ? & ? & ? & ?
                         & ? & ? & ?);
            cbn [env ncalls page form backend trace timers
                 record with_page with_form with_backend with_timers
                 count_call] in *;
            destruct fd;
            try solve
              [ exfalso;
                match goal with
                | H : goes_wrong _ = false,
                  Hall : forall n, goes_wrong (faults _ n _) = true |- _ =>
                    rewrite Hall in H; discriminate H
                end ];
            open_post ] ]
  end.

Ltac wp_step3 := first [ wp_step2 | wp_delete_file; use_facts ].

Ltac wp_run3 := repeat wp_step3.


(** Reading a trace event by event. *)
Lemma requests_cons e l :
  requests (e :: l)
  = match e with Remote c => c :: requests l | _ => requests l end.
Proof. destruct e; reflexivity. Qed.

Lemma toasts_cons e l :
  toasts (e :: l)
  = match e with Toast m => m :: toasts l | _ => toasts l end.
Proof. destruct e; reflexivity. Qed.

Lemma sleeps_cons e l :
  sleeps (e :: l)
  = match e with Sleep d => d :: sleeps l | _ => sleeps l end.
Proof. destruct e; reflexivity. Qed.

Ltac read_trace :=
  unfold fetch_started;
  repeat first
    [ rewrite requests_cons | rewrite toasts_cons | rewrite sleeps_cons
    | rewrite requests_app | rewrite toasts_app | rewrite sleeps_app ];
  cbv beta iota;
  change (requests []) with (@nil remote_call);
  change (toasts []) with (@nil toast_message);
  change (sleeps []) with (@nil N);
  rewrite ?app_nil_r.

Ltac trace_list :=
  wnorm; use_facts; rewrite <- ?app_assoc; cbn [app].






Lemma storage_removals_cons e ev :
  storage_removals (e :: ev)
  = (match e with Remote (StorageRemove _) => 1 | _ => 0 end
     + storage_removals ev)%nat.
Proof. destruct e as [| | [] | | | | | | | | |]; reflexivity. Qed.

Lemma storage_removals_app ev1 ev2 :
  storage_removals (ev1 ++ ev2)
  = (storage_removals ev1 + storage_removals ev2)%nat.
Proof.
  unfold storage_removals.
  rewrite requests_app, filter_app, length_app. reflexivity.
Qed.

Lemma storage_removals_fetch l :
  forallb fetch_event l = true -> storage_removals l = 0%nat.
Proof.
  intros H. apply fetch_events_requests in H. unfold storage_removals.
  induction (requests l) as [| c cs IH]; [reflexivity |].
  cbn [forallb] in H. apply andb_prop in H. destruct H as [Hc Hcs].
  destruct c; try discriminate Hc; cbn [filter is_storage_remove]; auto.
Qed.

Lemma storage_removals_repeat ev path :
  requests ev = repeat (StorageRemove path) (List.length (requests ev)) ->
  storage_removals ev = List.length (requests ev).
Proof.
  unfold storage_removals. intros H.
  rewrite H at 1. generalize (List.length (requests ev)). intros k.
  induction k as [| k IH]; [reflexivity |].
  cbn [repeat filter is_storage_remove List.length]. rewrite IH. reflexivity.
Qed.

Lemma storage_schedule_cons e ev :
  storage_schedule (e :: ev)
  = (if storage_event e then [e] else []) ++ storage_schedule ev.
Proof.
  unfold storage_schedule. cbn [filter].
  destruct (storage_event e); reflexivity.
Qed.

Lemma storage_schedule_app ev1 ev2 :
  storage_schedule (ev1 ++ ev2) = storage_schedule ev1 ++ storage_schedule ev2.
Proof. apply filter_app. Qed.

Lemma storage_schedule_fetch l :
  forallb fetch_event l = true -> storage_schedule l = [].
Proof.
  induction l as [| e l IH]; [reflexivity |].
  cbn [forallb]. intros H. apply andb_prop in H. destruct H as [He Hl].
  rewrite storage_schedule_cons, (IH Hl), app_nil_r.
  destruct e as [| | [] | | | | | | | | |]; try reflexivity; discriminate He.
Qed.

Ltac count_removals :=
  unfold fetch_started;
  repeat first
    [ rewrite storage_removals_cons | rewrite storage_removals_app
    | rewrite storage_schedule_cons | rewrite storage_schedule_app ];
  cbv beta iota; cbn [storage_event app Nat.add];
  change (storage_removals []) with 0%nat;
  change (storage_schedule []) with (@nil event);
  repeat match goal with
         | H : forallb fetch_event ?l = true |- _ =>
             first [ rewrite (storage_removals_fetch l H)
                   | rewrite (storage_schedule_fetch l H) ]
         | H : requests ?ev = repeat _ _ |- _ =>
             rewrite (storage_removals_repeat ev _ H)
         end;
  rewrite ?app_nil_r, ?Nat.add_0_r.

Ltac in_trace :=
  unfold fetch_started;
  repeat first [ left; reflexivity | right | apply in_or_app; right ].

(** Every path through [deleteSlide]: it completes, it has refetched the
    list, and it asked the storage at most three times, waiting 1000 ms
    after the first attempt and 2000 ms after the second before the next. *)
Lemma deleteSlide_general c slideId path w :
  wp (deleteSlide c slideId path) w (fun o w' =>
    o = Normal tt
    /\ exists ev,
        trace w' = trace w ++ ev
        /\ In fetch_started ev
        /\ (storage_removals ev <= 3)%nat
        /\ storage_schedule ev
           = firstn (2 * storage_removals ev - 1) (backoff path)).
Proof.
  destruct c as [sb ss rd].
  unfold deleteSlide, delete_guard, delete_record, delete_handler.
  destruct (Js.truthy path) eqn:Hpath; destruct sb.
  all: wp_run3.
  all: split; [reflexivity |].
  all: trace_list; eexists; (split; [reflexivity |]).
  all: split; [in_trace |].
  all: count_removals.
  all: try (split; [lia | first [assumption | reflexivity]]).
Qed.

(** What is neither displayed nor in the table before a refetch is not
    displayed after it. *)
Lemma hidden (shown before table : list slide) slideId :
  (forall s, In s shown -> In s before \/ In s table) ->
  (forall s, In s before -> id s <> slideId) ->
  (forall s, In s table -> id s <> slideId) ->
  ~ In slideId (ids shown).
Proof.
  intros Hshows Hpage Htable Hin. apply in_map_iff in Hin.
  destruct Hin as (s & Hid & Hs).
  destruct (Hshows s Hs) as [H | H].
  - exact (Hpage s H Hid).
  - exact (Htable s H Hid).
Qed.

Lemma removed_from_page slideId (p : Page.state) s :
  In s (Page.slides (Page.apply (Page.RemoveSlide slideId) p)) ->
  id s <> slideId.
Proof.
  cbn [Page.apply Page.slides]. intros H. apply filter_In in H.
  destruct H as [_ H]. apply negb_true_iff in H.
  apply String.eqb_neq. exact H.
Qed.

Lemma removed_from_table slideId (l : list slide) s :
  In s (filter (fun s => negb (Store.has_id slideId s)) l) ->
  id s <> slideId.
Proof.
  intros H. apply filter_In in H.
  destruct H as [_ H]. apply negb_true_iff in H.
  apply String.eqb_neq. exact H.
Qed.

(** The storage refusing every removal, the record is deleted all the
    same. *)
Lemma deleteSlide_exhausted c slideId path w :
  supabase c = true -> Js.truthy path = true ->
  goes_wrong (faults (env w) (ncalls w) SelectIdLimit1) = false ->
  (forall n, goes_wrong (faults (env w) n (StorageRemove path)) = true) ->
  wp (deleteSlide c slideId path) w (fun o w' =>
    exists ev,
      trace w' = trace w ++ ev
      /\ storage_schedule ev = backoff path
      /\ In (DeleteById slideId) (requests ev)
      /\ ((forall n, faults (env w) n (DeleteById slideId) = Succeeds) ->
          o = Normal tt
          /\ ~ In slideId (ids (Page.slides (page w')))
          /\ exists pre, ev = pre ++ [Toast removal_issue_toast])).
Proof.
  destruct c as [sb ss rd]. cbn [supabase]. intros -> Hpath Hguard Hall.
  unfold deleteSlide, delete_guard, delete_record, delete_handler.
  wp_run3.
  all: match goal with H : _ /\ _ |- _ => destruct H as [Hk _] end.
  all: trace_list; eexists; (split; [reflexivity |]).
  all: split;
    [ count_removals;
      match goal with
      | H : storage_schedule _ = _ |- _ => rewrite H, Hk; reflexivity
      end
    |].
  all: split; [read_trace; in_trace |].
  all: intros Hdel;
    try (match goal with
         | F : faults _ _ (DeleteById _) = _ |- _ =>
             rewrite Hdel in F; discriminate F
         end).
  all: split; [reflexivity |]; split.
  all: try (match goal with
            | H : forall s, In s (Page.slides (page ?x)) -> _
              |- ~ In _ (ids (Page.slides (page ?x))) =>
                apply (hidden _ _ _ _ H); use_facts; intros s Hs;
                [ exact (removed_from_page _ _ _ Hs)
                | exact (removed_from_table _ _ _ Hs) ]
            end).
  all: repeat rewrite app_comm_cons; repeat rewrite app_assoc;
    eexists; reflexivity.
Qed.

(** The refetch being served, the page shows what the store holds once
    [deleteSlide] is over; and the table is as it was when the deletion of
    the record and its fallback go wrong. *)
Lemma deleteSlide_reconciled c slideId path w :
  supabase c = true -> session c = true ->
  (forall k, faults (env w) k HeadCount = Succeeds) ->
  (forall k q, faults (env w) k (Select q) = Succeeds) ->
  wp (deleteSlide c slideId path) w (fun o w' =>
    Page.slides (page w') = Store.run_query (query_of c) (backend w')
    /\ ((forall n, goes_wrong (faults (env w) n (DeleteById slideId)) = true) ->
        (forall n, goes_wrong (faults (env w) n (RpcDeleteSlide slideId)) = true) ->
        Store.table (backend w') = Store.table (backend w))).
Proof.
  destruct c as [sb ss rd]. cbn [supabase session]. intros -> -> Hp Hq.
  unfold deleteSlide, delete_guard, delete_record, delete_handler.
  destruct (Js.truthy path) eqn:Hpath.
  all: wp_run3.
  all: wnorm.
  all: split;
    [ match goal with
      | H : _ -> _ -> _ -> _ -> Page.slides (page ?x) = _
        |- Page.slides (page ?x) = _ =>
          rewrite H by (try reflexivity; use_facts; first [apply Hp | apply Hq]);
          use_facts; reflexivity
      end |].
  all: intros Hdel Hrpc.
  all: try (exfalso;
            match goal with
            | F : faults _ ?n (DeleteById _) = _ |- _ =>
                specialize (Hdel n); rewrite F in Hdel; discriminate Hdel
            | F : faults _ ?n (RpcDeleteSlide _) = _ |- _ =>
                specialize (Hrpc n); rewrite F in Hrpc; discriminate Hrpc
            end).
  all: use_facts; cbn [Store.table]; use_facts.
  all: try reflexivity; try assumption.
Qed.

(** The refetch failing at its probe, the page is left empty. *)
Lemma deleteSlide_refetch_fails c slideId path w :
  supabase c = true -> session c = true ->
  (forall n, goes_wrong (faults (env w) n HeadCount) = true) ->
  wp (deleteSlide c slideId path) w (fun o w' => Page.slides (page w') = []).
Proof.
  destruct c as [sb ss rd]. cbn [supabase session]. intros -> -> Hp.
  unfold deleteSlide, delete_guard, delete_record, delete_handler.
  destruct (Js.truthy path) eqn:Hpath.
  all: wp_run3.
  all: wnorm.
  all: match goal with
       | H : _ -> _ -> _ -> Page.slides (page ?x) = []
         |- Page.slides (page ?x) = [] =>
           apply H; try reflexivity; use_facts; apply Hp
       end.
Qed.

(** With no filter set, the query is an ordering clause alone. *)
Lemma query_of_unfiltered c :
  Page.searchQuery (rendered c) = "" ->
  Page.courseFilter (rendered c) = "" ->
  Page.fileTypeFilter (rendered c) = "all" ->
  (exists o, Page.sortOrder (rendered c) = sort_value o) ->
  exists column ascending, query_of c = [Q_order column ascending].
Proof.
  intros Hs Hc Hf (o & Ho). unfold query_of. rewrite Hs, Hc, Hf, Ho.
  destruct o; eexists; eexists; reflexivity.
Qed.

(** ** The query of a fetch *)

(** C1. For every search text, course filter, file-type filter and sort
    order, the query [fetchSlides] builds is made, in this order, of: the
    case-insensitive match [title ILIKE %text%] when the text is not empty;
    the equality [course_id = course] when the course is not empty; the
    type predicate ([image]: [file_type ILIKE image/%]; [pdf]: [file_type =
    application/pdf]; [other]: the negation of each of the two; [all]:
    none); and exactly one ordering clause, last ([newest]: [created_at]
    descending; [oldest]: [created_at] ascending; [a-z]: [title] ascending;
    [z-a]: [title] descending). *)
Theorem C1_query_composition
    (searchText course : string) (f : file_type_filter) (o : sort_order) :
  buildQuery searchText course (file_type_value f) (sort_value o)
  = QuerySpec.composed searchText course f o.
Proof.
  unfold buildQuery, QuerySpec.composed.
  destruct searchText, course, f, o; reflexivity.
Qed.

(** The query is the one sent once the connectivity probe has passed. *)
Lemma fetch_sends_query c n w :
  supabase c = true -> session c = true ->
  goes_wrong (faults (env w) (ncalls w) HeadCount) = false ->
  wp (fetchSlides c n) w (fun o w' =>
    exists ev rest,
      trace w' = trace w ++ ev
      /\ requests ev = HeadCount :: Select (query_of c) :: rest
      /\ forallb is_course_fetch rest = true).
Proof.
  destruct c as [sb ss r]. cbn [supabase session]. intros -> -> Hp.
  unfold fetchSlides, fetch_guards, fetch_query, fetch_courses, query_of,
    fetch_handler.
  cbn [supabase session rendered negb].
  wp_run.
  all: trace_list; eexists; eexists; (split; [reflexivity |]).
  all: read_trace; split; reflexivity.
Qed.

(** On the store model, the [other] filter keeps neither images nor PDF
    files. *)
Lemma other_excludes_images_and_pdf (s : slide) :
  Store.matches (QuerySpec.type_part FtOther) s = true ->
  Store.ilike "image/%" (file_type s) = false
  /\ file_type s <> "application/pdf".
Proof.
  unfold Store.matches, QuerySpec.type_part. cbn [forallb Store.satisfies].
  change (Store.text_column "file_type" s) with (Some (file_type s)).
  change (Store.test "ilike" "image/%" (file_type s))
    with (Store.ilike "image/%" (file_type s)).
  change (Store.test "eq" "application/pdf" (file_type s))
    with (file_type s =? "application/pdf").
  rewrite andb_true_r. intros H. apply andb_prop in H. destruct H as [Hi Hp].
  apply negb_true_iff in Hi, Hp. split; [exact Hi |].
  apply String.eqb_neq. exact Hp.
Qed.

(** On the store model, the two title orders of the sample titles. *)
Example titles_a_z :
  map title
    (Store.run_query (QuerySpec.composed "" "" FtAll AZ)
       {| Store.table := [Sample.banana; Sample.apple]; Store.blobs := [];
          Store.serial := 0; Store.clock := 0 |})
  = ["Apple"; "Banana"].
Proof. reflexivity. Qed.

Example titles_z_a :
  map title
    (Store.run_query (QuerySpec.composed "" "" FtAll ZA)
       {| Store.table := [Sample.banana; Sample.apple]; Store.blobs := [];
          Store.serial := 0; Store.clock := 0 |})
  = ["Banana"; "Apple"].
Proof. reflexivity. Qed.

(** ** The course identifiers *)

Lemma course_fetch_spec c n w :
  supabase c = true -> session c = true ->
  faults (env w) (ncalls w) HeadCount = Succeeds ->
  faults (env w) (S (ncalls w)) (Select (query_of c)) = Succeeds ->
  wp (fetchSlides c n) w (fun o w' =>
    exists ev,
      trace w' = trace w ++ ev
      /\ (In SelectCourseIds (requests ev)
          <-> Page.isLoaded (rendered c) = false)
      /\ (o = Normal tt
          /\ Page.slides (page w') = Store.run_query (query_of c) (backend w)
          /\ Page.error (page w') = None
          /\ toasts ev = []
          /\ Page.isFetchingSlides (page w') = false)
      /\ (Page.isLoaded (rendered c) = false ->
          (faults (env w) (S (S (ncalls w))) SelectCourseIds = Succeeds ->
           Page.courses (page w')
           = Js.distinct (map course_id (Store.table (backend w)))
           /\ Page.isLoaded (page w') = true)
          /\ (forall e,
                faults (env w) (S (S (ncalls w))) SelectCourseIds = Fails e ->
                In (Console Error "Error fetching course IDs:") ev
                /\ Page.courses (page w') = Page.courses (page w)
                /\ Page.isLoaded (page w') = Page.isLoaded (page w))
          /\ (forall t,
                faults (env w) (S (S (ncalls w))) SelectCourseIds = Throws t ->
                In (Console Error "Error processing courses:") ev
                /\ Page.courses (page w') = Page.courses (page w)
                /\ Page.isLoaded (page w') = Page.isLoaded (page w)))).
Proof.
  destruct c as [sb ss r]. cbn [supabase session]. intros -> -> Hp Hq.
  unfold fetchSlides, fetch_guards, fetch_query, fetch_courses, query_of in *.
  cbn [supabase session rendered negb] in *.
  destruct (Page.isLoaded r) eqn:Hloaded; cbn [negb].
  all: wp_run.
  all: trace_list; eexists; (split; [reflexivity |]).
  all: read_trace.
  all: cbn [Page.apply Page.slides Page.error Page.courses Page.isLoaded
            Page.isFetchingSlides].
  all: split;
    [ split;
      [ intros Hin; cbn [In] in Hin;
        repeat (destruct Hin as [Hin | Hin]; [try discriminate Hin |]);
        try contradiction; try reflexivity
      | intros Hl; try discriminate Hl; cbn [In]; auto 10 ] |].
  all: split; [repeat apply conj; reflexivity |].
  all: intros Hl; try discriminate Hl.
  all: repeat apply conj; intros; try discriminate;
    repeat apply conj; try reflexivity.
  all: cbn [In]; repeat (first [left; reflexivity | right]).
Qed.

(** C8, as amended.  On a load whose probe and main query are served,
    [fetchSlides] fetches the course identifiers exactly when the
    [isLoaded] flag of the render is false.  Whatever becomes of that
    secondary fetch, the call completes, the rows of the main query stay
    displayed, the error banner stays empty and no toast is raised.  The
    flag is set, with the distinct identifiers, only when the secondary
    fetch is served; when it fails, the failure is only written to the
    console and the flag is left as it was, so that the next successful
    load fetches the identifiers again. *)
Theorem C8_course_fetch_until_loaded (c : closure) (n : N) (w : world) :
  supabase c = true -> session c = true ->
  faults (env w) (ncalls w) HeadCount = Succeeds ->
  faults (env w) (S (ncalls w)) (Select (query_of c)) = Succeeds ->
  let r := fetchSlides c n w in
  let ev := added w (snd r) in
  let answer := faults (env w) (S (S (ncalls w))) SelectCourseIds in
  (In SelectCourseIds (requests ev) <-> Page.isLoaded (rendered c) = false)
  /\ (fst r = Normal tt
      /\ Page.slides (page (snd r))
         = Store.run_query (query_of c) (backend w)
      /\ Page.error (page (snd r)) = None
      /\ toasts ev = []
      /\ Page.isFetchingSlides (page (snd r)) = false)
  /\ (Page.isLoaded (rendered c) = false ->
      (answer = Succeeds ->
       Page.courses (page (snd r))
       = Js.distinct (map course_id (Store.table (backend w)))
       /\ Page.isLoaded (page (snd r)) = true)
      /\ (forall e,
            answer = Fails e ->
            In (Console Error "Error fetching course IDs:") ev
            /\ Page.courses (page (snd r)) = Page.courses (page w)
            /\ Page.isLoaded (page (snd r)) = Page.isLoaded (page w))
      /\ (forall t,
            answer = Throws t ->
            In (Console Error "Error processing courses:") ev
            /\ Page.courses (page (snd r)) = Page.courses (page w)
            /\ Page.isLoaded (page (snd r)) = Page.isLoaded (page w))).
Proof.
  intros Hsb Hss Hp Hq r ev answer. subst r ev answer.
  pose proof (course_fetch_spec c n w Hsb Hss Hp Hq) as H.
  unfold wp in H. destruct H as (ev & Hev & H).
  rewrite (added_app _ _ _ Hev). exact H.
Qed.

(** The first load of the sample page, with the list of course
    identifiers unreadable. *)
Lemma C8_course_fetch_until_loaded_witness :
  let c := Sample.signed_in in
  let w := Sample.world_with Sample.courses_unreadable in
  let r := fetchSlides c 0 w in
  let ev := added w (snd r) in
  let answer := faults (env w) (S (S (ncalls w))) SelectCourseIds in
  (In SelectCourseIds (requests ev) <-> Page.isLoaded (rendered c) = false)
  /\ (fst r = Normal tt
      /\ Page.slides (page (snd r))
         = Store.run_query (query_of c) (backend w)
      /\ Page.error (page (snd r)) = None
      /\ toasts ev = []
      /\ Page.isFetchingSlides (page (snd r)) = false)
  /\ (Page.isLoaded (rendered c) = false ->
      (answer = Succeeds ->
       Page.courses (page (snd r))
       = Js.distinct (map course_id (Store.table (backend w)))
       /\ Page.isLoaded (page (snd r)) = true)
      /\ (forall e,
            answer = Fails e ->
            In (Console Error "Error fetching course IDs:") ev
            /\ Page.courses (page (snd r)) = Page.courses (page w)
            /\ Page.isLoaded (page (snd r)) = Page.isLoaded (page w))
      /\ (forall t,
            answer = Throws t ->
            In (Console Error "Error processing courses:") ev
            /\ Page.courses (page (snd r)) = Page.courses (page w)
            /\ Page.isLoaded (page (snd r)) = Page.isLoaded (page w))).
Proof.
  apply (C8_course_fetch_until_loaded Sample.signed_in 0
           (Sample.world_with Sample.courses_unreadable));
    vm_compute; reflexivity.
Defined.

(** With the list of course identifiers unreadable, the sample page loads
    its slides twice, and fetches the identifiers both times. *)
Lemma C8_counterexample : ~ course_fetch_on_first_load_only.
Proof.
  intros H.
  apply (H Sample.signed_in (Sample.world_with Sample.courses_unreadable)).
  - vm_compute. repeat split. auto.
  - vm_compute. repeat split. auto.
  - vm_compute. auto.
Qed.

Lemma confirmed_last pre m :
  toast_title m = "Slide deleted" ->
  confirmed_deletion (pre ++ [Toast m]) = true.
Proof.
  intros H. unfold confirmed_deletion. rewrite toasts_app, existsb_app.
  cbn [toasts flat_map app existsb]. rewrite H. cbn. apply orb_true_r.
Qed.

Ltac last_event :=
  repeat rewrite app_comm_cons; repeat rewrite app_assoc.

(** A run that changes the table tells the user that the slide is
    deleted. *)
Lemma deleteSlide_unconfirmed c slideId path w :
  wp (deleteSlide c slideId path) w (fun o w' =>
    exists ev,
      trace w' = trace w ++ ev
      /\ (confirmed_deletion ev = false ->
          Store.table (backend w') = Store.table (backend w))).
Proof.
  destruct c as [sb ss rd].
  unfold deleteSlide, delete_guard, delete_record, delete_handler.
  destruct (Js.truthy path) eqn:Hpath; destruct sb.
  all: wp_run3.
  all: trace_list; eexists; (split; [reflexivity |]).
  all: intros Hc.
  all: first
         [ use_facts; cbn [Store.table]; use_facts; reflexivity
         | exfalso; revert Hc; last_event;
           rewrite confirmed_last by reflexivity; discriminate ].
Qed.

(** ** Deleting a slide *)

(** C3, as amended. Every run of [deleteSlide] completes and has called
    [fetchSlides] on the way, whichever exit it takes; a run that does not
    confirm the deletion leaves the table as it was. What the page then
    displays depends on that refetch: when its requests are served, the
    page displays the answer of the store to the query of the current
    filters, so that, after an unconfirmed deletion and with no filter
    set, the displayed identifiers are those of the table before the
    call; when its connectivity probe goes wrong, the page displays
    nothing. *)
Theorem C3_refetch_on_every_exit
  (c : closure) (slideId path : string) (w : world) :
  supabase c = true -> session c = true ->
  let r := deleteSlide c slideId path w in
  let w' := snd r in
  let ev := added w w' in
  fst r = Normal tt
  /\ In fetch_started ev
  /\ (confirmed_deletion ev = false ->
      Store.table (backend w') = Store.table (backend w))
  /\ ((forall k, faults (env w) k HeadCount = Succeeds) ->
      (forall k q, faults (env w) k (Select q) = Succeeds) ->
      Page.slides (page w') = Store.run_query (query_of c) (backend w')
      /\ (unfiltered c -> confirmed_deletion ev = false ->
          Permutation (ids (Page.slides (page w')))
                      (ids (Store.table (backend w)))))
  /\ ((forall k, goes_wrong (faults (env w) k HeadCount) = true) ->
      Page.slides (page w') = []).
Proof.
  intros Hsb Hss r w' ev. subst r w' ev.
  pose proof (deleteSlide_general c slideId path w) as Hg.
  pose proof (deleteSlide_unconfirmed c slideId path w) as Hu.
  unfold wp in Hg, Hu.
  destruct Hg as (Ho & ev & Hev & Hfetch & _).
  destruct Hu as (ev' & Hev' & Htable).
  rewrite (added_app _ _ _ Hev).
  rewrite Hev in Hev'. apply app_inv_head in Hev'. subst ev'.
  split; [exact Ho |]. split; [exact Hfetch |]. split; [exact Htable |].
  split.
  - intros Hp Hq.
    pose proof (deleteSlide_reconciled c slideId path w Hsb Hss Hp Hq) as Hr.
    unfold wp in Hr. destruct Hr as [Hshown _].
    split; [exact Hshown |].
    intros (Hs & Hc & Hf & Hord) Hunconfirmed.
    destruct (query_of_unfiltered c Hs Hc Hf Hord) as (column & asc & Hquery).
    rewrite Hshown, Hquery, <- (Htable Hunconfirmed).
    unfold ids. apply Permutation_map. symmetry.
    generalize (backend (snd (deleteSlide c slideId path w))). intros st.
    apply run_query_order_only.
  - intros Hp.
    exact (deleteSlide_refetch_fails c slideId path w Hsb Hss Hp).
Qed.

(** The table refuses the deletion, the procedure does not exist, and the
    list is read again: the three slides are displayed as before. *)
Lemma C3_refetch_on_every_exit_witness :
  let c := Sample.signed_in in
  let w := Sample.loaded_with Sample.read_only in
  let r := deleteSlide c "2" "slides/2.png" w in
  let w' := snd r in
  let ev := added w w' in
  fst r = Normal tt
  /\ In fetch_started ev
  /\ (confirmed_deletion ev = false ->
      Store.table (backend w') = Store.table (backend w))
  /\ ((forall k, faults (env w) k HeadCount = Succeeds) ->
      (forall k q, faults (env w) k (Select q) = Succeeds) ->
      Page.slides (page w') = Store.run_query (query_of c) (backend w')
      /\ (unfiltered c -> confirmed_deletion ev = false ->
          Permutation (ids (Page.slides (page w')))
                      (ids (Store.table (backend w)))))
  /\ ((forall k, goes_wrong (faults (env w) k HeadCount) = true) ->
      Page.slides (page w') = []).
Proof.
  apply (C3_refetch_on_every_exit Sample.signed_in "2" "slides/2.png"
           (Sample.loaded_with Sample.read_only)); reflexivity.
Defined.

(** The run of the witness: the optimistic removal is undone. *)
Example unconfirmed_deletion_restored :
  let w := Sample.loaded_with Sample.read_only in
  let w' := snd (deleteSlide Sample.signed_in "2" "slides/2.png" w) in
  confirmed_deletion (added w w') = false
  /\ ids (Page.slides (page w')) = ["3"; "2"; "1"]
  /\ ids (Store.table (backend w')) = ["1"; "2"; "3"].
Proof. vm_compute. repeat split. Qed.

(** The session token expires while a slide is being deleted: the record
    stays in the table, the refetch is refused as well, and the page is
    left empty with nothing scheduled to load it again. *)
Example expired_token_empties_page :
  let w := Sample.loaded_with Sample.token_expires in
  let w' := snd (deleteSlide Sample.signed_in "2" "slides/2.png" w) in
  confirmed_deletion (added w w') = false
  /\ ids (Page.slides (page w')) = []
  /\ ids (Store.table (backend w')) = ["1"; "2"; "3"]
  /\ timers w' = []
  /\ Page.error (page w')
     = Some (generic_banner "Connection test failed: JWT expired").
Proof. vm_compute. repeat split. Qed.

(** C3, as stated, fails on that run. *)
Lemma C3_counterexample : ~ failed_deletion_restores_list.
Proof.
  intros H.
  specialize (H Sample.signed_in "2" "slides/2.png"
                (Sample.loaded_with Sample.token_expires)
                eq_refl eq_refl).
  assert (Hu : unfiltered Sample.signed_in).
  { repeat split. exists Newest. reflexivity. }
  specialize (H Hu). vm_compute in H. specialize (H eq_refl).
  apply Permutation_nil in H. discriminate H.
Qed.

(** C4. With a file path, a run of [deleteSlide] asks the storage to
    remove the file at most three times, waiting 1000 ms after the first
    refusal and 2000 ms after the second before it asks again. When the
    storage refuses all three, the deletion of the record is requested all
    the same; and when that request is served, the run completes, the
    slide is not displayed, and the last notification says that the slide
    is deleted but that removing the file may have failed. *)
Theorem C4_storage_retries_not_fatal
  (c : closure) (slideId path : string) (w : world) :
  supabase c = true -> Js.truthy path = true ->
  let r := deleteSlide c slideId path w in
  let w' := snd r in
  let ev := added w w' in
  (storage_removals ev <= 3)%nat
  /\ storage_schedule ev = firstn (2 * storage_removals ev - 1) (backoff path)
  /\ (goes_wrong (faults (env w) (ncalls w) SelectIdLimit1) = false ->
      (forall n, goes_wrong (faults (env w) n (StorageRemove path)) = true) ->
      storage_schedule ev = backoff path
      /\ In (DeleteById slideId) (requests ev)
      /\ ((forall n, faults (env w) n (DeleteById slideId) = Succeeds) ->
          fst r = Normal tt
          /\ ~ In slideId (ids (Page.slides (page w')))
          /\ exists pre, ev = pre ++ [Toast removal_issue_toast])).
Proof.
  intros Hsb Hpath r w' ev. subst r w' ev.
  pose proof (deleteSlide_general c slideId path w) as Hg.
  unfold wp in Hg. destruct Hg as (_ & ev & Hev & _ & Hcount & Hschedule).
  rewrite (added_app _ _ _ Hev).
  split; [exact Hcount |]. split; [exact Hschedule |].
  intros Hguard Hall.
  pose proof (deleteSlide_exhausted c slideId path w Hsb Hpath Hguard Hall)
    as He.
  unfold wp in He. destruct He as (ev' & Hev' & He).
  rewrite Hev in Hev'. apply app_inv_head in Hev'. subst ev'.
  exact He.
Qed.

(** The storage is down while the second slide is deleted. *)
Lemma C4_storage_retries_not_fatal_witness :
  let c := Sample.signed_in in
  let path := "slides/2.png" in
  let w := Sample.loaded_with Sample.storage_down in
  let r := deleteSlide c "2" path w in
  let w' := snd r in
  let ev := added w w' in
  (storage_removals ev <= 3)%nat
  /\ storage_schedule ev = firstn (2 * storage_removals ev - 1) (backoff path)
  /\ (goes_wrong (faults (env w) (ncalls w) SelectIdLimit1) = false ->
      (forall n, goes_wrong (faults (env w) n (StorageRemove path)) = true) ->
      storage_schedule ev = backoff path
      /\ In (DeleteById "2") (requests ev)
      /\ ((forall n, faults (env w) n (DeleteById "2") = Succeeds) ->
          fst r = Normal tt
          /\ ~ In "2" (ids (Page.slides (page w')))
          /\ exists pre, ev = pre ++ [Toast removal_issue_toast])).
Proof.
  apply (C4_storage_retries_not_fatal Sample.signed_in "2" "slides/2.png"
           (Sample.loaded_with Sample.storage_down)); reflexivity.
Defined.

(** The run of the witness. *)
Example storage_down_run :
  let w := Sample.loaded_with Sample.storage_down in
  let w' := snd (deleteSlide Sample.signed_in "2" "slides/2.png" w) in
  storage_schedule (added w w') = backoff "slides/2.png"
  /\ ids (Page.slides (page w')) = ["3"; "1"]
  /\ ids (Store.table (backend w')) = ["1"; "3"]
  /\ last (toasts (added w w')) removal_issue_toast = removal_issue_toast
  /\ Store.blobs (backend w')
     = ["slides/1.pdf"; "slides/2.png"; "slides/3.docx"].
Proof. vm_compute. repeat split. Qed.
(** ** The upload form *)

(** [trim] leaves nothing exactly of the blank strings. *)
Lemma trim_end_empty s : Js.trim_end s = "" <-> blank s = true.
Proof.
  unfold blank. induction s as [| c s IH]; cbn; [tauto |].
  destruct (Js.trim_end s) eqn:E.
  - destruct (Js.is_space c); cbn.
    + rewrite <- IH. tauto.
    + split; discriminate.
  - split; [discriminate |].
    intros H. apply andb_prop in H. destruct H as [_ H].
    apply IH in H. discriminate H.
Qed.

Lemma blank_trim_start s : blank (Js.trim_start s) = blank s.
Proof.
  unfold blank. induction s as [| c s IH]; [reflexivity |].
  cbn [Js.trim_start]. destruct (Js.is_space c) eqn:E.
  - rewrite IH. cbn. rewrite E. reflexivity.
  - reflexivity.
Qed.

Lemma truthy_trim s : Js.truthy (Js.trim s) = negb (blank s).
Proof.
  unfold Js.trim. rewrite <- (blank_trim_start s).
  destruct (blank (Js.trim_start s)) eqn:E.
  - apply trim_end_empty in E. rewrite E. reflexivity.
  - destruct (Js.trim_end (Js.trim_start s)) eqn:E'; [| reflexivity].
    apply trim_end_empty in E'. congruence.
Qed.

(** The simulated progress touches the progress bar alone. *)
Lemma progress_ticks_spec n w :
  wp (Upload.progress_ticks n) w (fun o w' =>
    o = Normal tt
    /\ env w' = env w /\ page w' = page w /\ backend w' = backend w
    /\ ncalls w' = ncalls w /\ timers w' = timers w
    /\ trace w' = trace w ++ repeat (SetForm Form.TickUploadProgress) n
    /\ exists p, form w' = Form.apply (Form.SetUploadProgress p) (form w)).
Proof.
  revert w. induction n as [| n IH]; intros w.
  - cbn [Upload.progress_ticks repeat]. apply wp_ret. rewrite app_nil_r.
    repeat apply conj; try reflexivity.
    exists (Form.uploadProgress (form w)). destruct (form w); reflexivity.
  - cbn [Upload.progress_ticks repeat]. apply wp_bind. apply wp_set_form.
    cbn [passing]. eapply wp_mono; [apply IH |]. cbv beta.
    intros o w' (-> & He & Hp & Hb & Hn & Ht & Htr & p & Hf).
    cbn [env ncalls page form backend trace timers record with_form] in *.
    repeat apply conj; try assumption; try reflexivity.
    + rewrite Htr, <- app_assoc. reflexivity.
    + exists p. rewrite Hf. reflexivity.
Qed.

Ltac wp_ticks :=
  lazymatch goal with
  | |- wp (Upload.progress_ticks _) _ _ =>
      let o := fresh "o" in
      let w' := fresh "w" in
      let p := fresh "p" in
      eapply wp_mono;
      [ apply progress_ticks_spec
      | cbv beta;
        intros o w' (-> & ? & ? & ? & ? & ? & ? & (p & ?));
        cbn [env ncalls page form backend trace timers
             record with_page with_form with_backend with_timers
             count_call] in *;
        open_post ]
  end.

Ltac wp_step4 := first [ wp_step | wp_ticks ]; use_facts.

Lemma requests_ticks u n : requests (repeat (SetForm u) n) = [].
Proof. induction n as [| n IH]; [reflexivity | exact IH]. Qed.

Lemma toasts_ticks u n : toasts (repeat (SetForm u) n) = [].
Proof. induction n as [| n IH]; [reflexivity | exact IH]. Qed.

Lemma callbacks_ticks u n : callbacks (repeat (SetForm u) n) = [].
Proof. induction n as [| n IH]; [reflexivity | exact IH]. Qed.

Lemma callbacks_app l1 l2 : callbacks (l1 ++ l2) = callbacks l1 ++ callbacks l2.
Proof. apply filter_app. Qed.

Lemma callbacks_cons e l :
  callbacks (e :: l)
  = match e with OnUploadComplete _ _ => [e] | _ => [] end ++ callbacks l.
Proof. destruct e; reflexivity. Qed.

(** Reading the trace of a run of the form. *)
Ltac read_form_trace :=
  repeat first
    [ rewrite requests_cons | rewrite toasts_cons | rewrite callbacks_cons
    | rewrite requests_app | rewrite toasts_app | rewrite callbacks_app
    | rewrite requests_ticks | rewrite toasts_ticks | rewrite callbacks_ticks ];
  cbv beta iota;
  change (requests []) with (@nil remote_call);
  change (toasts []) with (@nil toast_message);
  change (callbacks []) with (@nil event);
  cbn [app].

Ltac form_fields :=
  use_facts;
  cbn [Form.apply Form.isDragging Form.isUploading Form.uploadProgress
       Form.title Form.description Form.courseId Form.selectedFile].

Ltac known_answer :=
  match goal with
  | F : faults _ _ ?c = _ |- context [faults _ _ ?c] => rewrite F
  end.

(** A submission that passes the checks of [handleUpload]: what it sends,
    what it leaves in the store and in the form, and what it tells. *)
Lemma handleUpload_spec f w :
  Form.selectedFile (form w) = Some f ->
  blank (Form.title (form w)) = false ->
  blank (Form.courseId (form w)) = false ->
  let path := Upload.storage_path (env w) f in
  let up := StorageUpload path f in
  let ins := InsertSlide (row_of (env w) (form w) f path) in
  let uploaded := faults (env w) (ncalls w) up in
  let inserted := faults (env w) (S (ncalls w)) ins in
  wp (Upload.handleUpload true) w (fun o w' =>
    o = Normal tt
    /\ env w' = env w /\ page w' = page w /\ timers w' = timers w
    /\ Form.isUploading (form w') = false
    /\ Form.isDragging (form w') = Form.isDragging (form w)
    /\ exists ev,
        trace w' = trace w ++ ev
        /\ ((goes_wrong uploaded = true
             /\ requests ev = [up]
             /\ backend w' = backend w
             /\ upload_failed ev /\ form_kept (form w) (form w'))
            \/ (goes_wrong uploaded = false /\ goes_wrong inserted = true
                /\ requests ev = [up; ins]
                /\ backend w' = store_after uploaded up (backend w)
                /\ upload_failed ev /\ form_kept (form w) (form w'))
            \/ (goes_wrong uploaded = false /\ goes_wrong inserted = false
                /\ requests ev = [up; ins]
                /\ backend w'
                   = store_after inserted ins
                       (store_after uploaded up (backend w))
                /\ toasts ev = [upload_successful]
                /\ callbacks ev
                   = [OnUploadComplete (getPublicUrl (env w) path)
                        (metadata_of (form w) f path)]
                /\ form_cleared (form w')))).
Proof.
  intros Hfile Htitle Hcourse path up ins uploaded inserted.
  subst path up ins uploaded inserted.
  unfold Upload.handleUpload, Upload.upload_steps, row_of, metadata_of.
  do 3 wp_step4. rewrite Hfile, !truthy_trim, Htitle, Hcourse.
  cbn [negb].
  repeat wp_step4.
  all: split; [reflexivity |].
  all: do 3 (split; [reflexivity |]).
  all: split; [form_fields; reflexivity |].
  all: split; [form_fields; reflexivity |].
  all: trace_list; eexists; (split; [reflexivity |]).
  all: repeat known_answer; cbn [goes_wrong store_after].
  all: first
         [ left; split; [reflexivity |]
         | right; left; split; [reflexivity |]; split; [reflexivity |]
         | right; right; split; [reflexivity |]; split; [reflexivity |] ].
  all: unfold upload_failed, form_kept, form_cleared.
  all: read_form_trace.
  all: repeat apply conj; try reflexivity; try (form_fields; reflexivity).
  all: try (eexists; reflexivity).
Qed.

(** [handleFileSelect]: the two checks, one after the other. *)
Lemma handleFileSelect_spec f w :
  wp (Upload.handleFileSelect f) w (fun o w' =>
    o = Normal tt
    /\ env w' = env w /\ page w' = page w /\ backend w' = backend w
    /\ ncalls w' = ncalls w /\ timers w' = timers w
    /\ exists ev,
        trace w' = trace w ++ ev
        /\ requests ev = []
        /\ if Upload.acceptable f
           then form w' = Form.apply (Form.SetSelectedFile (Some f)) (form w)
                /\ toasts ev = []
           else form w' = form w
                /\ exists m, ev = [Toast m]
                             /\ toast_variant m = Destructive
                             /\ (toast_title m = "Invalid file type"
                                 \/ toast_title m = "File too large")).
Proof.
  unfold Upload.handleFileSelect, Upload.acceptable.
  rewrite N.ltb_antisym.
  destruct (Js.array_includes Upload.validTypes (f_type f)),
    (f_size f <=? Upload.maxSize)%N; cbn [negb andb].
  all: wp_run.
  all: do 6 (split; [reflexivity |]).
  all: trace_list; eexists; (split; [reflexivity |]).
  all: split; [reflexivity |].
  all: try (split; reflexivity).
  all: split; [reflexivity |]; eexists; split; [reflexivity |].
  all: split; [reflexivity |]; auto.
Qed.



(** X1. [handleFileSelect] selects the file exactly when its type is one
    of the four valid ones and its size is at most 10 MB, the bound
    included. A file it refuses leaves the selection as it was and raises
    a notice; in neither case is anything sent. *)
Theorem handleFileSelect_selects_valid_files_only (f : file) (w : world) :
  let r := Upload.handleFileSelect f w in
  let w' := snd r in
  let valid :=
    Js.array_includes
      ["application/pdf"; "image/jpeg"; "image/png"; "image/gif"] (f_type f)
    && (f_size f <=? 10485760)%N in
  fst r = Normal tt
  /\ requests (added w w') = []
  /\ backend w' = backend w
  /\ Form.selectedFile (form w')
     = (if valid then Some f else Form.selectedFile (form w))
  /\ (toasts (added w w') = [] <-> valid = true).
Proof.
  intros r w' valid. subst r w'.
  pose proof (handleFileSelect_spec f w) as H. unfold wp in H.
  destruct H as (Ho & _ & _ & Hb & _ & _ & ev & Hev & Hreq & H).
  rewrite (added_app _ _ _ Hev).
  change valid with (Upload.acceptable f). clear valid.
  split; [exact Ho |]. split; [exact Hreq |]. split; [exact Hb |].
  destruct (Upload.acceptable f).
  - destruct H as [Hf Ht]. rewrite Hf. split; [reflexivity |].
    split; auto.
  - destruct H as (Hf & m & -> & _). rewrite Hf. split; [reflexivity |].
    split; discriminate.
Qed.



(** [split(".").pop()] on a name. *)
Lemma split_pop_no_dot s acc :
  has_dot s = false -> Js.split_pop s acc = (acc ++ s)%string.
Proof.
  unfold has_dot. revert acc. induction s as [| c s IH]; intros acc H.
  - cbn. symmetry. clear H. induction acc as [| a acc IHa]; cbn; congruence.
  - cbn [list_ascii_of_string existsb] in H.
    apply orb_false_elim in H. destruct H as [Hc Hs].
    cbn [Js.split_pop]. rewrite Ascii.eqb_sym, Hc, (IH _ Hs).
    clear. induction acc as [| a acc IHa]; cbn; congruence.
Qed.

Lemma split_pop_last_dot base ext acc :
  has_dot ext = false ->
  Js.split_pop (base ++ "." ++ ext)%string acc = ext.
Proof.
  intros H. revert acc. induction base as [| c base IH]; intros acc.
  - cbn. apply (split_pop_no_dot ext "" H).
  - cbn [String.append Js.split_pop].
    destruct (Ascii.eqb c "."); apply IH.
Qed.

(** X3. The storage path of an upload is [slides/], the time, a dash, the
    random suffix, a dot and what follows the last dot of the name of the
    file; a name with no dot is taken whole as the extension. *)
Theorem storage_path_extension (e : environment) (f : file) :
  let stem :=
    ("slides/" ++ Js.of_N (date_now e) ++ "-" ++ random_suffix e ++ ".")%string
  in
  (forall base ext,
      f_name f = (base ++ "." ++ ext)%string -> has_dot ext = false ->
      Upload.storage_path e f = (stem ++ ext)%string)
  /\ (has_dot (f_name f) = false ->
      Upload.storage_path e f = (stem ++ f_name f)%string).
Proof.
  assert (Happ : forall a b c d x : string,
             (a ++ b ++ c ++ d ++ "." ++ x = (a ++ b ++ c ++ d ++ ".") ++ x)
               %string).
  { intros a b c d x.
    assert (A : forall p q r : string, (p ++ q ++ r = (p ++ q) ++ r)%string).
    { intros p q r. induction p as [| h p IHp]; cbn; congruence. }
    rewrite !A. reflexivity. }
  cbv zeta. unfold Upload.storage_path, Js.extension. split.
  - intros base ext Hname Hext.
    rewrite Hname, (split_pop_last_dot base ext "" Hext). apply Happ.
  - intros Hname. rewrite (split_pop_no_dot _ "" Hname). apply Happ.
Qed.

Lemma storage_path_extension_witness :
  Upload.storage_path (Sample.environment_with Sample.always_served)
                      Scenario.lecture
  = "slides/1700000000000-k3j9x0q.pdf".
Proof.
  apply (proj1 (storage_path_extension
                  (Sample.environment_with Sample.always_served)
                  Scenario.lecture) "week1.final" "pdf"); reflexivity.
Defined.

(** The updater of the progress bar, iterated. *)
Lemma tick_iter n :
  Nat.iter n Form.tick 0%N = N.min (5 * N.of_nat n) 85.
Proof.
  induction n as [| n IH]; [reflexivity |].
  rewrite Nat.iter_succ, IH. unfold Form.tick.
  destruct (N.min (5 * N.of_nat n) 85 + 5 <? 90)%N eqn:E.
  - apply N.ltb_lt in E. lia.
  - apply N.ltb_ge in E. lia.
Qed.

Lemma progress_ticks_form n w :
  form (snd (Upload.progress_ticks n w))
  = Form.apply
      (Form.SetUploadProgress
         (Nat.iter n Form.tick (Form.uploadProgress (form w))))
      (form w).
Proof.
  revert w. induction n as [| n IH]; intros w.
  - cbn. destruct (form w); reflexivity.
  - cbn [Upload.progress_ticks]. unfold bind, set_form.
    rewrite IH. cbn [form record with_form Form.apply Form.uploadProgress
                     Form.isDragging Form.isUploading Form.title
                     Form.description Form.courseId Form.selectedFile].
    rewrite <- Nat.iter_succ_r. reflexivity.
Qed.

(** X4. While the upload is awaited the progress bar, started at 0, shows
    five more per tick of the interval up to 85 and stays there: it reads
    the least of [5 n] and 85 after [n] ticks, so never 90 or more. *)
Theorem simulated_progress_stops_at_85 (n : nat) (w : world) :
  Form.uploadProgress (form w) = 0%N ->
  let w' := snd (Upload.progress_ticks n w) in
  Form.uploadProgress (form w') = N.min (5 * N.of_nat n) 85
  /\ (Form.uploadProgress (form w') < 90)%N.
Proof.
  intros H0 w'. subst w'. rewrite progress_ticks_form, H0.
  cbn [Form.apply Form.uploadProgress]. rewrite tick_iter. lia.
Qed.

Lemma simulated_progress_stops_at_85_witness :
  let w' := snd (Upload.progress_ticks 40 (Scenario.ready_with Sample.offline))
  in
  Form.uploadProgress (form w') = N.min (5 * N.of_nat 40) 85
  /\ (Form.uploadProgress (form w') < 90)%N.
Proof.
  apply (simulated_progress_stops_at_85 40
           (Scenario.ready_with Sample.offline)).
  reflexivity.
Defined.



(** X7. A submission whose two requests are served stores the file under
    the generated path and adds one row to the table: the row holds the
    title, the description and the course of the form and the type and
    size of the file, and refers to that path and to its public URL. The
    form is then cleared, and the completion callback is called once,
    before the fields are reset. *)
Theorem served_upload_adds_one_row (f : file) (w : world) :
  Form.selectedFile (form w) = Some f ->
  blank (Form.title (form w)) = false ->
  blank (Form.courseId (form w)) = false ->
  let path := Upload.storage_path (env w) f in
  let row := row_of (env w) (form w) f path in
  faults (env w) (ncalls w) (StorageUpload path f) = Succeeds ->
  faults (env w) (S (ncalls w)) (InsertSlide row) = Succeeds ->
  let r := Upload.handleUpload true w in
  let w' := snd r in
  let ev := added w w' in
  requests ev = [StorageUpload path f; InsertSlide row]
  /\ Store.blobs (backend w') = path :: Store.blobs (backend w)
  /\ Store.table (backend w')
     = Store.table (backend w) ++ [Store.stored row (backend w)]
  /\ toasts ev = [upload_successful]
  /\ callbacks ev = [OnUploadComplete (getPublicUrl (env w) path)
                       (metadata_of (form w) f path)]
  /\ form_cleared (form w').
Proof.
  intros Hfile Ht Hc path row Hup Hins r w' ev. subst r w' ev.
  pose proof (handleUpload_spec f w Hfile Ht Hc) as H.
  cbv zeta in H. unfold wp in H.
  destruct H as (_ & _ & _ & _ & _ & _ & ev & Hev & H).
  rewrite (added_app _ _ _ Hev). subst path row.
  rewrite Hup, Hins in H. cbn [goes_wrong store_after] in H.
  destruct H as [(Hx & _) | [(_ & Hx & _)
                            | (_ & _ & Hreq & Hb & Hto & Hcb & Hcl)]];
    try discriminate Hx.
  rewrite Hb. cbn [Store.serve snd Store.blobs Store.table].
  split; [exact Hreq |]. split; [reflexivity |]. split; [reflexivity |].
  split; [exact Hto |]. split; [exact Hcb | exact Hcl].
Qed.

Lemma served_upload_adds_one_row_witness :
  let w := Scenario.ready_with Sample.always_served in
  let w' := snd (Upload.handleUpload true w) in
  ids (Store.table (backend w')) = ["1"; "2"; "3"; "4"]
  /\ Store.blobs (backend w')
     = "slides/1700000000000-k3j9x0q.pdf" :: Store.blobs (backend w)
  /\ form_cleared (form w').
Proof.
  pose proof (served_upload_adds_one_row Scenario.lecture
                (Scenario.ready_with Sample.always_served)
                eq_refl eq_refl eq_refl eq_refl eq_refl) as H.
  cbv zeta in H. destruct H as (_ & Hb & Ht & _ & _ & Hc).
  split; [rewrite Ht; reflexivity |]. split; [exact Hb | exact Hc].
Defined.










(** The run of that witness: one notice for the file, one for the title,
    and the lecture is sent once. *)
Example form_session_run :
  let gs := [ ChooseFiles [Scenario.oversized]; EditTitle "  ";
              PressUpload; EditTitle "Week 2"; PressUpload; PressUpload ] in
  let w := Scenario.ready_with Sample.always_served in
  let ev := added w (snd (session_of true gs w)) in
  titles ev = ["File too large"; "Title required"; "Upload successful"]
  /\ map lawful (requests ev) = [true; true].
Proof. vm_compute. split; reflexivity. Qed.

(** ** More on loading the slides *)

(** X8. Without a client or without a session, [fetchSlides] sends
    nothing: the displayed slides stay as they are, the banner tells which
    of the two is missing (the client first), the loading flag is reset,
    and neither a notice nor a retry nor the diagnostics follow. *)
Theorem fetchSlides_needs_client_and_session
  (c : closure) (n : N) (w : world) :
  supabase c && session c = false ->
  let r := fetchSlides c n w in
  let w' := snd r in
  let ev := added w w' in
  fst r = Normal tt
  /\ requests ev = [] /\ toasts ev = []
  /\ ~ In RunDiagnostics ev
  /\ timers w' = timers w /\ backend w' = backend w
  /\ Page.slides (page w') = Page.slides (page w)
  /\ Page.isFetchingSlides (page w') = false
  /\ Page.error (page w')
     = Some (if supabase c
             then "You need to be logged in to view slides."
             else "Database connection not available. Please try refreshing the page.").
Proof.
  intros Hc r w' ev. subst r w' ev.
  assert (H : wp (fetchSlides c n) w (fun o w' =>
    o = Normal tt
    /\ exists ev, trace w' = trace w ++ ev
       /\ requests ev = [] /\ toasts ev = []
       /\ ~ In RunDiagnostics ev
       /\ timers w' = timers w /\ backend w' = backend w
       /\ Page.slides (page w') = Page.slides (page w)
       /\ Page.isFetchingSlides (page w') = false
       /\ Page.error (page w')
          = Some (if supabase c
                  then "You need to be logged in to view slides."
                  else "Database connection not available. Please try refreshing the page."))).
  { destruct c as [[] [] rd]; try discriminate Hc;
      unfold fetchSlides, fetch_guards; cbn [supabase session negb].
    all: wp_run.
    all: split; [reflexivity |].
    all: trace_list; eexists; (split; [reflexivity |]).
    all: repeat apply conj; try reflexivity.
    all: cbn [In]; intros Hin;
      repeat (destruct Hin as [Hin | Hin]; [discriminate Hin |]);
      exact Hin. }
  unfold wp in H. destruct H as (Ho & ev & Hev & H).
  rewrite (added_app _ _ _ Hev). split; [exact Ho | exact H].
Qed.

Lemma fetchSlides_needs_client_and_session_witness :
  let c := {| supabase := true; session := false;
              rendered := Page.initial |} in
  let w := Sample.loaded_with Sample.always_served in
  let w' := snd (fetchSlides c 0 w) in
  requests (added w w') = []
  /\ ids (Page.slides (page w')) = ["3"; "2"; "1"]
  /\ Page.error (page w') = Some "You need to be logged in to view slides.".
Proof.
  pose proof (fetchSlides_needs_client_and_session
                {| supabase := true; session := false;
                   rendered := Page.initial |} 0
                (Sample.loaded_with Sample.always_served) eq_refl) as H.
  cbv zeta in H. destruct H as (_ & Hreq & _ & _ & _ & _ & Hs & _ & He).
  split; [exact Hreq |]. split; [rewrite Hs; reflexivity | exact He].
Defined.

(** [[...new Set(l)]]. *)
Lemma array_includes_In l x : Js.array_includes l x = true <-> In x l.
Proof.
  unfold Js.array_includes. rewrite existsb_exists. split.
  - intros (y & Hy & He). apply String.eqb_eq in He. subst. exact Hy.
  - intros H. exists x. split; [exact H | apply String.eqb_refl].
Qed.

Lemma distinct_from_In seen l x :
  In x (Js.distinct_from seen l) <-> In x l /\ ~ In x seen.
Proof.
  revert seen. induction l as [| y l IH]; intros seen; cbn [Js.distinct_from].
  - cbn. tauto.
  - destruct (Js.array_includes seen y) eqn:E.
    + apply array_includes_In in E. rewrite IH. cbn [In].
      split; [tauto |]. intros [[-> | H] Hn]; tauto.
    + assert (Hy : ~ In y seen).
      { intros H. apply array_includes_In in H. congruence. }
      cbn [In]. rewrite IH. cbn [In].
      destruct (string_dec y x) as [-> | Hne]; intuition auto.
Qed.

Lemma distinct_from_NoDup seen l : NoDup (Js.distinct_from seen l).
Proof.
  revert seen. induction l as [| y l IH]; intros seen; cbn [Js.distinct_from].
  - constructor.
  - destruct (Js.array_includes seen y); [apply IH |].
    constructor; [| apply IH].
    rewrite distinct_from_In. cbn [In]. tauto.
Qed.

(** X9. On a first load that is served, the options of the course filter
    are the course identifiers of all the rows of the table, each once,
    whatever filters the load itself applied to the slides. *)
Theorem course_options_cover_the_table (c : closure) (n : N) (w : world) :
  supabase c = true -> session c = true ->
  Page.isLoaded (rendered c) = false ->
  faults (env w) (ncalls w) HeadCount = Succeeds ->
  faults (env w) (S (ncalls w)) (Select (query_of c)) = Succeeds ->
  faults (env w) (S (S (ncalls w))) SelectCourseIds = Succeeds ->
  let w' := snd (fetchSlides c n w) in
  NoDup (Page.courses (page w'))
  /\ (forall x, In x (Page.courses (page w'))
                <-> exists s, In s (Store.table (backend w))
                              /\ course_id s = x).
Proof.
  intros Hsb Hss Hl Hp Hq Hc w'. subst w'.
  pose proof (course_fetch_spec c n w Hsb Hss Hp Hq) as H. unfold wp in H.
  destruct H as (ev & _ & _ & _ & H). destruct (H Hl) as (H1 & _).
  destruct (H1 Hc) as (Hcourses & _). rewrite Hcourses.
  unfold Js.distinct. split; [apply distinct_from_NoDup |].
  intros x. rewrite distinct_from_In, in_map_iff. cbn [In]. split.
  - intros [(s & Hx & Hs) _]. exists s. auto.
  - intros (s & Hs & Hx). split; [exists s; auto | tauto].
Qed.

Lemma course_options_cover_the_table_witness :
  let c := Sample.signed_in in
  let w' := snd (fetchSlides c 0 (Sample.world_with Sample.always_served)) in
  NoDup (Page.courses (page w'))
  /\ (forall x, In x (Page.courses (page w'))
                <-> exists s, In s (Store.table Sample.store)
                              /\ course_id s = x).
Proof.
  apply (course_options_cover_the_table Sample.signed_in 0
           (Sample.world_with Sample.always_served)); reflexivity.
Defined.

(** The options on the sample table. *)
Example course_options_sample :
  Page.courses
    (page (snd (fetchSlides Sample.signed_in 0
                  (Sample.world_with Sample.always_served))))
  = ["CS101"; "CS102"].
Proof. reflexivity. Qed.

(** ** More on deleting a slide *)
















(** ** The controls of the page *)

Lemma wp_set_control u w Q :
  Q (Normal tt) (with_page (Controls.apply u (page w)) w) ->
  wp (set_control u) w Q.
Proof. exact (fun H => H). Qed.

(** [fetchSlides] leaves the cells of the controls alone. *)
Lemma fetchSlides_keeps_controls c n w :
  wp (fetchSlides c n) w (fun o w' =>
    Page.searchQuery (page w') = Page.searchQuery (page w)
    /\ Page.courseFilter (page w') = Page.courseFilter (page w)
    /\ Page.fileTypeFilter (page w') = Page.fileTypeFilter (page w)
    /\ Page.sortOrder (page w') = Page.sortOrder (page w)
    /\ Page.isUploading (page w') = Page.isUploading (page w)).
Proof.
  unfold fetchSlides, fetch_guards, fetch_query, fetch_courses, fetch_handler.
  destruct c as [[] [] r]; cbn [supabase session rendered negb].
  all: wp_run.
  all: repeat split.
Qed.

(** X22. A selector's handler loads with the filters of its render: after
    a selector is set to [value], its cell holds the new value, but the
    query the handler sends is still the one of the filters as rendered,
    and, served, it is the rows of that query that are displayed.  The
    load with the new value is left to the effect of the next render,
    whose query is that of the page with the cell set. *)
Theorem selector_loads_with_rendered_filters
  (c : closure) (sel : selector) (value : string) (w : world) :
  supabase c = true -> session c = true ->
  faults (env w) (ncalls w) HeadCount = Succeeds ->
  faults (env w) (S (ncalls w)) (Select (query_of c)) = Succeeds ->
  let w' := snd (onValueChange c sel value w) in
  let changed := Controls.apply (selected sel value) (page w) in
  (exists rest, requests (added w w')
                = HeadCount :: Select (query_of c) :: rest
                /\ forallb is_course_fetch rest = true)
  /\ Page.slides (page w') = Store.run_query (query_of c) (backend w)
  /\ query_of (rerender c w')
     = buildQuery (Page.searchQuery changed) (Page.courseFilter changed)
                  (Page.fileTypeFilter changed) (Page.sortOrder changed).
Proof.
  intros Hsb Hss Hp Hq w' changed. subst w'.
  set (w0 := with_page changed w).
  change (snd (onValueChange c sel value w)) with (snd (fetchSlides c 0 w0)).
  pose proof (fetchSlides_keeps_controls c 0 w0) as Hk.
  pose proof (fetch_served c 0 w0 Hsb Hss Hp Hq) as Hs.
  assert (Hp' : goes_wrong (faults (env w0) (ncalls w0) HeadCount) = false).
  { change (env w0) with (env w). change (ncalls w0) with (ncalls w).
    rewrite Hp. reflexivity. }
  pose proof (fetch_sends_query c 0 w0 Hsb Hss Hp') as Hr.
  unfold wp in Hk, Hs, Hr.
  destruct Hk as (Hsq & Hcf & Hft & Hso & _).
  destruct Hs as (_ & _ & _ & _ & Hslides & _).
  destruct Hr as (ev & rest & Hev & Hreq & Hrest).
  split.
  { exists rest. unfold added.
    change (trace w) with (trace w0). fold (added w0 (snd (fetchSlides c 0 w0))).
    rewrite (added_app _ _ _ Hev). auto. }
  split; [exact Hslides |].
  unfold query_of, rerender. cbn [rendered].
  rewrite Hsq, Hcf, Hft, Hso. reflexivity.
Qed.

(** The file type is set to PDF on the page that shows the three slides:
    the three are loaded again. *)
Lemma selector_loads_with_rendered_filters_witness :
  let w := Sample.loaded_with Sample.always_served in
  let w' := snd (onValueChange Sample.signed_in FileTypeSelector "pdf" w) in
  Page.fileTypeFilter (page w') = "pdf"
  /\ ids (Page.slides (page w')) = ["3"; "2"; "1"].
Proof.
  pose proof (selector_loads_with_rendered_filters Sample.signed_in
                FileTypeSelector "pdf"
                (Sample.loaded_with Sample.always_served)
                eq_refl eq_refl eq_refl eq_refl) as H.
  cbv zeta in *. destruct H as (_ & Hs & _).
  split; [reflexivity |]. rewrite Hs. reflexivity.
Defined.

(** The effect of the next render then loads the PDF files alone. *)
Example effect_loads_with_new_filters :
  let w := Sample.loaded_with Sample.always_served in
  let w1 := snd (onValueChange Sample.signed_in FileTypeSelector "pdf" w) in
  let w2 := snd (load_effect (rerender Sample.signed_in w1) w1) in
  ids (Page.slides (page w2)) = ["1"].
Proof. reflexivity. Qed.

(** ** The diagnostics *)

Lemma wp_await {A} (x : awaited A) w (Q : outcome A -> world -> Prop) :
  match x with
  | Resolves a => Q (Normal a) w
  | Rejects t => Q (Raise t) w
  end ->
  wp (await x) w Q.
Proof. destruct x; exact (fun H => H). Qed.

Ltac wp_step6 :=
  first
    [ wp_step
    | lazymatch goal with
      | |- wp (await ?x) _ _ =>
          apply wp_await; destruct x as [? | ?] eqn:?; open_post
      | |- wp (if ?b then _ else _) _ _ => destruct b eqn:?
      end ];
  use_facts.

Ltac diag_run c x :=
  destruct c as [sb ss rd]; destruct x as [gs cc ca];
  unfold runDiagnostics;
  cbn [supabase getSession checkSupabaseConnection checkAuthStatus];
  destruct sb; repeat wp_step6.

(** X18. [runDiagnostics] never raises and leaves the page as it is.  It
    raises exactly one notice: of an authentication error, of the results,
    or of its own failure.  It sends either nothing or its two probes, a
    read of one identifier and then the deletion of the row of the nil
    identifier. *)
Theorem runDiagnostics_completes (c : closure) (x : checks) (w : world) :
  let r := runDiagnostics c x w in
  let w' := snd r in
  let ev := added w w' in
  fst r = Normal tt
  /\ page w' = page w /\ form w' = form w /\ timers w' = timers w
  /\ (exists m, toasts ev = [m]
                /\ (toast_title m = "Authentication Error"
                    \/ toast_title m = "Diagnostics Results"
                    \/ toast_title m = "Diagnostics Failed"))
  /\ (requests ev = []
      \/ requests ev = [SelectIdLimit1; DeleteById nil_uuid]).
Proof.
  intros r w' ev. subst r w' ev.
  assert (H : wp (runDiagnostics c x) w (fun o w' =>
    o = Normal tt
    /\ page w' = page w /\ form w' = form w /\ timers w' = timers w
    /\ exists ev, trace w' = trace w ++ ev
       /\ (exists m, toasts ev = [m]
                     /\ (toast_title m = "Authentication Error"
                         \/ toast_title m = "Diagnostics Results"
                         \/ toast_title m = "Diagnostics Failed"))
       /\ (requests ev = []
           \/ requests ev = [SelectIdLimit1; DeleteById nil_uuid]))).
  { diag_run c x.
    all: do 4 (split; [reflexivity |]).
    all: trace_list; eexists; (split; [reflexivity |]).
    all: read_trace.
    all: split; [eexists; split; [reflexivity |]; cbn; auto |].
    all: auto. }
  unfold wp in H. destruct H as (Ho & Hp & Hf & Ht & ev & Hev & H).
  rewrite (added_app _ _ _ Hev). auto.
Qed.

Lemma includes_status_success f :
  Js.includes (rls_status_of f) "Success" = policy_passes f.
Proof.
  destruct f as [| | e | t]; try reflexivity.
  cbn [rls_status_of policy_passes].
  destruct (Js.includes (message e) "permission"); reflexivity.
Qed.

(** The results, when the three checks are answered. *)
Lemma runDiagnostics_results c x connected authenticated w :
  supabase c = true ->
  getSession x = Resolves None ->
  checkSupabaseConnection x = Resolves connected ->
  checkAuthStatus x = Resolves authenticated ->
  wp (runDiagnostics c x) w (fun o w' =>
    exists ev, trace w' = trace w ++ ev
      /\ toasts ev
         = [results_toast connected authenticated
              (rls_status_of
                 (faults (env w) (S (ncalls w)) (DeleteById nil_uuid)))]).
Proof.
  intros Hsb Hgs Hcc Hca.
  destruct c as [sb ss rd]. destruct x as [gs cc ca].
  cbn [supabase getSession checkSupabaseConnection checkAuthStatus] in *.
  subst sb gs cc ca. unfold runDiagnostics.
  cbn [supabase getSession checkSupabaseConnection checkAuthStatus await].
  repeat wp_step6.
  all: trace_list; eexists; (split; [reflexivity |]).
  all: read_trace.
  all: repeat match goal with
              | F : faults _ _ (DeleteById _) = _ |- _ => rewrite F
              end.
  all: reflexivity.
Qed.

(** X19. The verdict of the diagnostics.  With a client, the session
    check passing and the two status checks answered, the one notice is
    that of the results, and it is of the default kind exactly when the
    connection is up, the user is authenticated and the delete probe
    passes, that is when the probe is answered and not by an error whose
    message has [permission] in it.  The answer to the read probe plays no
    part in it. *)
Theorem diagnostics_verdict
  (c : closure) (x : checks) (connected authenticated : bool) (w : world) :
  supabase c = true ->
  getSession x = Resolves None ->
  checkSupabaseConnection x = Resolves connected ->
  checkAuthStatus x = Resolves authenticated ->
  let probe := faults (env w) (S (ncalls w)) (DeleteById nil_uuid) in
  let r := runDiagnostics c x w in
  let ev := added w (snd r) in
  toasts ev
  = [results_toast connected authenticated (rls_status_of probe)]
  /\ (toast_variant
        (results_toast connected authenticated (rls_status_of probe))
      = Default
      <-> connected && authenticated && policy_passes probe = true).
Proof.
  intros Hsb Hgs Hcc Hca probe r ev. subst probe r ev.
  split.
  - pose proof (runDiagnostics_results c x connected authenticated w
                  Hsb Hgs Hcc Hca) as H.
    unfold wp in H. destruct H as (ev & Hev & H).
    rewrite (added_app _ _ _ Hev). exact H.
  - unfold results_toast. cbn [toast_variant].
    rewrite includes_status_success.
    destruct (connected && authenticated && policy_passes _);
      split; (reflexivity || discriminate).
Qed.

Lemma diagnostics_verdict_witness :
  let w := Sample.loaded_with policy_violation in
  let ev := added w (snd (runDiagnostics Sample.signed_in all_well w)) in
  map toast_variant (toasts ev) = [Default].
Proof.
  pose proof (diagnostics_verdict Sample.signed_in all_well true true
                (Sample.loaded_with policy_violation)
                eq_refl eq_refl eq_refl eq_refl) as H.
  cbv zeta in *. destruct H as (Ht & _). rewrite Ht. reflexivity.
Defined.

(** X21. The delete probe of the diagnostics is a real deletion: it
    leaves the storage alone and adds no row, and it leaves the table as
    it is provided that no row has the nil identifier. *)
Theorem diagnostics_spare_the_rows (c : closure) (x : checks) (w : world) :
  let w' := snd (runDiagnostics c x w) in
  Store.blobs (backend w') = Store.blobs (backend w)
  /\ (forall s, In s (Store.table (backend w')) ->
                In s (Store.table (backend w)))
  /\ ((forall s, In s (Store.table (backend w)) -> id s <> nil_uuid) ->
      Store.table (backend w') = Store.table (backend w)).
Proof.
  intros w'. subst w'.
  assert (Hkeep : forall l : list slide,
             (forall s, In s l -> id s <> nil_uuid) ->
             filter (fun s => negb (Store.has_id nil_uuid s)) l = l).
  { induction l as [| s l IH]; intros H; [reflexivity |].
    cbn [filter]. unfold Store.has_id at 1.
    assert (Hs : (id s =? nil_uuid) = false)
      by (apply String.eqb_neq, H; left; reflexivity).
    rewrite Hs. cbn [negb]. rewrite IH; [reflexivity |].
    intros s' Hs'. apply H. right. exact Hs'. }
  apply (wp_snd (runDiagnostics c x) w
           (fun w' =>
              Store.blobs (backend w') = Store.blobs (backend w)
              /\ (forall s, In s (Store.table (backend w')) ->
                            In s (Store.table (backend w)))
              /\ ((forall s, In s (Store.table (backend w)) ->
                             id s <> nil_uuid) ->
                  Store.table (backend w') = Store.table (backend w)))).
  diag_run c x.
  all: cbn [Store.blobs Store.table].
  all: split; [reflexivity |].
  all: split;
    [ intros s Hs; try exact Hs; apply filter_In in Hs; exact (proj1 Hs)
    | intros Hnone; try reflexivity; apply Hkeep; exact Hnone ].
Qed.

(** ** Handlers together *)

(** [deleteSlide] asks for the fallback on a refusal for want of a
    permission or a policy. *)
Lemma deleteSlide_asks_fallback c slideId path e w :
  supabase c = true ->
  faults (env w) (ncalls w) SelectIdLimit1 = Succeeds ->
  (forall n, faults (env w) n (DeleteById slideId) = Fails e) ->
  permission_or_policy e = true ->
  wp (deleteSlide c slideId path) w (fun o w' =>
    exists ev, trace w' = trace w ++ ev
               /\ In (RpcDeleteSlide slideId) (requests ev)).
Proof.
  intros Hsb Hprobe Hdelete Hperm.
  destruct c as [sb ss rd]. cbn [supabase] in Hsb. subst sb.
  unfold deleteSlide, delete_guard, delete_record.
  destruct (Js.truthy path) eqn:Hpath.
  all: wp_run3.
  all: try discriminate Hperm.
  all: trace_list; eexists; (split; [reflexivity |]).
  all: read_trace; in_trace.
Qed.

(** X20. The diagnostics and [deleteSlide] read a refusal differently.
    When the table refuses deletions with an error whose message has
    [policy] in it and not [permission], [deleteSlide] calls the fallback
    procedure, as it does for a missing permission, while the
    diagnostics, the other checks passing, report the delete policy as
    configured in a notice of the default kind. *)
Theorem policy_refusal_passes_the_diagnostics
  (c : closure) (x : checks) (slideId path : string) (e : error_object)
  (w : world) :
  supabase c = true ->
  faults (env w) (ncalls w) SelectIdLimit1 = Succeeds ->
  (forall n id, faults (env w) n (DeleteById id) = Fails e) ->
  Js.includes (message e) "policy" = true ->
  Js.includes (message e) "permission" = false ->
  getSession x = Resolves None ->
  checkSupabaseConnection x = Resolves true ->
  checkAuthStatus x = Resolves true ->
  In (RpcDeleteSlide slideId)
     (requests (added w (snd (deleteSlide c slideId path w))))
  /\ toasts (added w (snd (runDiagnostics c x w)))
     = [results_toast true true "Success: Delete policy exists"]
  /\ toast_variant (results_toast true true "Success: Delete policy exists")
     = Default.
Proof.
  intros Hsb Hprobe Hdelete Hpol Hperm Hgs Hcc Hca.
  assert (Hpp : permission_or_policy e = true).
  { unfold permission_or_policy. rewrite Hpol. apply orb_true_r. }
  pose proof (deleteSlide_asks_fallback c slideId path e w Hsb Hprobe
                (fun n => Hdelete n slideId) Hpp) as Hd.
  pose proof (runDiagnostics_results c x true true w Hsb Hgs Hcc Hca) as Hr.
  unfold wp in Hd, Hr.
  destruct Hd as (ev & Hev & Hin). destruct Hr as (ev' & Hev' & Hto).
  rewrite (added_app _ _ _ Hev), (added_app _ _ _ Hev').
  split; [exact Hin |]. split; [| reflexivity].
  rewrite Hto, Hdelete. cbn [rls_status_of]. rewrite Hperm. reflexivity.
Qed.

Lemma policy_refusal_passes_the_diagnostics_witness :
  let w := Sample.loaded_with rows_protected in
  In (RpcDeleteSlide "2")
     (requests (added w (snd (deleteSlide Sample.signed_in "2" "" w))))
  /\ map toast_variant
       (toasts (added w (snd (runDiagnostics Sample.signed_in all_well w))))
     = [Default].
Proof.
  pose proof (policy_refusal_passes_the_diagnostics Sample.signed_in all_well
                "2" "" (new_Error "new row violates row-level security policy")
                (Sample.loaded_with rows_protected)
                eq_refl eq_refl (fun n id => eq_refl) eq_refl eq_refl
                eq_refl eq_refl eq_refl) as H.
  destruct H as (Hin & Hto & _).
  split; [exact Hin |]. rewrite Hto. reflexivity.
Defined.

(** X23. From the form to the page: after a submission whose two requests
    are served, the completion handler of the page, with no filter set and
    its load served, closes the upload panel and displays the new slide
    among those of the table. *)
Theorem uploaded_slide_is_displayed (c : closure) (f : file) (w : world) :
  supabase c = true -> session c = true ->
  Page.searchQuery (rendered c) = "" ->
  Page.courseFilter (rendered c) = "" ->
  Page.fileTypeFilter (rendered c) = "all" ->
  (exists o, Page.sortOrder (rendered c) = sort_value o) ->
  Form.selectedFile (form w) = Some f ->
  blank (Form.title (form w)) = false ->
  blank (Form.courseId (form w)) = false ->
  (forall n call, faults (env w) n call = Succeeds) ->
  let row := row_of (env w) (form w) f (Upload.storage_path (env w) f) in
  let w1 := snd (Upload.handleUpload true w) in
  let w2 := snd (handleUploadComplete c w1) in
  Page.isUploading (page w2) = false
  /\ Page.error (page w2) = None
  /\ In (Store.stored row (backend w)) (Page.slides (page w2))
  /\ Permutation (Page.slides (page w2))
                 (Store.table (backend w) ++ [Store.stored row (backend w)]).
Proof.
  intros Hsb Hss Hsq Hcf Hft Hso Hfile Ht Hc Hall row w1 w2.
  subst row w1 w2.
  pose proof (handleUpload_spec f w Hfile Ht Hc) as H.
  cbv zeta in H. unfold wp in H.
  destruct H as (_ & Henv & _ & _ & _ & _ & ev & _ & H).
  rewrite !Hall in H. cbn [goes_wrong store_after] in H.
  destruct H as [(Hx & _) | [(_ & Hx & _) | (_ & _ & _ & Hb & _)]];
    try discriminate Hx.
  set (w1 := snd (Upload.handleUpload true w)) in *.
  set (w0 := with_page
               (Controls.apply (Controls.SetIsUploading false) (page w1)) w1).
  change (snd (handleUploadComplete c w1)) with (snd (fetchSlides c 0 w0)).
  assert (Hp : faults (env w0) (ncalls w0) HeadCount = Succeeds).
  { change (env w0) with (env w1). rewrite Henv. apply Hall. }
  assert (Hq : faults (env w0) (S (ncalls w0)) (Select (query_of c))
               = Succeeds).
  { change (env w0) with (env w1). rewrite Henv. apply Hall. }
  pose proof (fetch_served c 0 w0 Hsb Hss Hp Hq) as Hs.
  pose proof (fetchSlides_keeps_controls c 0 w0) as Hk.
  unfold wp in Hs, Hk.
  destruct Hs as (_ & _ & _ & _ & Hslides & Herr & _).
  destruct Hk as (_ & _ & _ & _ & Hup).
  destruct (query_of_unfiltered c Hsq Hcf Hft Hso) as (column & asc & Hquery).
  assert (Htable : Store.table (backend w0)
                   = Store.table (backend w)
                     ++ [Store.stored
                           (row_of (env w) (form w) f
                              (Upload.storage_path (env w) f))
                           (backend w)]).
  { change (backend w0) with (backend w1). rewrite Hb. reflexivity. }
  assert (Hperm : Permutation (Page.slides (page (snd (fetchSlides c 0 w0))))
                              (Store.table (backend w0))).
  { rewrite Hslides, Hquery. symmetry. apply run_query_order_only. }
  split; [rewrite Hup; reflexivity |]. split; [exact Herr |].
  rewrite Htable in Hperm. split; [| exact Hperm].
  apply (Permutation_in _ (Permutation_sym Hperm)).
  apply in_or_app. right. left. reflexivity.
Qed.

Lemma uploaded_slide_is_displayed_witness :
  let w := Scenario.ready_with Sample.always_served in
  let w1 := snd (Upload.handleUpload true w) in
  let w2 := snd (handleUploadComplete Sample.signed_in w1) in
  Page.isUploading (page w2) = false
  /\ In "Week 1" (map title (Page.slides (page w2))).
Proof.
  pose proof (uploaded_slide_is_displayed Sample.signed_in Scenario.lecture
                (Scenario.ready_with Sample.always_served)
                eq_refl eq_refl eq_refl eq_refl eq_refl
                (ex_intro _ Newest eq_refl) eq_refl eq_refl eq_refl
                (fun n call => eq_refl)) as H.
  cbv zeta in *. destruct H as (Hu & _ & Hin & _).
  split; [exact Hu |].
  apply in_map_iff. eexists. split; [| exact Hin]. reflexivity.
Defined.

(** ** The slide card *)



(** The table refuses the deletion and the dialog closes all the same. *)
Example card_closes_on_failure :
  let w := Sample.loaded_with Sample.read_only in
  let r := Card.handleDelete (Some (deleteSlide Sample.signed_in))
             Sample.apple
             {| Card.cells := {| Card.isDeleting := false;
                                 Card.isDialogOpen := true |};
                Card.outer := w |} in
  Card.isDialogOpen (Card.cells (snd r)) = false
  /\ ids (Store.table (backend (Card.outer (snd r)))) = ["1"; "2"; "3"].
Proof. vm_compute. split; reflexivity. Qed.

(** A type that starts with [image/] matches the pattern of the image
    filter. *)
Lemma prefix_cons x s p :
  String.prefix (String x s) p = true ->
  exists p', p = String x p' /\ String.prefix s p' = true.
Proof.
  destruct p as [| y p]; [discriminate |].
  cbn [String.prefix]. destruct (ascii_dec x y) as [<- | ]; [| discriminate].
  intros H. exists p. auto.
Qed.

Lemma ilike_any t : Store.ilike "%" t = true.
Proof.
  cbn [Store.ilike]. cbn [Ascii.eqb Bool.eqb].
  induction t as [| c t IH]; [reflexivity |].
  rewrite IH. apply orb_true_r.
Qed.

Lemma ilike_image t :
  String.prefix "image/" t = true -> Store.ilike "image/%" t = true.
Proof.
  intros H.
  do 6 (apply prefix_cons in H; destruct H as (? & -> & H)).
  match goal with
  | |- Store.ilike _ (String _ (String _ (String _ (String _ (String _
                        (String _ ?rest)))))) = true =>
      change (Store.ilike "%" rest = true)
  end.
  apply ilike_any.
Qed.

(** X25. The preview of the card and the file type filter of the page
    sort the slides alike, up to the case of the letters: a slide shown as
    a picture is listed under the image filter, a slide is shown as a PDF
    document exactly when it is listed under the PDF filter, and a slide
    listed under the filter of the other files is shown as a plain
    document. *)
Theorem card_preview_agrees_with_type_filter (s : slide) (o : sort_order) :
  let listed value :=
    Store.matches (buildQuery "" "" value (sort_value o)) s in
  (Card.preview s = Card.Picture -> listed "image" = true)
  /\ (Card.preview s = Card.PdfDocument <-> listed "pdf" = true)
  /\ (listed "other" = true -> Card.preview s = Card.Document).
Proof.
  assert (Hq : forall value,
             buildQuery "" "" value (sort_value o)
             = buildQuery "" "" value "" ++ [QuerySpec.order_part o]).
  { intros value. unfold buildQuery. cbn [Js.truthy app].
    destruct o; cbn [sort_value QuerySpec.order_part String.eqb Ascii.eqb
                     Bool.eqb];
      reflexivity. }
  assert (Hm : forall q, Store.matches (q ++ [QuerySpec.order_part o]) s
                         = Store.matches q s).
  { intros q. unfold Store.matches. rewrite forallb_app.
    destruct o; cbn; apply andb_true_r. }
  assert (Himg : Store.matches (buildQuery "" "" "image" (sort_value o)) s
                 = Store.ilike "image/%" (file_type s)).
  { rewrite Hq, Hm. unfold Store.matches.
    change (buildQuery "" "" "image" "")
      with [Q_ilike "file_type" "image/%"].
    cbn [forallb Store.satisfies].
    change (Store.text_column "file_type" s) with (Some (file_type s)).
    change (Store.test "ilike" "image/%" (file_type s))
      with (Store.ilike "image/%" (file_type s)).
    apply andb_true_r. }
  assert (Hpdf : Store.matches (buildQuery "" "" "pdf" (sort_value o)) s
                 = (file_type s =? "application/pdf")).
  { rewrite Hq, Hm. unfold Store.matches.
    change (buildQuery "" "" "pdf" "")
      with [Q_eq "file_type" "application/pdf"].
    cbn [forallb Store.satisfies].
    change (Store.text_column "file_type" s) with (Some (file_type s)).
    change (Store.test "eq" "application/pdf" (file_type s))
      with (file_type s =? "application/pdf").
    apply andb_true_r. }
  assert (Hother : Store.matches (buildQuery "" "" "other" (sort_value o)) s
                   = negb (Store.ilike "image/%" (file_type s))
                     && negb (file_type s =? "application/pdf")).
  { rewrite Hq, Hm. unfold Store.matches.
    change (buildQuery "" "" "other" "")
      with [Q_not "file_type" "ilike" "image/%";
            Q_not "file_type" "eq" "application/pdf"].
    cbn [forallb Store.satisfies].
    change (Store.text_column "file_type" s) with (Some (file_type s)).
    change (Store.test "ilike" "image/%" (file_type s))
      with (Store.ilike "image/%" (file_type s)).
    change (Store.test "eq" "application/pdf" (file_type s))
      with (file_type s =? "application/pdf").
    rewrite andb_true_r. reflexivity. }
  cbv beta zeta. rewrite Himg, Hpdf, Hother. clear Hq Hm Himg Hpdf Hother.
  unfold Card.preview, Card.isImage, Card.isPdf.
  destruct (String.prefix "image/" (file_type s)) eqn:Hi.
  - rewrite (ilike_image _ Hi). cbn [negb andb].
    assert (Hp : (file_type s =? "application/pdf") = false).
    { destruct (file_type s =? "application/pdf") eqn:Hp; [| reflexivity].
      apply String.eqb_eq in Hp. rewrite Hp in Hi. discriminate Hi. }
    rewrite Hp. repeat split; intros H; (reflexivity || discriminate H).
  - destruct (file_type s =? "application/pdf") eqn:Hp;
      rewrite ?andb_false_r, ?andb_true_r;
      repeat split; intros H; try reflexivity; try discriminate H.
Qed.

(** The case of the letters sets them apart: a type written [Image/PNG]
    is listed with the images and shown as a document. *)
Example picture_in_capitals :
  let s := {| id := "9"; title := "Scan"; description := "";
              course_id := "CS101"; file_url := ""; file_path := "";
              file_type := "Image/PNG"; file_size := 1; created_at := 1 |} in
  Store.matches (buildQuery "" "" "image" "newest") s = true
  /\ Card.preview s = Card.Document.
Proof. split; reflexivity. Qed.

(** ** The list of quizzes *)

(** X16. [fetchQuizzes] never raises and always ends with [isLoading]
    false.  When the request is answered with an [ok] response whose body
    parses, the quizzes are replaced by the data, the error is cleared and
    nothing is told; in every other case the quizzes stay as they were,
    one notice of failure is raised, and the error kept is the one that
    was raised when that is an [Error] (for a response that is not [ok],
    [Failed to fetch quizzes]) and [Failed to load quizzes] otherwise. *)
Theorem fetchQuizzes_outcome (r : Quizzes.fetched) (s : Quizzes.scene) :
  let out := Quizzes.fetchQuizzes r s in
  let s' := Quizzes.cells (snd out) in
  let shown' := Quizzes.shown (snd out) in
  let failed :=
    Quizzes.shown s
    ++ [Console Error "Error fetching quizzes:"; Toast Quizzes.load_failed] in
  fst out = Normal tt
  /\ Quizzes.isLoading s' = false
  /\ match r with
     | Quizzes.Responded true (Quizzes.Parsed data) =>
         Quizzes.quizzes s' = data
         /\ Quizzes.error s' = None
         /\ shown' = Quizzes.shown s
     | Quizzes.Rejected t | Quizzes.Responded true (Quizzes.Unparsable t) =>
         Quizzes.quizzes s' = Quizzes.quizzes (Quizzes.cells s)
         /\ Quizzes.error s' = Some (Quizzes.as_Error t)
         /\ shown' = failed
     | Quizzes.Responded false _ =>
         Quizzes.quizzes s' = Quizzes.quizzes (Quizzes.cells s)
         /\ Quizzes.error s' = Some (new_Error "Failed to fetch quizzes")
         /\ shown' = failed
     end.
Proof.
  destruct s as [cells shown].
  destruct r as [t | [] [data | t]];
    cbv beta iota zeta delta
      [Quizzes.fetchQuizzes Gen.bind Gen.try_finally Gen.try_catch
       Gen.when Gen.throw Gen.ret Quizzes.await_fetch Quizzes.await_json
       Quizzes.set Quizzes.emit fst snd negb Quizzes.cells Quizzes.shown
       Quizzes.apply Quizzes.quizzes Quizzes.isLoading Quizzes.error].
  all: rewrite <- ?app_assoc.
  all: repeat split.
Qed.

(** X17. After [fetchQuizzes] the component shows exactly one panel, and
    never the spinner: the error panel when the load failed, even over
    quizzes loaded before, which stay in the cells unseen; the empty card
    or the grid when it succeeded. *)
Theorem quizzes_view_after_load (r : Quizzes.fetched) (s : Quizzes.scene) :
  let s' := Quizzes.cells (snd (Quizzes.fetchQuizzes r s)) in
  match Quizzes.error s' with
  | Some e => Quizzes.view s' = [Quizzes.ErrorPanel (message e)]
  | None =>
      Quizzes.view s'
      = match Quizzes.quizzes s' with
        | [] => [Quizzes.EmptyCard]
        | _ :: _ => [Quizzes.Grid (Quizzes.quizzes s')]
        end
  end.
Proof.
  intros s'. subst s'.
  pose proof (fetchQuizzes_outcome r s) as H. cbv zeta in H.
  destruct H as (_ & Hl & _).
  unfold Quizzes.view. rewrite Hl.
  destruct (Quizzes.error _) as [e |]; [reflexivity |].
  destruct (Quizzes.quizzes _) as [| q l]; reflexivity.
Qed.

(** ** The navigation *)

Lemma prefix_refl s : String.prefix s s = true.
Proof.
  induction s as [| a s IH]; [reflexivity |].
  cbn. destruct (ascii_dec a a); [exact IH | contradiction].
Qed.

Lemma prefix_app s t : String.prefix s (s ++ t) = true.
Proof.
  induction s as [| a s IH]; [destruct t; reflexivity |].
  cbn. destruct (ascii_dec a a); [exact IH | contradiction].
Qed.

Lemma prefix_app_l a b p :
  String.prefix (a ++ b) p = true -> String.prefix a p = true.
Proof.
  revert p. induction a as [| x a IH]; intros p H.
  - destruct p; reflexivity.
  - destruct p as [| y p]; [discriminate H |].
    cbn in *. destruct (ascii_dec x y); [apply IH; exact H | discriminate H].
Qed.

Lemma active_prefix p href :
  Nav.isActive (Some p) href = true -> String.prefix href p = true.
Proof.
  unfold Nav.isActive. intros H. apply orb_prop in H. destruct H as [H | H].
  - apply String.eqb_eq in H. subst. apply prefix_refl.
  - apply (prefix_app_l href "/" p H).
Qed.

(** No path starts with two of the four: they differ by their second
    character. *)
Ltac two_prefixes :=
  let p := fresh "p" in
  let H1 := fresh in
  let H2 := fresh in
  intros p H1 H2;
  apply prefix_cons in H1; destruct H1 as (p1 & -> & H1);
  apply prefix_cons in H1; destruct H1 as (p2 & -> & H1);
  apply prefix_cons in H2; destruct H2 as (q1 & Hq1 & H2);
  apply prefix_cons in H2; destruct H2 as (q2 & -> & H2);
  discriminate Hq1.

Lemma at_most_one_start (h1 h2 : string) :
  In h1 (map snd Nav.navItems) -> In h2 (map snd Nav.navItems) ->
  h1 <> h2 ->
  forall p, String.prefix h1 p = true -> String.prefix h2 p = true -> False.
Proof.
  cbn [Nav.navItems map snd In].
  intros [<- | [<- | [<- | [<- | []]]]] [<- | [<- | [<- | [<- | []]]]] Hne;
    try (exfalso; apply Hne; reflexivity); clear Hne.
  all: two_prefixes.
Qed.

Lemma active_at_most_one pathname :
  (List.length (Nav.active pathname) <= 1)%nat.
Proof.
  destruct pathname as [p |]; [| cbn; lia].
  unfold Nav.active, Nav.navItems. cbn [filter snd].
  destruct (Nav.isActive (Some p) "/dashboard") eqn:H1;
    destruct (Nav.isActive (Some p) "/quizzes") eqn:H2;
    destruct (Nav.isActive (Some p) "/content") eqn:H3;
    destruct (Nav.isActive (Some p) "/progress") eqn:H4;
    cbn [List.length]; try lia; exfalso;
    repeat match goal with
           | H : Nav.isActive (Some p) _ = true |- _ =>
               apply active_prefix in H
           end;
    match goal with
    | Ha : String.prefix ?h1 p = true, Hb : String.prefix ?h2 p = true
      |- _ =>
        apply (at_most_one_start h1 h2) with (p := p);
        [ cbn; auto 6 | cbn; auto 6 | discriminate | exact Ha | exact Hb ]
    end.
Qed.

Lemma only_active pathname item :
  In item Nav.navItems -> Nav.isActive pathname (snd item) = true ->
  Nav.active pathname = [item].
Proof.
  intros Hin Hact.
  assert (H : In item (Nav.active pathname)).
  { apply filter_In. auto. }
  pose proof (active_at_most_one pathname) as Hlen.
  destruct (Nav.active pathname) as [| x [| y l]]; cbn in *.
  - contradiction.
  - destruct H as [-> | []]. reflexivity.
  - lia.
Qed.

(** X24. The navigation highlights at most one item, whatever the path
    name, and none when there is no path name; on the page of an item, and
    on every page below it, it highlights that item alone. *)
Theorem navigation_highlights_one_item (pathname : option string) :
  (List.length (Nav.active pathname) <= 1)%nat
  /\ Nav.active None = []
  /\ forall item rest,
       In item Nav.navItems ->
       Nav.active (Some (snd item)) = [item]
       /\ Nav.active (Some (snd item ++ "/" ++ rest)%string) = [item].
Proof.
  split; [apply active_at_most_one |]. split; [reflexivity |].
  intros item rest Hin. split; apply only_active; try exact Hin.
  - unfold Nav.isActive. rewrite String.eqb_refl. reflexivity.
  - unfold Nav.isActive.
    replace (snd item ++ "/" ++ rest)%string
      with ((snd item ++ "/") ++ rest)%string.
    + rewrite prefix_app. apply orb_true_r.
    + generalize (snd item). intros h.
      induction h as [| c h IH]; [reflexivity |].
      change ((String c h ++ "/") ++ rest)%string
        with (String c ((h ++ "/") ++ rest))%string.
      rewrite IH. reflexivity.
Qed.

(** A path that only begins like that of an item highlights nothing. *)
Example navigation_needs_a_boundary :
  Nav.active (Some "/quizzes-archive") = []
  /\ Nav.active (Some "/quizzes/12/review") = [("Quizzes", "/quizzes")].
Proof. split; reflexivity. Qed.
